(** * Membership lifecycle and billing ledger

    A shallow embedding of the Express route handlers of
    [Backend/routes/students.js] (enrol, edit, renew, status, delete) and
    [Backend/routes/collections.js] (payment against a history row), over an
    explicit model of the four tables they touch.

    Modelling conventions.
    - A table is the list of its rows, in insertion order.  No uniqueness or
      foreign-key constraint is enforced by the store: the handlers implement
      exclusivity by check-then-act.
    - Amounts are JavaScript numbers, that is IEEE 754 binary64 values:
      [+], [-], [<], [<=] and [>] on them are the operations of [PrimFloat].
      A [numeric] column gives back the number that was bound to it; a
      column that holds [NULL] reads as [NaN], as [parseFloat(null)] does.
    - Row identifiers arrive as JSON numbers; [None] is an absent field.
    - Every [client.query] / [pool.query] call site of a handler carries a
      number; a fault plan says which sites reject (a storage failure).
    - The three id sequences are part of the store but not of its
      transactions: [ROLLBACK] gives the tables back, not the ids drawn.
      Of the sequences after a failed call the theorems use only that none
      is behind where it was. *)

From Stdlib Require Import ZArith List String Bool Lia Floats.
Import ListNotations.
Local Open Scope string_scope.
Local Open Scope list_scope.
Local Open Scope Z_scope.
Set Warnings "-inexact-float".

(** ** JavaScript values of the request body *)

Inductive jsnum : Type :=
| JUndefined
| JNull
| JNumber (x : float)
| JGarbage.

(** A JavaScript number, or what a [numeric] column reads as. *)
Definition num : Type := float.

(** [x || 0] on a number: [NaN], [0] and [-0] are falsy. *)
Definition or0 (x : float) : float :=
  if PrimFloat.is_nan x || PrimFloat.eqb x 0 then 0%float else x.

(** [parseFloat(x)] on a number: [x] is printed and read back, which gives
    [x] again except for [-0], printed as ["0"]. *)
Definition parseFloat_number (x : float) : float :=
  if PrimFloat.eqb x 0 then 0%float else x.

(** [parseFloat(x || 0)] *)
Definition parseFloat_or0 (x : jsnum) : num :=
  match x with
  | JUndefined => 0%float
  | JNull => 0%float
  | JNumber x => parseFloat_number (or0 x)
  | JGarbage => PrimFloat.nan
  end.

(** [x !== undefined ? parseFloat(x) : 0] *)
Definition parseFloat_def0 (x : jsnum) : num :=
  match x with
  | JUndefined => 0%float
  | JNull => PrimFloat.nan
  | JNumber x => parseFloat_number x
  | JGarbage => PrimFloat.nan
  end.

Definition isNaN (v : num) : bool := PrimFloat.is_nan v.

(** [v < 0]; every comparison with [NaN] is false. *)
Definition lt0 (v : num) : bool := PrimFloat.ltb v 0.

(** [a + b] and [a - b] *)
Definition nadd (a b : num) : num := PrimFloat.add a b.

Definition nsub (a b : num) : num := PrimFloat.sub a b.

(** [parseFloat(col) || 0] on a stored column *)
Definition read_or0 (c : num) : float := or0 c.

(** What a [numeric] column makes of a raw body value: [undefined] and
    [null] are stored as [NULL], a number as it prints; [None] is the store
    rejecting the parameter. *)
Definition to_numeric (x : jsnum) : option num :=
  match x with
  | JUndefined => Some PrimFloat.nan
  | JNull => Some PrimFloat.nan
  | JNumber x => Some (parseFloat_number x)
  | JGarbage => None
  end.

(** Text fields: [None] is [undefined] / [null]. *)
Definition text : Type := option string.

Definition falsy (t : text) : bool :=
  match t with None => true | Some s => String.eqb s "" end.

(** [t || null] *)
Definition or_null (t : text) : text := if falsy t then None else t.

(** [t || ''] *)
Definition or_empty (t : text) : text := if falsy t then Some "" else t.

(** Truthiness of an identifier: [undefined], [null] and [0] are falsy. *)
Definition truthy_id (o : option Z) : bool :=
  match o with Some z => negb (z =? 0) | None => false end.

(** [x ? parseInt(x, 10) : null] *)
Definition parseInt_or_null (o : option Z) : option Z :=
  if truthy_id o then o else None.

(** ** Rows *)

Inductive status_label : Type := active | expired.

Record identity : Type := mkIdentity {
  name : text;
  email : text;
  phone : text;
  address : text;
  registration_number : text;
  father_name : text;
  aadhar_number : text;
  profile_image_url : text;
  aadhaar_front_url : text;
  aadhaar_back_url : text;
  remark : text
}.

(** Table [students] ([created_at] is written once and never read). *)
Record student : Type := mkStudent {
  s_id : Z;
  s_identity : identity;
  s_branch_id : option Z;
  s_membership_start : option Z;
  s_membership_end : option Z;
  s_total_fee : num;
  s_amount_paid : num;
  s_due_amount : num;
  s_cash : num;
  s_online : num;
  s_security_money : num;
  s_discount : num;
  s_status : status_label;
  s_locker_id : option Z;
  s_is_active : bool
}.

(** Table [student_membership_history]. *)
Record hrow : Type := mkHrow {
  h_id : Z;
  h_student_id : Z;
  h_identity : identity;
  h_membership_start : option Z;
  h_membership_end : option Z;
  h_status : status_label;
  h_total_fee : num;
  h_amount_paid : num;
  h_due_amount : num;
  h_cash : num;
  h_online : num;
  h_security_money : num;
  h_seat_id : option Z;
  h_shift_id : option Z;
  h_branch_id : option Z;
  h_locker_id : option Z;
  h_discount : num;
  h_changed_at : Z
}.

(** Table [seat_assignments]. *)
Record assignment : Type := mkAssignment {
  a_id : Z;
  a_seat_id : option Z;
  a_shift_id : Z;
  a_student_id : Z
}.

(** Table [locker] (the columns the lifecycle handlers read or write). *)
Record locker_row : Type := mkLocker {
  l_id : Z;
  l_is_assigned : bool;
  l_student_id : option Z
}.

Record db : Type := mkDb {
  students : list student;
  student_membership_history : list hrow;
  seat_assignments : list assignment;
  locker : list locker_row;
  seats : list Z;
  schedules : list Z;
  next_student_id : Z;
  next_history_id : Z;
  next_assignment_id : Z
}.

(** ** Responses

    A handler answers with an HTTP status and a message.  [kind_of] files
    the answer under the error kinds of the specification by its message:
    the 400s "Required fields ...", "... must be a valid non-negative
    number", "... does not exist", "Invalid payment ..." and "is_active must
    be a boolean" are [ValidationError]; the 400s "... already assigned
    ..." and "Payment ... exceeds the due amount" are [Conflict]; 404 is
    [NotFound]; 500 is [Internal]. *)

Inductive kind : Type := Ok | ValidationError | Conflict | NotFound | Internal.

Record response : Type := Resp { code : Z; kind_of : kind }.

Definition succeeded (r : response) : bool :=
  match kind_of r with Ok => true | _ => false end.

(** ** Handler bodies: statements over a working copy of the store *)

Inductive outcome (A : Type) : Type :=
| Next (a : A) (d : db)
| Respond (r : response) (d : db)
| Thrown (d : db).

Arguments Next {A} a d.
Arguments Respond {A} r d.
Arguments Thrown {A} d.

Definition tx (A : Type) : Type := db -> outcome A.

Definition ret {A : Type} (a : A) : tx A := fun d => Next a d.

Definition bind {A B : Type} (m : tx A) (k : A -> tx B) : tx B :=
  fun d =>
    match m d with
    | Next a d' => k a d'
    | Respond r d' => Respond r d'
    | Thrown d' => Thrown d'
    end.

Declare Scope tx_scope.
Delimit Scope tx_scope with tx.
Notation "x <- m ;; k" := (bind m (fun x => k))
  (at level 61, m at next level, right associativity) : tx_scope.
Notation "m ;;; k" := (bind m (fun _ => k))
  (at level 61, right associativity) : tx_scope.
Local Open Scope tx_scope.

(** [return res.status(c).json(...)] *)
Definition respond {A : Type} (r : response) : tx A := fun d => Respond r d.

(** An exception raised inside the [try] block. *)
Definition throw {A : Type} : tx A := fun d => Thrown d.

(** A fault plan: the call sites whose query is rejected by the store. *)
Definition faults : Type := nat -> bool.

Definition no_faults : faults := fun _ => false.

(** The store rejects the query of one call site. *)
Definition fails_at (site : nat) : faults := fun k => Nat.eqb k site.

(** One [await client.query(...)] at call site [site]. *)
Definition query {A : Type} (f : faults) (site : nat) (q : db -> A * db) : tx A :=
  fun d => if f site then Thrown d else let (a, d') := q d in Next a d'.

(** The tables of [d0] with the id sequences of [d]. *)
Definition keep_sequences (d0 d : db) : db :=
  mkDb (students d0) (student_membership_history d0) (seat_assignments d0)
       (locker d0) (seats d0) (schedules d0)
       (next_student_id d) (next_history_id d) (next_assignment_id d).

(** [await client.query('ROLLBACK')]: the tables go back to the snapshot
    taken at [BEGIN]; ids drawn from the sequences since then stay drawn. *)
Definition rollback (d0 : db) : tx unit :=
  fun d => Next tt (keep_sequences d0 d).

(** [for (const x of l) { body }] *)
Fixpoint for_each {A : Type} (l : list A) (body : A -> tx unit) : tx unit :=
  match l with
  | [] => ret tt
  | x :: l' => body x ;;; for_each l' body
  end.

(** [BEGIN ... COMMIT] with [catch { ROLLBACK; 500 }].  A [return] that was
    not preceded by [ROLLBACK] leaves the working copy as it is. *)
Definition transaction (body : db -> tx response) (d0 : db) : response * db :=
  match body d0 d0 with
  | Next r d => (r, d)
  | Respond r d => (r, d)
  | Thrown d => (Resp 500 Internal, keep_sequences d0 d)
  end.

(** Statements sent through [pool.query] on a connection that is not inside
    a transaction: each one commits on its own, and [catch] only answers
    500. *)
Definition autocommit (body : tx response) (d0 : db) : response * db :=
  match body d0 with
  | Next r d => (r, d)
  | Respond r d => (r, d)
  | Thrown d => (Resp 500 Internal, d)
  end.

(** ** SQL statements *)

Definition set_students (l : list student) (d : db) : db :=
  mkDb l (student_membership_history d) (seat_assignments d) (locker d)
       (seats d) (schedules d)
       (next_student_id d) (next_history_id d) (next_assignment_id d).

Definition set_history (l : list hrow) (d : db) : db :=
  mkDb (students d) l (seat_assignments d) (locker d)
       (seats d) (schedules d)
       (next_student_id d) (next_history_id d) (next_assignment_id d).

Definition set_assignments (l : list assignment) (d : db) : db :=
  mkDb (students d) (student_membership_history d) l (locker d)
       (seats d) (schedules d)
       (next_student_id d) (next_history_id d) (next_assignment_id d).

Definition set_locker (l : list locker_row) (d : db) : db :=
  mkDb (students d) (student_membership_history d) (seat_assignments d) l
       (seats d) (schedules d)
       (next_student_id d) (next_history_id d) (next_assignment_id d).

(** [SELECT * FROM student_membership_history WHERE id = $1] *)
Definition select_history (hid : Z) (d : db) : list hrow * db :=
  (filter (fun h => h_id h =? hid) (student_membership_history d), d).

(** [SELECT * FROM students WHERE id = $1] *)
Definition select_student (sid : Z) (d : db) : list student * db :=
  (filter (fun s => s_id s =? sid) (students d), d).

(** [UPDATE students SET cash, online, amount_paid, due_amount WHERE id] *)
Definition pay_student (c o p due : float) (s : student) : student :=
  mkStudent (s_id s) (s_identity s) (s_branch_id s)
            (s_membership_start s) (s_membership_end s)
            (s_total_fee s) p due c o
            (s_security_money s) (s_discount s) (s_status s)
            (s_locker_id s) (s_is_active s).

Definition update_student_payment (sid : Z) (c o p due : float) (d : db)
  : unit * db :=
  (tt, set_students
         (map (fun s => if s_id s =? sid then pay_student c o p due s else s)
              (students d)) d).

(** [UPDATE student_membership_history SET cash, online, amount_paid,
    due_amount WHERE id] *)
Definition pay_hrow (c o p due : float) (h : hrow) : hrow :=
  mkHrow (h_id h) (h_student_id h) (h_identity h)
         (h_membership_start h) (h_membership_end h) (h_status h)
         (h_total_fee h) p due c o
         (h_security_money h) (h_seat_id h) (h_shift_id h) (h_branch_id h)
         (h_locker_id h) (h_discount h) (h_changed_at h).

Definition update_history_payment (hid : Z) (c o p due : float) (d : db)
  : unit * db :=
  (tt, set_history
         (map (fun h => if h_id h =? hid then pay_hrow c o p due h else h)
              (student_membership_history d)) d).

(** ** [PUT /api/collections/:historyId] *)

(** [payment_method === m ? payment_amount : 0] *)
Definition channel_amount (payment_method m : string) (amount : float)
  : float :=
  if String.eqb payment_method m then amount else 0%float.

(** [payment_amount] is [None] when the body value is not a JSON number. *)
Definition apply_payment (f : faults) (historyId : Z)
    (payment_amount : option float) (payment_method : string)
  : db -> response * db :=
  transaction (fun d0 =>
    match payment_amount with
    | None => rollback d0 ;;; respond (Resp 400 ValidationError)
    | Some amount =>
      if PrimFloat.leb amount 0 then
        rollback d0 ;;; respond (Resp 400 ValidationError)
      else if negb (String.eqb payment_method "cash"
                    || String.eqb payment_method "online") then
        rollback d0 ;;; respond (Resp 400 ValidationError)
      else
        historyRes <- query f 1 (select_history historyId) ;;
        match historyRes with
        | [] => rollback d0 ;;; respond (Resp 404 NotFound)
        | history :: _ =>
          let studentId := h_student_id history in
          let history_due_amount := read_or0 (h_due_amount history) in
          if PrimFloat.ltb (history_due_amount + 0.01)%float amount then
            rollback d0 ;;; respond (Resp 400 Conflict)
          else
            studentRes <- query f 2 (select_student studentId) ;;
            match studentRes with
            | [] => rollback d0 ;;; respond (Resp 404 NotFound)
            | student :: _ =>
              let new_student_cash :=
                (read_or0 (s_cash student)
                 + channel_amount payment_method "cash" amount)%float in
              let new_student_online :=
                (read_or0 (s_online student)
                 + channel_amount payment_method "online" amount)%float in
              let new_student_amount_paid :=
                (read_or0 (s_amount_paid student) + amount)%float in
              let new_student_due_amount :=
                (read_or0 (s_due_amount student) - amount)%float in
              query f 3 (update_student_payment studentId
                           new_student_cash new_student_online
                           new_student_amount_paid new_student_due_amount) ;;;
              let new_history_cash :=
                (read_or0 (h_cash history)
                 + channel_amount payment_method "cash" amount)%float in
              let new_history_online :=
                (read_or0 (h_online history)
                 + channel_amount payment_method "online" amount)%float in
              let new_history_amount_paid :=
                (read_or0 (h_amount_paid history) + amount)%float in
              let new_history_due_amount :=
                (history_due_amount - amount)%float in
              query f 4 (update_history_payment historyId
                           new_history_cash new_history_online
                           new_history_amount_paid new_history_due_amount) ;;;
              ret (Resp 200 Ok)
            end
        end
    end).

(** ** Request body of the [students] routes *)

Record body : Type := mkBody {
  b_identity : identity;
  b_branch_id : option Z;
  b_membership_start : option Z;
  b_membership_end : option Z;
  b_total_fee : jsnum;
  b_amount_paid : jsnum;
  b_cash : jsnum;
  b_online : jsnum;
  b_security_money : jsnum;
  b_discount : jsnum;
  b_shift_ids : list Z;
  b_seat_id : option Z;
  b_locker_id : option Z
}.

Definition missing {A : Type} (o : option A) : bool :=
  match o with None => true | Some _ => false end.

(** [new Date(membership_end) < new Date() ? 'expired' : 'active'] *)
Definition status_at (now : Z) (membership_end : option Z) : status_label :=
  match membership_end with
  | Some e => if e <? now then expired else active
  | None => active
  end.

(** SQL equality of a column with a parameter that may be [NULL]. *)
Definition sql_eq (col : option Z) (param : option Z) : bool :=
  match col, param with
  | Some x, Some y => x =? y
  | _, _ => false
  end.

(** The text columns as [POST /] and [PUT /:id] bind them. *)
Definition stored_identity (i : identity) : identity :=
  mkIdentity (name i) (email i) (phone i) (address i)
             (or_null (registration_number i)) (or_null (father_name i))
             (or_null (aadhar_number i))
             (or_null (profile_image_url i)) (or_null (aadhaar_front_url i))
             (or_null (aadhaar_back_url i)) (or_null (remark i)).

(** The text columns as [POST /:id/renew] binds them. *)
Definition renewed_identity (i : identity) : identity :=
  mkIdentity (name i) (email i) (phone i) (address i)
             (registration_number i) (father_name i) (aadhar_number i)
             (or_null (profile_image_url i)) (or_null (aadhaar_front_url i))
             (or_null (aadhaar_back_url i)) (or_null (remark i)).

(** The text columns of a history row, copied from the returned student. *)
Definition history_identity (i : identity) : identity :=
  mkIdentity (name i) (email i) (phone i) (address i)
             (registration_number i) (father_name i) (aadhar_number i)
             (or_empty (profile_image_url i)) (or_empty (aadhaar_front_url i))
             (or_empty (aadhaar_back_url i)) (or_empty (remark i)).

(** [if (!firstShiftId) firstShiftId = shiftId] over the loop *)
Definition first_shift (shiftIds : list Z) : option Z :=
  fold_left (fun acc shiftId => if truthy_id acc then acc else Some shiftId)
            shiftIds None.

(** [SELECT 1 FROM seats WHERE id = $1] *)
Definition select_seat (seat : option Z) (d : db) : list Z * db :=
  (filter (fun s => sql_eq (Some s) seat) (seats d), d).

(** [SELECT 1 FROM schedules WHERE id = $1] *)
Definition select_schedule (shift : Z) (d : db) : list Z * db :=
  (filter (fun s => s =? shift) (schedules d), d).

(** [SELECT 1 FROM seat_assignments WHERE seat_id = $1 AND shift_id = $2] *)
Definition select_assignment (seat : option Z) (shift : Z) (d : db)
  : list assignment * db :=
  (filter (fun a => sql_eq (a_seat_id a) seat && (a_shift_id a =? shift))
          (seat_assignments d), d).

(** [... WHERE seat_id = $1 AND shift_id = $2 AND student_id != $3] *)
Definition select_assignment_of_other (seat : option Z) (shift id : Z) (d : db)
  : list assignment * db :=
  (filter (fun a => sql_eq (a_seat_id a) seat && (a_shift_id a =? shift)
                    && negb (a_student_id a =? id))
          (seat_assignments d), d).

(** [SELECT is_assigned, student_id FROM locker WHERE id = $1] *)
Definition select_locker (lockerId : option Z) (d : db) : list locker_row * db :=
  (filter (fun l => sql_eq (Some (l_id l)) lockerId) (locker d), d).

(** [INSERT INTO students (...) VALUES (...) RETURNING *] *)
Definition insert_student (row : Z -> student) (d : db) : student * db :=
  let s := row (next_student_id d) in
  (s, mkDb (students d ++ [s]) (student_membership_history d)
           (seat_assignments d) (locker d) (seats d) (schedules d)
           (next_student_id d + 1) (next_history_id d) (next_assignment_id d)).

(** [UPDATE locker SET is_assigned = true, student_id = $1 WHERE id = $2] *)
Definition assign_locker (lockerId : option Z) (id : Z) (d : db) : unit * db :=
  (tt, set_locker
         (map (fun l => if sql_eq (Some (l_id l)) lockerId
                        then mkLocker (l_id l) true (Some id) else l)
              (locker d)) d).

(** [UPDATE locker SET is_assigned = false, student_id = NULL WHERE id = $1] *)
Definition release_locker_by_id (lockerId : option Z) (d : db) : unit * db :=
  (tt, set_locker
         (map (fun l => if sql_eq (Some (l_id l)) lockerId
                        then mkLocker (l_id l) false None else l)
              (locker d)) d).

(** [UPDATE locker SET is_assigned = false, student_id = NULL
     WHERE student_id = $1] *)
Definition release_locker_by_student (id : Z) (d : db) : unit * db :=
  (tt, set_locker
         (map (fun l => if sql_eq (l_student_id l) (Some id)
                        then mkLocker (l_id l) false None else l)
              (locker d)) d).

(** [INSERT INTO seat_assignments (seat_id, shift_id, student_id)] *)
Definition insert_assignment (seat : option Z) (shift id : Z) (d : db)
  : unit * db :=
  (tt, mkDb (students d) (student_membership_history d)
            (seat_assignments d
               ++ [mkAssignment (next_assignment_id d) seat shift id])
            (locker d) (seats d) (schedules d)
            (next_student_id d) (next_history_id d) (next_assignment_id d + 1)).

(** [DELETE FROM seat_assignments WHERE student_id = $1] *)
Definition delete_assignments (id : Z) (d : db) : unit * db :=
  (tt, set_assignments
         (filter (fun a => negb (a_student_id a =? id)) (seat_assignments d)) d).

(** The history row written from a student row as returned by the store. *)
Definition snapshot (hid : Z) (s : student) (seat shift branch lockerId : option Z)
    (now : Z) : hrow :=
  mkHrow hid (s_id s) (history_identity (s_identity s))
         (s_membership_start s) (s_membership_end s) (s_status s)
         (s_total_fee s) (s_amount_paid s) (s_due_amount s)
         (s_cash s) (s_online s) (s_security_money s)
         seat shift branch lockerId (s_discount s) now.

(** [INSERT INTO student_membership_history (...) VALUES (..., NOW())] *)
Definition insert_history (s : student) (seat shift branch lockerId : option Z)
    (now : Z) (d : db) : unit * db :=
  (tt, mkDb (students d)
            (student_membership_history d
               ++ [snapshot (next_history_id d) s seat shift branch lockerId now])
            (seat_assignments d) (locker d) (seats d) (schedules d)
            (next_student_id d) (next_history_id d + 1) (next_assignment_id d)).

(** [UPDATE students SET ... WHERE id = $n RETURNING *] *)
Definition update_student (id : Z) (g : student -> student) (d : db)
  : list student * db :=
  let rows := map (fun s => if s_id s =? id then g s else s) (students d) in
  (filter (fun s => s_id s =? id) rows, set_students rows d).

(** [SELECT id FROM student_membership_history WHERE student_id = $1
     ORDER BY id DESC LIMIT 1] *)
Definition latest_history_id (id : Z) (rows : list hrow) : option Z :=
  fold_left
    (fun acc h =>
       if h_student_id h =? id then
         match acc with
         | Some m => Some (Z.max m (h_id h))
         | None => Some (h_id h)
         end
       else acc)
    rows None.

(** [UPDATE student_membership_history SET ... , changed_at = NOW()
     WHERE id = (SELECT ... LIMIT 1)]; [id] and [student_id] are not set. *)
Definition overwrite_latest_history (id : Z) (s : student)
    (seat shift lockerId : option Z) (now : Z) (d : db) : unit * db :=
  let target := latest_history_id id (student_membership_history d) in
  (tt, set_history
         (map (fun h =>
                 if sql_eq (Some (h_id h)) target then
                   mkHrow (h_id h) (h_student_id h)
                          (history_identity (s_identity s))
                          (s_membership_start s) (s_membership_end s)
                          (s_status s)
                          (s_total_fee s) (s_amount_paid s) (s_due_amount s)
                          (s_cash s) (s_online s) (s_security_money s)
                          seat shift (s_branch_id s) lockerId (s_discount s) now
                 else h)
              (student_membership_history d)) d).

(** [UPDATE students SET is_active = $1 WHERE id = $2 RETURNING *] *)
Definition with_is_active (flag : bool) (s : student) : student :=
  mkStudent (s_id s) (s_identity s) (s_branch_id s)
            (s_membership_start s) (s_membership_end s)
            (s_total_fee s) (s_amount_paid s) (s_due_amount s)
            (s_cash s) (s_online s) (s_security_money s) (s_discount s)
            (s_status s) (s_locker_id s) flag.

(** [UPDATE students SET locker_id = NULL WHERE id = $1] *)
Definition without_locker (s : student) : student :=
  mkStudent (s_id s) (s_identity s) (s_branch_id s)
            (s_membership_start s) (s_membership_end s)
            (s_total_fee s) (s_amount_paid s) (s_due_amount s)
            (s_cash s) (s_online s) (s_security_money s) (s_discount s)
            (s_status s) None (s_is_active s).

(** [DELETE FROM student_membership_history WHERE student_id = $1] *)
Definition delete_history (id : Z) (d : db) : unit * db :=
  (tt, set_history
         (filter (fun h => negb (h_student_id h =? id))
                 (student_membership_history d)) d).

(** [DELETE FROM students WHERE id = $1 RETURNING *] *)
Definition delete_student_row (id : Z) (d : db) : list student * db :=
  (filter (fun s => s_id s =? id) (students d),
   set_students (filter (fun s => negb (s_id s =? id)) (students d)) d).

(** ** [POST /api/students] (Enroll) *)

Definition invalid_amount (v : num) : bool := isNaN v || lt0 v.

Definition nonempty {A : Type} (l : list A) : bool :=
  match l with [] => false | _ :: _ => true end.

(** Lines 555-583: the seat must exist, every shift must exist, and no
    assignment may exist for any requested (seat, shift) pair. *)
Definition enroll_seat_checks (f : faults) (d0 : db)
    (seatIdNum : option Z) (shiftIdsNum : list Z) : tx unit :=
  if truthy_id seatIdNum && nonempty shiftIdsNum then
    seatCheck <- query f 1 (select_seat seatIdNum) ;;
    match seatCheck with
    | [] => rollback d0 ;;; respond (Resp 400 ValidationError)
    | _ :: _ =>
      for_each shiftIdsNum (fun shiftId =>
        shiftCheck <- query f 2 (select_schedule shiftId) ;;
        match shiftCheck with
        | [] => rollback d0 ;;; respond (Resp 400 ValidationError)
        | _ :: _ => ret tt
        end) ;;;
      for_each shiftIdsNum (fun shiftId =>
        checkAssignment <- query f 3 (select_assignment seatIdNum shiftId) ;;
        match checkAssignment with
        | [] => ret tt
        | _ :: _ => rollback d0 ;;; respond (Resp 400 Conflict)
        end)
    end
  else ret tt.

(** Lines 585-597: the locker must exist and its flag must be off. *)
Definition enroll_locker_check (f : faults) (d0 : db) (lockerIdNum : option Z)
  : tx unit :=
  if truthy_id lockerIdNum then
    lockerCheck <- query f 4 (select_locker lockerIdNum) ;;
    match lockerCheck with
    | [] => rollback d0 ;;; respond (Resp 400 ValidationError)
    | l :: _ =>
      if l_is_assigned l
      then rollback d0 ;;; respond (Resp 400 Conflict)
      else ret tt
    end
  else ret tt.

(** [if (lockerIdNum) { UPDATE locker SET is_assigned = true, ... }] *)
Definition assign_if_requested (f : faults) (site : nat)
    (lockerIdNum : option Z) (id : Z) : tx unit :=
  if truthy_id lockerIdNum
  then query f site (assign_locker lockerIdNum id)
  else ret tt.

(** [for (const shiftId of shiftIdsNum) { INSERT INTO seat_assignments }] *)
Definition insert_assignments (f : faults) (site : nat)
    (seatIdNum : option Z) (shiftIdsNum : list Z) (id : Z) : tx unit :=
  for_each shiftIdsNum (fun shiftId =>
    query f site (insert_assignment seatIdNum shiftId id)).

Definition enroll (f : faults) (now : Z) (b : body) : db -> response * db :=
  transaction (fun d0 =>
    if falsy (name (b_identity b)) || negb (truthy_id (b_branch_id b))
       || missing (b_membership_start b) || missing (b_membership_end b)
    then rollback d0 ;;; respond (Resp 400 ValidationError)
    else
      let branchIdNum := b_branch_id b in
      let seatIdNum := parseInt_or_null (b_seat_id b) in
      let lockerIdNum := parseInt_or_null (b_locker_id b) in
      let shiftIdsNum := b_shift_ids b in
      let feeValue := parseFloat_or0 (b_total_fee b) in
      let paidValue := parseFloat_or0 (b_amount_paid b) in
      let discountValue := parseFloat_or0 (b_discount b) in
      if invalid_amount feeValue then
        rollback d0 ;;; respond (Resp 400 ValidationError)
      else if invalid_amount paidValue then
        rollback d0 ;;; respond (Resp 400 ValidationError)
      else if invalid_amount discountValue then
        rollback d0 ;;; respond (Resp 400 ValidationError)
      else
      let cashValue := parseFloat_def0 (b_cash b) in
      let onlineValue := parseFloat_def0 (b_online b) in
      let securityMoneyValue := parseFloat_def0 (b_security_money b) in
      if invalid_amount cashValue then
        rollback d0 ;;; respond (Resp 400 ValidationError)
      else if invalid_amount onlineValue then
        rollback d0 ;;; respond (Resp 400 ValidationError)
      else if invalid_amount securityMoneyValue then
        rollback d0 ;;; respond (Resp 400 ValidationError)
      else
      let dueAmount := nsub (nsub feeValue discountValue) paidValue in
      enroll_seat_checks f d0 seatIdNum shiftIdsNum ;;;
      enroll_locker_check f d0 lockerIdNum ;;;
      let status := status_at now (b_membership_end b) in
      student <- query f 5 (insert_student (fun new_id =>
        mkStudent new_id (stored_identity (b_identity b)) branchIdNum
                  (b_membership_start b) (b_membership_end b)
                  feeValue paidValue dueAmount cashValue onlineValue
                  securityMoneyValue discountValue status lockerIdNum true)) ;;
      assign_if_requested f 6 lockerIdNum (s_id student) ;;;
      let firstShiftId := first_shift shiftIdsNum in
      insert_assignments f 7 seatIdNum shiftIdsNum (s_id student) ;;;
      query f 8 (insert_history student seatIdNum firstShiftId branchIdNum
                                lockerIdNum now) ;;;
      ret (Resp 201 Ok)).

(** ** [PUT /api/students/:id] (Edit) *)

(** [lockerCheck.rows[0].is_assigned && lockerCheck.rows[0].student_id != id] *)
Definition held_by_other (l : locker_row) (id : Z) : bool :=
  l_is_assigned l && negb (sql_eq (l_student_id l) (Some id)).

Definition locker_check (f : faults) (site : nat) (d0 : db)
    (lockerIdNum : option Z) (id : Z) : tx unit :=
  if truthy_id lockerIdNum then
    lockerCheck <- query f site (select_locker lockerIdNum) ;;
    match lockerCheck with
    | [] => rollback d0 ;;; respond (Resp 400 ValidationError)
    | l :: _ =>
      if held_by_other l id
      then rollback d0 ;;; respond (Resp 400 Conflict)
      else ret tt
    end
  else ret tt.

(** [if (previouslockerId) { UPDATE locker SET is_assigned = false, ... }] *)
Definition release_previous (f : faults) (site : nat)
    (previouslockerId : option Z) : tx unit :=
  if truthy_id previouslockerId
  then query f site (release_locker_by_id previouslockerId)
  else ret tt.

Definition edit (f : faults) (now : Z) (id : Z) (b : body)
  : db -> response * db :=
  transaction (fun d0 =>
    if falsy (name (b_identity b)) || falsy (phone (b_identity b))
       || falsy (address (b_identity b)) || negb (truthy_id (b_branch_id b))
       || missing (b_membership_start b) || missing (b_membership_end b)
    then rollback d0 ;;; respond (Resp 400 ValidationError)
    else
      let seatIdNum := parseInt_or_null (b_seat_id b) in
      let lockerIdNum := parseInt_or_null (b_locker_id b) in
      let shiftIdsNum := b_shift_ids b in
      let feeValue := parseFloat_or0 (b_total_fee b) in
      let paidValue := parseFloat_or0 (b_amount_paid b) in
      let discountValue := parseFloat_or0 (b_discount b) in
      let dueAmountValue := nsub (nsub feeValue discountValue) paidValue in
      let status := status_at now (b_membership_end b) in
      locker_check f 1 d0 lockerIdNum id ;;;
      previouslockerCheck <- query f 2 (select_student id) ;;
      match previouslockerCheck with
      | [] => throw
      | previous :: _ =>
        let previouslockerId := s_locker_id previous in
        release_previous f 3 previouslockerId ;;;
        match to_numeric (b_cash b), to_numeric (b_online b),
              to_numeric (b_security_money b) with
        | Some cash, Some online, Some security_money =>
          result <- query f 4 (update_student id (fun s =>
            mkStudent (s_id s) (stored_identity (b_identity b)) (b_branch_id b)
                      (b_membership_start b) (b_membership_end b)
                      feeValue paidValue dueAmountValue cash online
                      security_money discountValue status lockerIdNum
                      (s_is_active s))) ;;
          match result with
          | [] => rollback d0 ;;; respond (Resp 404 NotFound)
          | updatedStudent :: _ =>
            assign_if_requested f 5 lockerIdNum id ;;;
            let firstShiftId := first_shift shiftIdsNum in
            query f 6 (delete_assignments id) ;;;
            insert_assignments f 7 seatIdNum shiftIdsNum id ;;;
            query f 8 (overwrite_latest_history id updatedStudent seatIdNum
                                                firstShiftId lockerIdNum now) ;;;
            ret (Resp 200 Ok)
          end
        | _, _, _ => throw
        end
      end).

(** ** [POST /api/students/:id/renew] (Renew) *)

(** Lines 914-925: no other member may hold a requested (seat, shift). *)
Definition renew_seat_checks (f : faults) (d0 : db)
    (seatIdNum : option Z) (shiftIdsNum : list Z) (id : Z) : tx unit :=
  if truthy_id seatIdNum && nonempty shiftIdsNum then
    for_each shiftIdsNum (fun shiftId =>
      checkAssignment <-
        query f 1 (select_assignment_of_other seatIdNum shiftId id) ;;
      match checkAssignment with
      | [] => ret tt
      | _ :: _ => rollback d0 ;;; respond (Resp 400 Conflict)
      end)
  else ret tt.

Definition renew (f : faults) (now : Z) (id : Z) (b : body)
  : db -> response * db :=
  transaction (fun d0 =>
    if missing (b_membership_start b) || missing (b_membership_end b)
       || falsy (name (b_identity b)) || falsy (phone (b_identity b))
       || negb (truthy_id (b_branch_id b))
    then rollback d0 ;;; respond (Resp 400 ValidationError)
    else
      let branchIdNum := b_branch_id b in
      let seatIdNum := parseInt_or_null (b_seat_id b) in
      let lockerIdNum := parseInt_or_null (b_locker_id b) in
      let shiftIdsNum := b_shift_ids b in
      let feeValue := parseFloat_or0 (b_total_fee b) in
      let cashValue := parseFloat_or0 (b_cash b) in
      let onlineValue := parseFloat_or0 (b_online b) in
      let securityMoneyValue := parseFloat_or0 (b_security_money b) in
      let discountValue := parseFloat_or0 (b_discount b) in
      let amount_paid := nadd cashValue onlineValue in
      let due_amount := nsub (nsub feeValue discountValue) amount_paid in
      let status := status_at now (b_membership_end b) in
      renew_seat_checks f d0 seatIdNum shiftIdsNum id ;;;
      locker_check f 2 d0 lockerIdNum id ;;;
      query f 3 (release_locker_by_student id) ;;;
      upd <- query f 4 (update_student id (fun s =>
        mkStudent (s_id s) (renewed_identity (b_identity b)) branchIdNum
                  (b_membership_start b) (b_membership_end b)
                  feeValue amount_paid due_amount cashValue onlineValue
                  securityMoneyValue discountValue status lockerIdNum
                  (s_is_active s))) ;;
      match upd with
      | [] => rollback d0 ;;; respond (Resp 404 NotFound)
      | updated :: _ =>
        assign_if_requested f 5 lockerIdNum id ;;;
        let firstShiftId := first_shift shiftIdsNum in
        query f 6 (delete_assignments id) ;;;
        insert_assignments f 7 seatIdNum shiftIdsNum id ;;;
        query f 8 (insert_history updated seatIdNum firstShiftId branchIdNum
                                  lockerIdNum now) ;;;
        ret (Resp 200 Ok)
      end).

(** ** [PUT /api/students/:id/status] (Deactivate / reactivate) *)

(** [if (is_active === false) { ... }]: lines 223-227. *)
Definition release_if_deactivated (f : faults) (id : Z) (flag : bool) : tx unit :=
  if negb flag then
    query f 2 (delete_assignments id) ;;;
    query f 3 (update_student id without_locker) ;;;
    query f 4 (release_locker_by_student id)
  else ret tt.

(** [is_active] is [None] when the body value is not a boolean.  The two
    early returns are not preceded by [ROLLBACK]. *)
Definition set_status (f : faults) (id : Z) (is_active : option bool)
  : db -> response * db :=
  transaction (fun d0 =>
    match is_active with
    | None => respond (Resp 400 ValidationError)
    | Some flag =>
      updatedStudent <- query f 1 (update_student id (with_is_active flag)) ;;
      match updatedStudent with
      | [] => respond (Resp 404 NotFound)
      | _ :: _ =>
        release_if_deactivated f id flag ;;;
        ret (Resp 200 Ok)
      end
    end).

(** ** [DELETE /api/students/:id] (Delete)

    No [BEGIN]: four statements through [pool.query], here on a connection
    outside any transaction ([delete_student_on] has the other case). *)

Definition delete_student (f : faults) (id : Z) : db -> response * db :=
  autocommit (
    query f 1 (delete_assignments id) ;;;
    query f 2 (release_locker_by_student id) ;;;
    query f 3 (delete_history id) ;;;
    del <- query f 4 (delete_student_row id) ;;
    match del with
    | [] => respond (Resp 404 NotFound)
    | _ :: _ => ret (Resp 200 Ok)
    end).

(** * Properties *)

(** ** Row lookup by primary key *)

Definition find_history (hid : Z) (d : db) : option hrow :=
  find (fun h => h_id h =? hid) (student_membership_history d).

Definition find_student (id : Z) (d : db) : option student :=
  find (fun s => s_id s =? id) (students d).

(** Number of history rows of a member. *)
Definition count_history (id : Z) (d : db) : nat :=
  List.length (filter (fun h => h_student_id h =? id) (student_membership_history d)).

(** ** The money columns shared by a head row and a history row *)

Record ledger : Type := mkLedger {
  lg_cash : num;
  lg_online : num;
  lg_amount_paid : num;
  lg_due : num
}.

Definition ledger_of_student (s : student) : ledger :=
  mkLedger (s_cash s) (s_online s) (s_amount_paid s) (s_due_amount s).

Definition ledger_of_hrow (h : hrow) : ledger :=
  mkLedger (h_cash h) (h_online h) (h_amount_paid h) (h_due_amount h).

(** The column holds its previous reading plus [delta], as JavaScript adds. *)
Definition moved_by (delta : float) (old new : num) : Prop :=
  new = (read_or0 old + delta)%float.

(** The column holds its previous reading minus [delta], as JavaScript
    subtracts. *)
Definition lowered_by (delta : float) (old new : num) : Prop :=
  new = (read_or0 old - delta)%float.

(** A payment of [amount] through [channel] was booked on the ledger. *)
Definition payment_booked (channel : string) (amount : float) (old new : ledger)
  : Prop :=
  (channel = "cash" ->
     moved_by amount (lg_cash old) (lg_cash new)
     /\ moved_by 0 (lg_online old) (lg_online new))
  /\ (channel = "online" ->
     moved_by amount (lg_online old) (lg_online new)
     /\ moved_by 0 (lg_cash old) (lg_cash new))
  /\ moved_by amount (lg_amount_paid old) (lg_amount_paid new)
  /\ lowered_by amount (lg_due old) (lg_due new).

(** Columns of a head row that a payment does not write. *)
Definition same_student_but_ledger (s s' : student) : Prop :=
  s_id s' = s_id s /\ s_identity s' = s_identity s
  /\ s_branch_id s' = s_branch_id s
  /\ s_membership_start s' = s_membership_start s
  /\ s_membership_end s' = s_membership_end s
  /\ s_total_fee s' = s_total_fee s /\ s_discount s' = s_discount s
  /\ s_security_money s' = s_security_money s
  /\ s_status s' = s_status s /\ s_locker_id s' = s_locker_id s
  /\ s_is_active s' = s_is_active s.

(** Columns of a history row that a payment does not write. *)
Definition same_hrow_but_ledger (h h' : hrow) : Prop :=
  h_id h' = h_id h /\ h_student_id h' = h_student_id h
  /\ h_identity h' = h_identity h
  /\ h_membership_start h' = h_membership_start h
  /\ h_membership_end h' = h_membership_end h
  /\ h_status h' = h_status h
  /\ h_total_fee h' = h_total_fee h /\ h_discount h' = h_discount h
  /\ h_security_money h' = h_security_money h
  /\ h_seat_id h' = h_seat_id h /\ h_shift_id h' = h_shift_id h
  /\ h_branch_id h' = h_branch_id h /\ h_locker_id h' = h_locker_id h
  /\ h_changed_at h' = h_changed_at h.

(** [due = fee - discount - (cash + online)] on a head row, each column
    read and each operation carried out as the handlers do. *)
Definition ledger_balanced (s : student) : Prop :=
  read_or0 (s_due_amount s)
  = (read_or0 (s_total_fee s) - read_or0 (s_discount s)
     - (read_or0 (s_cash s) + read_or0 (s_online s)))%float.

(** ** Sample data *)

Definition sample_identity (n : string) : identity :=
  mkIdentity (Some n) None (Some "9000000001") (Some "12 Park Road")
             None None None None None None None.

(** A branch with two seats, two shifts and one free locker. *)
Definition opening_db : db :=
  mkDb [] [] [] [mkLocker 1 false None] [1; 2] [1; 2] 1 1 1.

(** fee 1000, discount 0, amount paid 400 (cash 400), seat 1 in shift 1. *)
Definition first_enrolment : body :=
  mkBody (sample_identity "Asha") (Some 1) (Some 10) (Some 40)
         (JNumber 1000%float) (JNumber 400%float) (JNumber 400%float) (JNumber 0%float)
         JUndefined (JNumber 0%float) [1] (Some 1) None.

Definition enrolled_db : db := snd (enroll no_faults 20 first_enrolment opening_db).

(** The history row that the sample enrolment writes. *)
Definition first_period_row : hrow :=
  snapshot 1
    (mkStudent 1 (stored_identity (sample_identity "Asha"))
               (Some 1) (Some 10) (Some 40)
               1000%float 400%float
               (nsub (nsub 1000%float 0%float) 400%float)
               400%float 0%float 0%float 0%float
               active None true)
    (Some 1) (Some 1) (Some 1) None 20.

(** A second period for the sample member, paid in full: fee 1200, cash 1200. *)
Definition renewal : body :=
  mkBody (sample_identity "Asha") (Some 1) (Some 41) (Some 71)
         (JNumber 1200%float) JUndefined (JNumber 1200%float) (JNumber 0%float)
         JUndefined (JNumber 0%float) [1] (Some 1) None.

Definition renewed_db : db := snd (renew no_faults 41 1 renewal enrolled_db).

(** A period of three hundredths, nothing paid. *)
Definition small_fee_enrolment : body :=
  mkBody (sample_identity "Dev") (Some 1) (Some 10) (Some 40)
         (JNumber 0.03%float) (JNumber 0%float) (JNumber 0%float)
         (JNumber 0%float) JUndefined (JNumber 0%float) [] None None.

Definition small_due_db : db :=
  snd (enroll no_faults 20 small_fee_enrolment opening_db).

(** The store after one enrolment with the given fee and nothing paid. *)
Definition fee_only_enrolment (fee : float) : body :=
  mkBody (sample_identity "Esha") (Some 1) (Some 10) (Some 40)
         (JNumber fee) (JNumber 0%float) (JNumber 0%float)
         (JNumber 0%float) JUndefined (JNumber 0%float) [] None None.

Definition owing_db (fee : float) : db :=
  snd (enroll no_faults 20 (fee_only_enrolment fee) opening_db).


(** ** The store after a handler has run to [COMMIT] *)

Definition assigned_if_requested (lockerIdNum : option Z) (id : Z) (d : db) : db :=
  if truthy_id lockerIdNum then snd (assign_locker lockerIdNum id d) else d.

Definition released_previous (previouslockerId : option Z) (d : db) : db :=
  if truthy_id previouslockerId
  then snd (release_locker_by_id previouslockerId d) else d.

Definition inserted_assignments (seatIdNum : option Z) (shiftIdsNum : list Z)
    (id : Z) (d : db) : db :=
  fold_left (fun d1 shiftId => snd (insert_assignment seatIdNum shiftId id d1))
            shiftIdsNum d.

(** The row bound by the [INSERT INTO students] of Enroll. *)
Definition enroll_row (now : Z) (b : body) (new_id : Z) : student :=
  mkStudent new_id (stored_identity (b_identity b)) (b_branch_id b)
            (b_membership_start b) (b_membership_end b)
            (parseFloat_or0 (b_total_fee b)) (parseFloat_or0 (b_amount_paid b))
            (nsub (nsub (parseFloat_or0 (b_total_fee b))
                        (parseFloat_or0 (b_discount b)))
                  (parseFloat_or0 (b_amount_paid b)))
            (parseFloat_def0 (b_cash b)) (parseFloat_def0 (b_online b))
            (parseFloat_def0 (b_security_money b))
            (parseFloat_or0 (b_discount b))
            (status_at now (b_membership_end b))
            (parseInt_or_null (b_locker_id b)) true.

Definition enroll_effect (now : Z) (b : body) (d : db) : db :=
  let s := enroll_row now b (next_student_id d) in
  let seat := parseInt_or_null (b_seat_id b) in
  let lockerId := parseInt_or_null (b_locker_id b) in
  snd (insert_history s seat (first_shift (b_shift_ids b)) (b_branch_id b)
         lockerId now
         (inserted_assignments seat (b_shift_ids b) (s_id s)
            (assigned_if_requested lockerId (s_id s)
               (snd (insert_student (enroll_row now b) d))))).

(** The row written by the [UPDATE students] of Edit. *)
Definition edit_row (now : Z) (b : body) (cash online security_money : num)
    (s : student) : student :=
  mkStudent (s_id s) (stored_identity (b_identity b)) (b_branch_id b)
            (b_membership_start b) (b_membership_end b)
            (parseFloat_or0 (b_total_fee b)) (parseFloat_or0 (b_amount_paid b))
            (nsub (nsub (parseFloat_or0 (b_total_fee b))
                        (parseFloat_or0 (b_discount b)))
                  (parseFloat_or0 (b_amount_paid b)))
            cash online security_money
            (parseFloat_or0 (b_discount b))
            (status_at now (b_membership_end b))
            (parseInt_or_null (b_locker_id b)) (s_is_active s).

Definition edit_effect (now id : Z) (b : body) (previous : student)
    (cash online security_money : num) (d : db) : db :=
  let seat := parseInt_or_null (b_seat_id b) in
  let lockerId := parseInt_or_null (b_locker_id b) in
  snd (overwrite_latest_history id
         (edit_row now b cash online security_money previous)
         seat (first_shift (b_shift_ids b)) lockerId now
         (inserted_assignments seat (b_shift_ids b) id
            (snd (delete_assignments id
               (assigned_if_requested lockerId id
                  (snd (update_student id
                          (edit_row now b cash online security_money)
                          (released_previous (s_locker_id previous) d)))))))).

(** The row written by the [UPDATE students] of Renew. *)
Definition renew_row (now : Z) (b : body) (s : student) : student :=
  mkStudent (s_id s) (renewed_identity (b_identity b)) (b_branch_id b)
            (b_membership_start b) (b_membership_end b)
            (parseFloat_or0 (b_total_fee b))
            (nadd (parseFloat_or0 (b_cash b)) (parseFloat_or0 (b_online b)))
            (nsub (nsub (parseFloat_or0 (b_total_fee b))
                        (parseFloat_or0 (b_discount b)))
                  (nadd (parseFloat_or0 (b_cash b))
                        (parseFloat_or0 (b_online b))))
            (parseFloat_or0 (b_cash b)) (parseFloat_or0 (b_online b))
            (parseFloat_or0 (b_security_money b))
            (parseFloat_or0 (b_discount b))
            (status_at now (b_membership_end b))
            (parseInt_or_null (b_locker_id b)) (s_is_active s).

Definition renew_effect (now id : Z) (b : body) (previous : student) (d : db)
  : db :=
  let seat := parseInt_or_null (b_seat_id b) in
  let lockerId := parseInt_or_null (b_locker_id b) in
  snd (insert_history (renew_row now b previous) seat
         (first_shift (b_shift_ids b)) (b_branch_id b) lockerId now
         (inserted_assignments seat (b_shift_ids b) id
            (snd (delete_assignments id
               (assigned_if_requested lockerId id
                  (snd (update_student id (renew_row now b)
                          (snd (release_locker_by_student id d))))))))).

Definition status_effect (id : Z) (flag : bool) (d : db) : db :=
  let d1 := snd (update_student id (with_is_active flag) d) in
  if negb flag then
    snd (release_locker_by_student id
           (snd (update_student id without_locker
                   (snd (delete_assignments id d1)))))
  else d1.

Definition delete_effect (id : Z) (d : db) : db :=
  snd (delete_student_row id
         (snd (delete_history id
                 (snd (release_locker_by_student id
                         (snd (delete_assignments id d))))))).

(** The locker check of Edit and Renew let the request through. *)
Definition locker_admits (lockerIdNum : option Z) (id : Z) (d : db) : Prop :=
  truthy_id lockerIdNum = true ->
  exists l ls, fst (select_locker lockerIdNum d) = l :: ls
               /\ held_by_other l id = false.

(** The locker check of Enroll let the request through. *)
Definition locker_free (lockerIdNum : option Z) (d : db) : Prop :=
  truthy_id lockerIdNum = true ->
  exists l ls, fst (select_locker lockerIdNum d) = l :: ls
               /\ l_is_assigned l = false.

(** ** Tables and sequences *)

(** The six tables of [d'] are those of [d]. *)
Definition same_tables (d d' : db) : Prop :=
  students d' = students d
  /\ student_membership_history d' = student_membership_history d
  /\ seat_assignments d' = seat_assignments d
  /\ locker d' = locker d
  /\ seats d' = seats d
  /\ schedules d' = schedules d.

(** The next ids of the three sequences. *)
Definition sequences (d : db) : Z * Z * Z :=
  (next_student_id d, next_history_id d, next_assignment_id d).

(** No sequence of [d'] is behind that of [d]. *)
Definition sequences_grow (d d' : db) : Prop :=
  next_student_id d <= next_student_id d'
  /\ next_history_id d <= next_history_id d'
  /\ next_assignment_id d <= next_assignment_id d'.

(** ** Shapes of handler blocks *)

(** What a block of checks may do from [d] inside a transaction begun at
    [d0]: go on with the store untouched and [P] established, answer an
    error after [ROLLBACK] (the tables are those of [d0]), or raise. *)
Definition check_outcome (d0 d : db) (P : Prop) (o : outcome unit) : Prop :=
  match o with
  | Next _ d1 => d1 = d /\ P
  | Respond r d1 => succeeded r = false /\ same_tables d0 d1
  | Thrown _ => True
  end.

Definition guards (d0 : db) (m : tx unit) : Prop :=
  forall d, check_outcome d0 d True (m d).

(** What a block of writes may do: complete with a fixed effect, or raise. *)
Definition write_outcome (d' : db) (o : outcome unit) : Prop :=
  match o with
  | Next _ d1 => d1 = d'
  | Respond _ _ => False
  | Thrown _ => True
  end.

Definition writes (m : tx unit) (effect : db -> db) : Prop :=
  forall d, write_outcome (effect d) (m d).

(** What a transactional handler body may do from the snapshot [d0]: run to
    [COMMIT] with [Q] established, answer an error with the tables as they
    were at [BEGIN], or raise (the [catch] block then rolls back). *)
Definition settled (d0 : db) (Q : response -> db -> Prop)
    (o : outcome response) : Prop :=
  match o with
  | Next r d1 => Q r d1
  | Respond r d1 => succeeded r = false /\ same_tables d0 d1
  | Thrown _ => True
  end.

(** A block that draws no id: whatever it does, the sequences stay. *)
Definition steady {A : Type} (m : tx A) : Prop :=
  forall d,
    match m d with
    | Next _ d1 => sequences d1 = sequences d
    | Respond _ d1 => sequences d1 = sequences d
    | Thrown d1 => sequences d1 = sequences d
    end.

(** A block under which the sequences only move forward. *)
Definition forward {A : Type} (m : tx A) : Prop :=
  forall d,
    match m d with
    | Next _ d1 => sequences_grow d d1
    | Respond _ d1 => sequences_grow d d1
    | Thrown d1 => sequences_grow d d1
    end.

(** Enroll accepted the six amounts of the request. *)
Definition enroll_amounts_valid (b : body) : Prop :=
  invalid_amount (parseFloat_or0 (b_total_fee b)) = false
  /\ invalid_amount (parseFloat_or0 (b_amount_paid b)) = false
  /\ invalid_amount (parseFloat_or0 (b_discount b)) = false
  /\ invalid_amount (parseFloat_def0 (b_cash b)) = false
  /\ invalid_amount (parseFloat_def0 (b_online b)) = false
  /\ invalid_amount (parseFloat_def0 (b_security_money b)) = false.

(** ** Frames *)

(** Every column of a head row but [is_active] is the same. *)
Definition same_but_is_active (s s' : student) : Prop :=
  s_id s' = s_id s /\ s_identity s' = s_identity s
  /\ s_branch_id s' = s_branch_id s
  /\ s_membership_start s' = s_membership_start s
  /\ s_membership_end s' = s_membership_end s
  /\ s_total_fee s' = s_total_fee s /\ s_discount s' = s_discount s
  /\ s_cash s' = s_cash s /\ s_online s' = s_online s
  /\ s_amount_paid s' = s_amount_paid s /\ s_due_amount s' = s_due_amount s
  /\ s_security_money s' = s_security_money s
  /\ s_status s' = s_status s /\ s_locker_id s' = s_locker_id s.

(** [due = fee - discount - amount_paid] on the stored columns. *)
Definition due_from_amount_paid (s : student) : Prop :=
  s_due_amount s
  = nsub (nsub (s_total_fee s) (s_discount s)) (s_amount_paid s).

(** A request whose [amount_paid] is not the sum of its channels. *)
Definition unbalanced_enrolment : body :=
  mkBody (sample_identity "Bina") (Some 1) (Some 10) (Some 40)
         (JNumber 1000%float) (JNumber 400%float) (JNumber 0%float)
         (JNumber 0%float) JUndefined (JNumber 0%float) [] None None.

(** The first member's record sent back as paid in full, with the cash of
    400 it had. *)
Definition unbalanced_edit : body :=
  mkBody (sample_identity "Asha") (Some 1) (Some 10) (Some 40)
         (JNumber 1000%float) (JNumber 1000%float) (JNumber 400%float)
         (JNumber 0%float) JUndefined (JNumber 0%float) [1] (Some 1) None.

(** ** Lockers and their holders *)

(** The head rows whose [locker_id] is [lockerId]. *)
Definition holders (lockerId : Z) (rows : list student) : list student :=
  filter (fun s => sql_eq (s_locker_id s) (Some lockerId)) rows.

(** The bidirectional rule as the specification words it: the flag is on
    iff exactly one member references the locker, and that member is the one
    the locker points back to. *)
Definition flag_iff_single_holder (d : db) : Prop :=
  forall l, In l (locker d) ->
    (l_is_assigned l = true <-> List.length (holders (l_id l) (students d)) = 1%nat)
    /\ (forall s, holders (l_id l) (students d) = [s] ->
                  l_student_id l = Some (s_id s)).

(** The rule the handlers maintain: a flagged locker has exactly one holder,
    to whom it points back; an unflagged locker has none. *)
Definition locker_exclusive (d : db) : Prop :=
  forall l, In l (locker d) ->
    if l_is_assigned l
    then exists s, holders (l_id l) (students d) = [s]
                   /\ l_student_id l = Some (s_id s)
    else holders (l_id l) (students d) = [].

(** Keys of the store: [students.id] is unique and drawn from its
    sequence, and locker ids are not 0. *)
Definition keys_ok (d : db) : Prop :=
  NoDup (map s_id (students d))
  /\ (forall s, In s (students d) -> s_id s < next_student_id d)
  /\ (forall l, In l (locker d) -> l_id l <> 0).

(** The same rule, row by row. *)
Definition linked (rows : list student) (lockers : list locker_row) : Prop :=
  (forall l, In l lockers -> l_is_assigned l = true ->
             exists s, In s rows /\ s_locker_id s = Some (l_id l))
  /\ (forall s l, In s rows -> In l lockers ->
                  s_locker_id s = Some (l_id l) ->
                  l_is_assigned l = true /\ l_student_id l = Some (s_id s)).

(** Row functions of the three [UPDATE locker] statements. *)
Definition assign_row (lockerId : option Z) (id : Z) (l : locker_row)
  : locker_row :=
  if truthy_id lockerId && sql_eq (Some (l_id l)) lockerId
  then mkLocker (l_id l) true (Some id) else l.

Definition release_row_by_id (lockerId : option Z) (l : locker_row)
  : locker_row :=
  if truthy_id lockerId && sql_eq (Some (l_id l)) lockerId
  then mkLocker (l_id l) false None else l.

Definition release_row_by_student (id : Z) (l : locker_row) : locker_row :=
  if sql_eq (l_student_id l) (Some id) then mkLocker (l_id l) false None else l.

(** The five lifecycle operations. *)
Inductive lifecycle_op : Type :=
| Enroll (now : Z) (b : body)
| Edit (now id : Z) (b : body)
| Renew (now id : Z) (b : body)
| SetStatus (id : Z) (is_active : option bool)
| Delete (id : Z).

Definition run (f : faults) (op : lifecycle_op) : db -> response * db :=
  match op with
  | Enroll now b => enroll f now b
  | Edit now id b => edit f now id b
  | Renew now id b => renew f now id b
  | SetStatus id is_active => set_status f id is_active
  | Delete id => delete_student f id
  end.

Definition locker_enrolment : body :=
  mkBody (sample_identity "Chitra") (Some 1) (Some 10) (Some 40)
         (JNumber 500%float) (JNumber 500%float) (JNumber 500%float) (JNumber 0%float)
         JUndefined (JNumber 0%float) [] None (Some 1).

(** The sample branch after a first member took locker 1. *)
Definition locker_member_db : db :=
  snd (enroll no_faults 20 locker_enrolment opening_db).

(** A second member on seat 2 in the same shift. *)
Definition second_enrolment : body :=
  mkBody (sample_identity "Bina") (Some 1) (Some 11) (Some 41)
         (JNumber 800%float) (JNumber 800%float) (JNumber 800%float) (JNumber 0%float)
         JUndefined (JNumber 0%float) [1] (Some 2) None.

Definition two_member_db : db :=
  snd (enroll no_faults 21 second_enrolment enrolled_db).

(** The second member's record sent back with seat 1, which the first
    member holds in shift 1. *)
Definition seat_grab : body :=
  mkBody (sample_identity "Bina") (Some 1) (Some 11) (Some 41)
         (JNumber 800%float) (JNumber 800%float) (JNumber 800%float) (JNumber 0%float)
         JUndefined (JNumber 0%float) [1] (Some 1) None.

(** The first member's record sent back with a fee of -50. *)
Definition negative_fee : body :=
  mkBody (sample_identity "Asha") (Some 1) (Some 10) (Some 40)
         (JNumber (-50)%float) (JNumber 400%float) (JNumber 400%float) (JNumber 0%float)
         JUndefined (JNumber 0%float) [1] (Some 1) None.

(** * More of the handlers' behaviour: definitions *)

(** ** Seats *)

(** No (seat, shift) pair is assigned to two different members.  A row
    without a seat conflicts with nothing ([NULL = NULL] is not true). *)
Definition seat_exclusive (d : db) : Prop :=
  forall a1 a2,
    In a1 (seat_assignments d) -> In a2 (seat_assignments d) ->
    sql_eq (a_seat_id a1) (a_seat_id a2) = true ->
    a_shift_id a1 = a_shift_id a2 ->
    a_student_id a1 = a_student_id a2.

(** The seat checks of Enroll found every requested pair free. *)
Definition pairs_free (seat : option Z) (shifts : list Z) (d : db) : Prop :=
  truthy_id seat && nonempty shifts = true ->
  forall shiftId, In shiftId shifts ->
    fst (select_assignment seat shiftId d) = [].

(** The seat checks of Renew found no requested pair with another member. *)
Definition pairs_free_of_others (seat : option Z) (shifts : list Z) (id : Z)
    (d : db) : Prop :=
  truthy_id seat && nonempty shifts = true ->
  forall shiftId, In shiftId shifts ->
    fst (select_assignment_of_other seat shiftId id d) = [].

(** The rows that the insert loop adds, numbered from [next]. *)
Fixpoint fresh_assignments (seat : option Z) (id next : Z) (shifts : list Z)
  : list assignment :=
  match shifts with
  | [] => []
  | shiftId :: rest =>
    mkAssignment next seat shiftId id
      :: fresh_assignments seat id (next + 1) rest
  end.

(** ** Amounts and rows *)

(** A number that is not below zero. *)
Definition nonneg_amount (v : num) : Prop :=
  isNaN v = false /\ lt0 v = false.

(** The history row carries the head row's period: owner, amounts, dates,
    status, branch and locker. *)
Definition mirrors (s : student) (h : hrow) : Prop :=
  h_student_id h = s_id s
  /\ ledger_of_hrow h = ledger_of_student s
  /\ h_total_fee h = s_total_fee s
  /\ h_discount h = s_discount s
  /\ h_security_money h = s_security_money s
  /\ h_membership_start h = s_membership_start s
  /\ h_membership_end h = s_membership_end s
  /\ h_status h = s_status s
  /\ h_branch_id h = s_branch_id s
  /\ h_locker_id h = s_locker_id s.

(** The fields every [students] write handler insists on. *)
Definition enroll_required (b : body) : bool :=
  negb (falsy (name (b_identity b)) || negb (truthy_id (b_branch_id b))
        || missing (b_membership_start b) || missing (b_membership_end b)).

Definition renew_required (b : body) : bool :=
  negb (missing (b_membership_start b) || missing (b_membership_end b)
        || falsy (name (b_identity b)) || falsy (phone (b_identity b))
        || negb (truthy_id (b_branch_id b))).

(** The fields Edit insists on. *)
Definition edit_required (b : body) : bool :=
  negb (falsy (name (b_identity b)) || falsy (phone (b_identity b))
        || falsy (address (b_identity b)) || negb (truthy_id (b_branch_id b))
        || missing (b_membership_start b) || missing (b_membership_end b)).

(** No row of the store mentions member [id]. *)
Definition unknown_member (id : Z) (d : db) : Prop :=
  find_student id d = None
  /\ (forall a, In a (seat_assignments d) -> a_student_id a <> id)
  /\ (forall h, In h (student_membership_history d) -> h_student_id h <> id)
  /\ (forall l, In l (locker d) -> l_student_id l <> Some id).

(** ** [DELETE /api/lockers/:id] (lockers.js) *)

(** [UPDATE students SET locker_id = NULL WHERE id = $1], where [$1] is the
    locker's [student_id] column and may be [NULL]. *)
Definition clear_locker_of (studentId : option Z) (d : db) : unit * db :=
  (tt, set_students
         (map (fun s => if sql_eq (Some (s_id s)) studentId
                        then without_locker s else s)
              (students d)) d).

(** [DELETE FROM locker WHERE id = $1 RETURNING *] *)
Definition delete_locker_row (id : Z) (d : db) : list locker_row * db :=
  (filter (fun l => l_id l =? id) (locker d),
   set_locker (filter (fun l => negb (l_id l =? id)) (locker d)) d).

(** [id] is the path parameter after [parseInt]; the two 404 answers are
    preceded by [ROLLBACK]. *)
Definition delete_locker (f : faults) (id : Z) : db -> response * db :=
  transaction (fun d0 =>
    lockerCheck <- query f 1 (select_locker (Some id)) ;;
    match lockerCheck with
    | [] => rollback d0 ;;; respond (Resp 404 NotFound)
    | l :: _ =>
      (if l_is_assigned l
       then query f 2 (clear_locker_of (l_student_id l))
       else ret tt) ;;;
      result <- query f 3 (delete_locker_row id) ;;
      match result with
      | [] => rollback d0 ;;; respond (Resp 404 NotFound)
      | _ :: _ => ret (Resp 200 Ok)
      end
    end).

(** What a committed locker deletion has written, [l] being the row the
    first statement read. *)
Definition delete_locker_effect (id : Z) (l : locker_row) (d : db) : db :=
  snd (delete_locker_row id
         (if l_is_assigned l then snd (clear_locker_of (l_student_id l) d)
          else d)).

(** ** Key renaming of the API client ([Frontend/src/services/api.ts])

    Every request body passes through [transformKeysToSnakeCase] and every
    response body through [transformKeysToCamelCase].  Both rename each key
    of each object and leave values alone; the renaming of one key is
    modelled here.  Keys are ASCII: a character above 127 is left as it is
    by the model, which is what the two regular expressions do, while
    JavaScript's [toLowerCase] may change it. *)

Definition underscore : Ascii.ascii := Ascii.ascii_of_nat 95.

Definition is_lower (c : Ascii.ascii) : bool :=
  (97 <=? Ascii.nat_of_ascii c)%nat && (Ascii.nat_of_ascii c <=? 122)%nat.

Definition is_upper (c : Ascii.ascii) : bool :=
  (65 <=? Ascii.nat_of_ascii c)%nat && (Ascii.nat_of_ascii c <=? 90)%nat.

Definition upper_char (c : Ascii.ascii) : Ascii.ascii :=
  if is_lower c then Ascii.ascii_of_nat (Ascii.nat_of_ascii c - 32) else c.

Definition lower_char (c : Ascii.ascii) : Ascii.ascii :=
  if is_upper c then Ascii.ascii_of_nat (Ascii.nat_of_ascii c + 32) else c.

(** [s.toUpperCase()] and [s.toLowerCase()] *)
Fixpoint toUpperCase (s : string) : string :=
  match s with
  | EmptyString => EmptyString
  | String c rest => String (upper_char c) (toUpperCase rest)
  end.

Fixpoint toLowerCase (s : string) : string :=
  match s with
  | EmptyString => EmptyString
  | String c rest => String (lower_char c) (toLowerCase rest)
  end.

(** [key.replace(/_([a-z])/g, (_, letter) => letter.toUpperCase())]: matches
    are found left to right and do not overlap. *)
Fixpoint camel_key (key : string) : string :=
  match key with
  | EmptyString => EmptyString
  | String c rest =>
    match rest with
    | String letter rest' =>
      if Ascii.eqb c underscore && is_lower letter
      then String (upper_char letter) (camel_key rest')
      else String c (camel_key rest)
    | EmptyString => String c EmptyString
    end
  end.

(** [key.replace(/([A-Z])/g, '_$1')] *)
Fixpoint mark_capitals (key : string) : string :=
  match key with
  | EmptyString => EmptyString
  | String c rest =>
    if is_upper c then String underscore (String c (mark_capitals rest))
    else String c (mark_capitals rest)
  end.

(** [key.replace(/([A-Z])/g, '_$1').toLowerCase()] *)
Definition snake_key (key : string) : string :=
  toLowerCase (mark_capitals key).

Definition is_ascii (c : Ascii.ascii) : bool :=
  (Ascii.nat_of_ascii c <? 128)%nat.

(** A column name: ASCII without capital letters. *)
Fixpoint column_name (key : string) : bool :=
  match key with
  | EmptyString => true
  | String c rest => is_ascii c && negb (is_upper c) && column_name rest
  end.

Definition starts_lower (key : string) : bool :=
  match key with
  | EmptyString => false
  | String c _ => is_lower c
  end.

(** A field name of the client: ASCII with no underscore directly before a
    small letter. *)
Fixpoint field_name (key : string) : bool :=
  match key with
  | EmptyString => true
  | String c rest =>
    is_ascii c && negb (Ascii.eqb c underscore && starts_lower rest)
    && field_name rest
  end.

(** ** Route guards ([Backend/routes/auth.js]) *)

(** [req.session.user]: the role and the permission list, [None] when the
    list is [null] or missing. *)
Record user : Type := mkUser {
  role : string;
  permissions : option (list string)
}.

(** What a guard does with the request: hand it on ([next()]), or answer
    401 or 403. *)
Inductive verdict : Type := Pass | Unauthorized | Forbidden.

(** [list.includes(p)] *)
Definition includes (l : list string) (p : string) : bool :=
  existsb (String.eqb p) l.

(** [req.session.user.permissions || []] *)
Definition permissions_of (u : user) : list string :=
  match permissions u with Some l => l | None => [] end.

Definition checkPermission (permission : string) (session : option user)
  : verdict :=
  match session with
  | None => Unauthorized
  | Some u =>
    if String.eqb (role u) "admin" then Pass
    else if negb (includes (permissions_of u) permission) then Forbidden
    else Pass
  end.

Definition checkPermissions (required : list string) (logic : string)
    (session : option user) : verdict :=
  match session with
  | None => Unauthorized
  | Some u =>
    if String.eqb (role u) "admin" then Pass
    else
      let userPermissions := permissions_of u in
      let hasPermission :=
        if String.eqb (toUpperCase logic) "AND"
        then forallb (fun p => includes userPermissions p) required
        else existsb (fun p => includes userPermissions p) required in
      if negb hasPermission then Forbidden else Pass
  end.

Definition checkAdmin (session : option user) : verdict :=
  match session with
  | None => Unauthorized
  | Some u => if negb (String.eqb (role u) "admin") then Forbidden else Pass
  end.

Definition checkAdminOrStaff (session : option user) : verdict :=
  match session with
  | None => Unauthorized
  | Some u =>
    if String.eqb (role u) "admin" || String.eqb (role u) "staff" then Pass
    else Forbidden
  end.

(** ** [POST /api/students/public/register] (students.js, lines 6-138)

    The request carries eight fields; the two dates come from the server's
    clock ([today] and [next_year]) and every amount is the constant 0.
    Columns the [INSERT INTO students] does not list are [NULL]. *)

(** SQL equality of a text column with a text parameter. *)
Definition text_eq (col param : text) : bool :=
  match col, param with
  | Some a, Some b => String.eqb a b
  | _, _ => false
  end.

(** [SELECT id FROM students WHERE phone = $1] *)
Definition select_by_phone (p : text) (d : db) : list student * db :=
  (filter (fun s => text_eq (phone (s_identity s)) p) (students d), d).

(** The text columns as the registration binds them, in both tables. *)
Definition registered_identity (i : identity) : identity :=
  mkIdentity (name i) (or_null (email i)) (phone i) (or_null (address i))
             (or_null (registration_number i)) (or_null (father_name i))
             (or_null (aadhar_number i)) None None None None.

Definition registered_row (today next_year : Z) (i : identity)
    (branch_id : option Z) (new_id : Z) : student :=
  let totalFee := 0%float in
  let amountPaid := 0%float in
  let discount := 0%float in
  let dueAmount := (totalFee - discount - amountPaid)%float in
  mkStudent new_id (registered_identity i) branch_id
            (Some today) (Some next_year)
            totalFee amountPaid dueAmount
            0%float 0%float 0%float discount
            active None true.

(** [INSERT INTO student_membership_history (...)] of the registration:
    the values are bound from the request again, not copied from the row. *)
Definition insert_registered_history (studentId today next_year : Z)
    (i : identity) (branch_id : option Z) (now : Z) (d : db) : unit * db :=
  let totalFee := 0%float in
  let amountPaid := 0%float in
  let discount := 0%float in
  let dueAmount := (totalFee - discount - amountPaid)%float in
  (tt, mkDb (students d)
            (student_membership_history d
               ++ [mkHrow (next_history_id d) studentId (registered_identity i)
                          (Some today) (Some next_year) active
                          totalFee amountPaid dueAmount
                          0%float 0%float 0%float
                          None None branch_id None discount now])
            (seat_assignments d) (locker d) (seats d) (schedules d)
            (next_student_id d) (next_history_id d + 1) (next_assignment_id d)).

(** The two early returns are not preceded by [ROLLBACK].  The [catch]
    block rolls back and answers 400 when the error is the unique
    constraint on [students.phone], 500 otherwise; [phone_key_violation]
    says which error a failing statement raises. *)
Definition public_register (f : faults) (phone_key_violation : bool)
    (today next_year now : Z) (i : identity) (branch_id : option Z)
    (d0 : db) : response * db :=
  let body : tx response :=
    if falsy (name i) || falsy (phone i) || negb (truthy_id branch_id)
    then respond (Resp 400 ValidationError)
    else
      existingStudent <- query f 1 (select_by_phone (phone i)) ;;
      match existingStudent with
      | _ :: _ => respond (Resp 400 Conflict)
      | [] =>
        student <- query f 2 (insert_student
                                (registered_row today next_year i branch_id)) ;;
        let studentId := s_id student in
        query f 3 (insert_registered_history studentId today next_year
                     i branch_id now) ;;;
        ret (Resp 201 Ok)
      end in
  match body d0 with
  | Next r d => (r, d)
  | Respond r d => (r, d)
  | Thrown d =>
    (if phone_key_violation then Resp 400 Conflict else Resp 500 Internal,
     keep_sequences d0 d)
  end.

(** The seven amount columns of a head row and of a history row, in the
    order of the [INSERT] column lists. *)
Definition amounts_of_student (s : student) : list num :=
  [s_total_fee s; s_amount_paid s; s_due_amount s; s_cash s; s_online s;
   s_security_money s; s_discount s].

Definition amounts_of_hrow (h : hrow) : list num :=
  [h_total_fee h; h_amount_paid h; h_due_amount h; h_cash h; h_online h;
   h_security_money h; h_discount h].

(** No two members share a telephone number. *)
Definition phones_distinct (d : db) : Prop :=
  forall s1 s2, In s1 (students d) -> In s2 (students d) ->
    text_eq (phone (s_identity s1)) (phone (s_identity s2)) = true ->
    s_id s1 = s_id s2.

(** What a committed registration has written. *)
Definition register_effect (today next_year now : Z) (i : identity)
    (branch_id : option Z) (d : db) : db :=
  snd (insert_registered_history (next_student_id d) today next_year
         i branch_id now
         (snd (insert_student (registered_row today next_year i branch_id) d))).

Definition walk_in : identity :=
  mkIdentity (Some "Chitra") (Some "") (Some "9000000002") None
             None None None None None None None.

(** ** Admission *)

(** The seat checks of Enroll found the requested seat and every requested
    shift on file. *)
Definition seats_known (seat : option Z) (shifts : list Z) (d : db) : Prop :=
  truthy_id seat && nonempty shifts = true ->
  fst (select_seat seat d) <> []
  /\ forall shiftId, In shiftId shifts -> fst (select_schedule shiftId d) <> [].

(** Everything Enroll checks before it writes. *)
Definition enroll_admissible (b : body) (d : db) : Prop :=
  enroll_required b = true
  /\ enroll_amounts_valid b
  /\ seats_known (parseInt_or_null (b_seat_id b)) (b_shift_ids b) d
  /\ pairs_free (parseInt_or_null (b_seat_id b)) (b_shift_ids b) d
  /\ locker_free (parseInt_or_null (b_locker_id b)) d.

(** Everything Edit checks before it writes: the seat is not among it. *)
Definition edit_admissible (id : Z) (b : body) (d : db) : Prop :=
  edit_required b = true
  /\ (exists previous, find_student id d = Some previous)
  /\ to_numeric (b_cash b) <> None
  /\ to_numeric (b_online b) <> None
  /\ to_numeric (b_security_money b) <> None
  /\ locker_admits (parseInt_or_null (b_locker_id b)) id d.

(** Everything Renew checks before it writes. *)
Definition renew_admissible (id : Z) (b : body) (d : db) : Prop :=
  renew_required b = true
  /\ (exists previous, find_student id d = Some previous)
  /\ pairs_free_of_others (parseInt_or_null (b_seat_id b)) (b_shift_ids b) id d
  /\ locker_admits (parseInt_or_null (b_locker_id b)) id d.

(** ** The pooled connection under [pool.query]

    [PUT /:id/status] and [POST /public/register] return early after
    [BEGIN] without [ROLLBACK] (students.js 15-20, 44-49, 210-212, 219-221),
    and [finally] hands the client back to the pool still inside that
    transaction, in which nothing was written.  The statements that
    [pool.query] next runs on that client are answered as usual but stay
    uncommitted. *)
Inductive connection : Type :=
| Idle
| InTransaction.

(** [DELETE /api/students/:id] on the connection the pool hands out: the
    answer is the same on both, the committed store changes on an idle
    connection only. *)
Definition delete_student_on (c : connection) (f : faults) (id : Z) (d : db)
  : response * db :=
  match c with
  | Idle => delete_student f id d
  | InTransaction => (fst (delete_student f id d), d)
  end.

(** * Proofs *)

(** ** Reasoning about handler bodies *)

Lemma head_filter_find {A : Type} (p : A -> bool) (l : list A) :
  hd_error (filter p l) = find p l.
Proof.
  induction l as [| x l IH]; simpl; [reflexivity |].
  destruct (p x); simpl; [reflexivity | exact IH].
Qed.

Lemma find_head_filter {A : Type} (p : A -> bool) (l : list A) x :
  find p l = Some x -> exists rest, filter p l = x :: rest.
Proof.
  rewrite <- head_filter_find.
  destruct (filter p l) as [| y rest]; [discriminate |].
  intro H. inversion H. exists rest. reflexivity.
Qed.

Lemma find_map_update {A : Type} (key : A -> Z) (g : A -> A) (k : Z) (l : list A) x :
  (forall y, key (g y) = key y) ->
  find (fun y => key y =? k) l = Some x ->
  find (fun y => key y =? k) (map (fun y => if key y =? k then g y else y) l)
  = Some (g x).
Proof.
  intros Hkey. induction l as [| y l IH]; simpl; [discriminate |].
  destruct (key y =? k) eqn:E.
  - intro H. inversion H. subst. simpl. rewrite Hkey, E. reflexivity.
  - intro H. simpl. rewrite E. apply IH. exact H.
Qed.

(** ** Tables and sequences under [ROLLBACK] *)

Lemma same_tables_refl d : same_tables d d.
Proof. repeat split. Qed.

Lemma same_tables_kept d0 d : same_tables d0 (keep_sequences d0 d).
Proof. repeat split. Qed.

Lemma same_tables_eq d d' :
  same_tables d d' -> sequences d' = sequences d -> d' = d.
Proof.
  destruct d, d'. unfold same_tables, sequences. cbn.
  intros (-> & -> & -> & -> & -> & ->) E. inversion E. reflexivity.
Qed.

Lemma keep_sequences_same d0 d :
  sequences d = sequences d0 -> keep_sequences d0 d = d0.
Proof.
  intro E. apply same_tables_eq; [apply same_tables_kept | exact E].
Qed.

Lemma sequences_grow_refl d : sequences_grow d d.
Proof. unfold sequences_grow. lia. Qed.

Lemma sequences_grow_trans d1 d2 d3 :
  sequences_grow d1 d2 -> sequences_grow d2 d3 -> sequences_grow d1 d3.
Proof. unfold sequences_grow. lia. Qed.

Lemma sequences_grow_same d d' :
  sequences d' = sequences d -> sequences_grow d d'.
Proof.
  unfold sequences, sequences_grow. intro E. inversion E as [[E1 E2 E3]].
  rewrite E1, E2, E3. lia.
Qed.

(** ** Payments *)

(** The outcomes of [apply_payment], one per path of the handler. *)
Lemma apply_payment_cases f hid amt ch d r d' :
  apply_payment f hid amt ch d = (r, d') ->
  (succeeded r = false /\ d' = d)
  \/ (exists amount h s,
        amt = Some amount
        /\ PrimFloat.leb amount 0 = false
        /\ (String.eqb ch "cash" || String.eqb ch "online") = true
        /\ find_history hid d = Some h
        /\ PrimFloat.ltb (read_or0 (h_due_amount h) + 0.01)%float amount = false
        /\ find_student (h_student_id h) d = Some s
        /\ r = Resp 200 Ok
        /\ d' = snd (update_history_payment hid
                       (read_or0 (h_cash h) + channel_amount ch "cash" amount)%float
                       (read_or0 (h_online h) + channel_amount ch "online" amount)%float
                       (read_or0 (h_amount_paid h) + amount)%float
                       (read_or0 (h_due_amount h) - amount)%float
                       (snd (update_student_payment (h_student_id h)
                          (read_or0 (s_cash s) + channel_amount ch "cash" amount)%float
                          (read_or0 (s_online s) + channel_amount ch "online" amount)%float
                          (read_or0 (s_amount_paid s) + amount)%float
                          (read_or0 (s_due_amount s) - amount)%float d)))).
Proof.
  assert (Back : forall d1, sequences d1 = sequences d ->
                            keep_sequences d d1 = d)
    by (intros d1 E; apply keep_sequences_same; exact E).
  unfold apply_payment, transaction, find_history, find_student.
  rewrite <- !head_filter_find.
  destruct amt as [amount |]; cbn -[keep_sequences];
    [| intro H; inversion H; left; split; [| apply Back]; reflexivity].
  destruct (PrimFloat.leb amount 0) eqn:Epos; cbn -[keep_sequences];
    [intro H; inversion H; left; split; [| apply Back]; reflexivity |].
  destruct (String.eqb ch "cash" || String.eqb ch "online") eqn:Ech;
    cbn -[keep_sequences];
    [| intro H; inversion H; left; split; [| apply Back]; reflexivity].
  unfold bind at 1. unfold query at 1.
  destruct (f 1%nat);
    [intro H; inversion H; left; split; [| apply Back]; reflexivity |].
  cbn -[keep_sequences].
  destruct (filter (fun h => h_id h =? hid) (student_membership_history d))
    as [| h hs] eqn:Eh; cbn -[keep_sequences];
    [intro H; inversion H; left; split; [| apply Back]; reflexivity |].
  destruct (PrimFloat.ltb (read_or0 (h_due_amount h) + 0.01)%float amount)
    eqn:Eover; cbn -[keep_sequences];
    [intro H; inversion H; left; split; [| apply Back]; reflexivity |].
  unfold bind at 1. unfold query at 1.
  destruct (f 2%nat);
    [intro H; inversion H; left; split; [| apply Back]; reflexivity |].
  cbn -[keep_sequences].
  destruct (filter (fun s => s_id s =? h_student_id h) (students d))
    as [| s ss] eqn:Es; cbn -[keep_sequences];
    [intro H; inversion H; left; split; [| apply Back]; reflexivity |].
  unfold bind, query, ret.
  destruct (f 3%nat);
    [intro H; inversion H; left; split; [| apply Back]; reflexivity |].
  cbn -[keep_sequences].
  destruct (f 4%nat);
    [intro H; inversion H; left; split; [| apply Back]; reflexivity |].
  cbn. intro H. inversion H. right.
  exists amount, h, s. repeat split; try reflexivity; try assumption.
  rewrite <- head_filter_find, Es. reflexivity.
Qed.

(** A payment that passes every test of the handler is booked, when no
    query fails. *)
Lemma apply_payment_accepts f hid amount ch d h s :
  f 1%nat = false -> f 2%nat = false -> f 3%nat = false -> f 4%nat = false ->
  PrimFloat.leb amount 0 = false ->
  ch = "cash" \/ ch = "online" ->
  find_history hid d = Some h ->
  PrimFloat.ltb (read_or0 (h_due_amount h) + 0.01)%float amount = false ->
  find_student (h_student_id h) d = Some s ->
  fst (apply_payment f hid (Some amount) ch d) = Resp 200 Ok.
Proof.
  intros F1 F2 F3 F4 Hpos Hch Hh Hle Hs.
  unfold apply_payment, transaction.
  rewrite Hpos.
  assert (Ech : (String.eqb ch "cash" || String.eqb ch "online") = true)
    by (destruct Hch; subst ch; reflexivity).
  rewrite Ech. cbn [negb].
  unfold bind at 1. unfold query at 1. rewrite F1.
  cbn [select_history].
  destruct (find_head_filter _ _ _ Hh) as (hs & ->).
  rewrite Hle.
  unfold bind at 1. unfold query at 1. rewrite F2.
  cbn [select_student].
  destruct (find_head_filter _ _ _ Hs) as (ss & ->).
  unfold bind at 1. unfold query at 1. rewrite F3.
  cbn [update_student_payment].
  unfold bind at 1. unfold query at 1. rewrite F4.
  reflexivity.
Qed.

Lemma channel_amount_same ch amount :
  channel_amount ch ch amount = amount.
Proof. unfold channel_amount. rewrite String.eqb_refl. reflexivity. Qed.

Lemma payment_booked_intro ch amount c o p u :
  payment_booked ch amount (mkLedger c o p u)
    (mkLedger (read_or0 c + channel_amount ch "cash" amount)%float
              (read_or0 o + channel_amount ch "online" amount)%float
              (read_or0 p + amount)%float
              (read_or0 u - amount)%float).
Proof.
  unfold payment_booked, moved_by, lowered_by; cbn. repeat split.
  - subst ch. rewrite channel_amount_same. reflexivity.
  - subst ch. reflexivity.
  - subst ch. rewrite channel_amount_same. reflexivity.
  - subst ch. reflexivity.
Qed.

(** C3 - a payment that succeeds books the same movement on the targeted
    history row and on the owning head row (the channel column and
    [amount_paid] grow by the amount, [due_amount] shrinks by it, nothing
    else in either row is written); under every fault plan the only other
    result is a failure that leaves the store exactly as it was, so no
    half-applied payment is ever visible. *)
Theorem payment_books_history_and_head_together f hid amt ch d r d' :
  apply_payment f hid amt ch d = (r, d') ->
  (succeeded r = false /\ d' = d)
  \/ (succeeded r = true
      /\ exists amount h s h' s',
           amt = Some amount
           /\ find_history hid d = Some h
           /\ find_student (h_student_id h) d = Some s
           /\ find_history hid d' = Some h'
           /\ find_student (h_student_id h) d' = Some s'
           /\ payment_booked ch amount (ledger_of_hrow h) (ledger_of_hrow h')
           /\ payment_booked ch amount (ledger_of_student s) (ledger_of_student s')
           /\ same_hrow_but_ledger h h'
           /\ same_student_but_ledger s s'
           /\ seat_assignments d' = seat_assignments d
           /\ locker d' = locker d).
Proof.
  intro H. apply apply_payment_cases in H.
  destruct H as [H | (amount & h & s & Ha & _ & _ & Hh & _ & Hs & Hr & Hd)];
    [left; exact H | right].
  subst r d'. split; [reflexivity |].
  exists amount, h, s. eexists. eexists.
  split; [exact Ha |]. split; [exact Hh |]. split; [exact Hs |].
  split.
  { unfold find_history, update_history_payment; cbn.
    apply (find_map_update h_id); [reflexivity | exact Hh]. }
  split.
  { unfold find_student, update_history_payment, update_student_payment; cbn.
    apply (find_map_update s_id); [reflexivity | exact Hs]. }
  split; [apply payment_booked_intro |].
  split; [apply payment_booked_intro |].
  split; [unfold same_hrow_but_ledger; cbn; repeat split |].
  split; [unfold same_student_but_ledger; cbn; repeat split |].
  split; reflexivity.
Qed.

Lemma payment_books_history_and_head_together_witness :
  exists d',
    apply_payment no_faults 1 (Some 600%float) "online" enrolled_db
    = (Resp 200 Ok, d')
    /\ ((succeeded (Resp 200 Ok) = false /\ d' = enrolled_db)
        \/ (succeeded (Resp 200 Ok) = true
            /\ exists amount h s h' s',
                 Some 600%float = Some amount
                 /\ find_history 1 enrolled_db = Some h
                 /\ find_student (h_student_id h) enrolled_db = Some s
                 /\ find_history 1 d' = Some h'
                 /\ find_student (h_student_id h) d' = Some s'
                 /\ payment_booked "online" amount
                      (ledger_of_hrow h) (ledger_of_hrow h')
                 /\ payment_booked "online" amount
                      (ledger_of_student s) (ledger_of_student s')
                 /\ same_hrow_but_ledger h h'
                 /\ same_student_but_ledger s s'
                 /\ seat_assignments d' = seat_assignments enrolled_db
                 /\ locker d' = locker enrolled_db)).
Proof.
  eexists. split; [vm_compute; reflexivity |].
  apply (payment_books_history_and_head_together no_faults 1 (Some 600%float)
           "online" enrolled_db).
  vm_compute. reflexivity.
Defined.

(** C2 - a call whose amount is above the targeted history entry's due
    plus 0.01 (the sum and the comparison being the handler's own, on
    doubles) fails under every fault plan and leaves the store exactly as it
    was.  The answer is the 400 of the overpayment test whenever the call
    reaches that test: the amount is positive, the method is cash or online
    and the history row could be read.  A call stopped before it gets the
    answer of the step that stopped it: 400 for the amount or the method,
    500 when reading the history row fails. *)
Theorem overpayment_is_rejected f hid amount ch d h r d' :
  find_history hid d = Some h ->
  PrimFloat.ltb (read_or0 (h_due_amount h) + 0.01)%float amount = true ->
  apply_payment f hid (Some amount) ch d = (r, d') ->
  d' = d
  /\ succeeded r = false
  /\ (PrimFloat.leb amount 0 = false -> ch = "cash" \/ ch = "online" ->
      f 1%nat = false -> r = Resp 400 Conflict)
  /\ (PrimFloat.leb amount 0 = true \/ (ch <> "cash" /\ ch <> "online") ->
      r = Resp 400 ValidationError)
  /\ (PrimFloat.leb amount 0 = false -> ch = "cash" \/ ch = "online" ->
      f 1%nat = true -> r = Resp 500 Internal).
Proof.
  intros Hh Hover H.
  assert (Back : keep_sequences d d = d)
    by (apply keep_sequences_same; reflexivity).
  revert H. unfold apply_payment, transaction.
  destruct (PrimFloat.leb amount 0) eqn:Epos.
  { cbn -[keep_sequences]. rewrite Back. intro H. inversion H.
    split; [reflexivity |]. split; [reflexivity |].
    split; [intro N; discriminate N |].
    split; [intros _; reflexivity | intro N; discriminate N]. }
  destruct (String.eqb ch "cash" || String.eqb ch "online") eqn:Ech;
    cbn [negb].
  2:{ cbn -[keep_sequences]. rewrite Back. intro H. inversion H.
      split; [reflexivity |]. split; [reflexivity |].
      apply orb_false_iff in Ech. destruct Ech as [E1 E2].
      apply String.eqb_neq in E1, E2.
      split; [intros _ [N | N]; contradiction |].
      split; [intros _; reflexivity |].
      intros _ [N | N]; contradiction. }
  assert (Hch : ch <> "cash" /\ ch <> "online" -> False).
  { intros [N1 N2]. apply orb_true_iff in Ech.
    destruct Ech as [E | E]; apply String.eqb_eq in E; contradiction. }
  unfold bind at 1. unfold query at 1.
  destruct (f 1%nat) eqn:F1.
  { rewrite Back. intro H. inversion H.
    split; [reflexivity |]. split; [reflexivity |].
    split; [intros _ _ N; discriminate N |].
    split; [intros [N | N]; [discriminate N | contradiction (Hch N)] |].
    intros _ _ _. reflexivity. }
  cbn [select_history].
  destruct (find_head_filter _ _ _ Hh) as (hs & ->).
  rewrite Hover. cbn -[keep_sequences]. rewrite Back.
  intro H. inversion H.
  split; [reflexivity |]. split; [reflexivity |].
  split; [intros _ _ _; reflexivity |].
  split; [intros [N | N]; [discriminate N | contradiction (Hch N)] |].
  intros _ _ N. discriminate N.
Qed.

Lemma overpayment_is_rejected_witness :
  apply_payment no_faults 1 (Some 700%float) "cash" enrolled_db
  = (Resp 400 Conflict, enrolled_db).
Proof.
  destruct (apply_payment no_faults 1 (Some 700%float) "cash" enrolled_db)
    as [r d'] eqn:E.
  destruct (overpayment_is_rejected no_faults 1 700%float "cash" enrolled_db
              first_period_row r d') as (-> & _ & Hc & _).
  - vm_compute. reflexivity.
  - vm_compute. reflexivity.
  - exact E.
  - rewrite Hc; [reflexivity | reflexivity | left; reflexivity | reflexivity].
Defined.

(** C10 (counterexample) - a due of 0.03 takes a payment of 0.04: on
    doubles [0.03 + 0.01] is [0.04], so the amount is not above the limit,
    and [0.03 - 0.04] is [-0.010000000000000002], below -0.01. *)
Lemma accepted_payment_leaves_due_below_tolerance :
  exists h d' h',
    find_history 1 small_due_db = Some h
    /\ h_due_amount h = 0.03%float
    /\ apply_payment no_faults 1 (Some 0.04%float) "cash" small_due_db
       = (Resp 200 Ok, d')
    /\ find_history 1 d' = Some h'
    /\ h_due_amount h' = (-0.010000000000000002)%float
    /\ PrimFloat.ltb (h_due_amount h') (-0.01)%float = true.
Proof.
  eexists. eexists. eexists.
  split; [vm_compute; reflexivity |].
  split; [vm_compute; reflexivity |].
  split; [vm_compute; reflexivity |].
  split; [vm_compute; reflexivity |].
  split; vm_compute; reflexivity.
Qed.

(** C10 (amended) - after a successful payment the targeted history row's
    due is its previous due minus the amount, as JavaScript subtracts
    doubles, and the amount was positive and not above the previous due plus
    0.01, as JavaScript adds and compares them.  Nothing below that limit is
    refused when no query fails, so a payment does drive the row's due
    negative (600.01 on a due of 600).  The head row's due is under no
    bound: paying an old period's row in full after a renewal leaves the
    head at -600. *)
Theorem history_due_after_payment :
  (forall f hid amount ch d r d' h,
     apply_payment f hid (Some amount) ch d = (r, d') ->
     succeeded r = true ->
     find_history hid d = Some h ->
     exists h',
       find_history hid d' = Some h'
       /\ h_due_amount h' = (read_or0 (h_due_amount h) - amount)%float
       /\ PrimFloat.leb amount 0 = false
       /\ PrimFloat.ltb (read_or0 (h_due_amount h) + 0.01)%float amount
          = false)
  /\ (forall hid amount ch d h s,
        PrimFloat.leb amount 0 = false ->
        ch = "cash" \/ ch = "online" ->
        find_history hid d = Some h ->
        PrimFloat.ltb (read_or0 (h_due_amount h) + 0.01)%float amount = false ->
        find_student (h_student_id h) d = Some s ->
        fst (apply_payment no_faults hid (Some amount) ch d) = Resp 200 Ok)
  /\ (exists d' h',
        apply_payment no_faults 1 (Some 600.01%float) "cash" enrolled_db
        = (Resp 200 Ok, d')
        /\ find_history 1 d' = Some h'
        /\ PrimFloat.ltb (h_due_amount h') 0 = true)
  /\ (exists d' s',
        apply_payment no_faults 1 (Some 600%float) "cash" renewed_db
        = (Resp 200 Ok, d')
        /\ find_student 1 d' = Some s'
        /\ s_due_amount s' = (-600)%float).
Proof.
  split; [| split; [| split]].
  - intros f hid amount ch d r d' h H Hok Hh.
    apply apply_payment_cases in H.
    destruct H as [[Hr _] | (a & h0 & s & Ha & Hpos & _ & Hh0 & Hle & _ & _ & Hd)].
    + rewrite Hr in Hok. discriminate.
    + inversion Ha. subst a. rewrite Hh in Hh0. inversion Hh0. subst h0.
      eexists. split.
      { subst d'. unfold find_history, update_history_payment; cbn.
        apply (find_map_update h_id); [reflexivity | exact Hh]. }
      cbn. split; [reflexivity |]. split; assumption.
  - intros hid amount ch d h s Hpos Hch Hh Hle Hs.
    apply (apply_payment_accepts no_faults hid amount ch d h s);
      try reflexivity; assumption.
  - eexists. eexists. split; [vm_compute; reflexivity |].
    split; [vm_compute; reflexivity |]. vm_compute. reflexivity.
  - eexists. eexists. split; [vm_compute; reflexivity |].
    split; [vm_compute; reflexivity |]. vm_compute. reflexivity.
Qed.

Lemma history_due_after_payment_witness :
  exists h',
    find_history 1
      (snd (apply_payment no_faults 1 (Some 600%float) "online" enrolled_db))
    = Some h'
    /\ h_due_amount h'
       = (read_or0 (h_due_amount first_period_row) - 600)%float
    /\ PrimFloat.leb 600 0 = false
    /\ PrimFloat.ltb (read_or0 (h_due_amount first_period_row) + 0.01)%float 600
       = false.
Proof.
  apply (proj1 history_due_after_payment no_faults 1 600%float "online"
           enrolled_db (Resp 200 Ok)
           (snd (apply_payment no_faults 1 (Some 600%float) "online" enrolled_db))
           first_period_row);
    vm_compute; reflexivity.
Defined.

(** ** Outcomes of the [students] handlers *)

Lemma query_outcome {A : Type} f site (q : db -> A * db) d :
  query f site q d = Next (fst (q d)) (snd (q d))
  \/ query f site q d = Thrown d.
Proof.
  unfold query. destruct (f site); [right; reflexivity |].
  left. destruct (q d); reflexivity.
Qed.

Lemma for_each_guards {A B : Type} f site (sel : A -> db -> list B * db)
    (k : list B -> tx unit) d0 (l : list A) :
  (forall x d, snd (sel x d) = d) ->
  (forall rows d, check_outcome d0 d True (k rows d)) ->
  guards d0 (for_each l (fun x => rows <- query f site (sel x) ;; k rows)).
Proof.
  intros Hsel Hk. induction l as [| x l IH]; intro d; cbn.
  - split; [reflexivity | exact I].
  - unfold bind at 1. unfold bind at 1.
    destruct (query_outcome f site (sel x) d) as [-> | ->]; [| exact I].
    rewrite Hsel.
    specialize (Hk (fst (sel x d)) d).
    destruct (k (fst (sel x d)) d) as [[] d1 | r d1 | d1]; cbn in *.
    + destruct Hk as [-> _]. apply IH.
    + exact Hk.
    + exact I.
Qed.

Lemma enroll_seat_checks_guards f d0 seat shifts :
  guards d0 (enroll_seat_checks f d0 seat shifts).
Proof.
  intro d. unfold enroll_seat_checks.
  destruct (truthy_id seat && nonempty shifts); [| split; [reflexivity | exact I]].
  unfold bind at 1.
  destruct (query_outcome f 1%nat (select_seat seat) d) as [-> | ->]; [| exact I].
  cbn [select_seat fst snd].
  destruct (filter (fun s => sql_eq (Some s) seat) (seats d)) as [| x xs].
  - cbn -[keep_sequences]. split; [reflexivity | apply same_tables_kept].
  - unfold bind at 1.
    pose proof (for_each_guards f 2%nat (fun shiftId => select_schedule shiftId)
                (fun rows => match rows with
                             | [] => rollback d0 ;;; respond (Resp 400 ValidationError)
                             | _ :: _ => ret tt
                             end) d0 shifts) as G1.
    cbv beta in G1.
    specialize (G1 (fun _ _ => eq_refl)).
    assert (K1 : forall (rows : list Z) d1,
               check_outcome d0 d1 True
                 (match rows with
                  | [] => rollback d0 ;;; respond (Resp 400 ValidationError)
                  | _ :: _ => ret tt
                  end d1)).
    { intros [| y ys] d1; cbn -[keep_sequences]; split;
        reflexivity || exact I || apply same_tables_kept. }
    specialize (G1 K1 d).
    destruct (for_each shifts _ d) as [[] d1 | r d1 | d1]; cbn in G1 |- *.
    + destruct G1 as [-> _].
      apply (for_each_guards f 3%nat (fun shiftId => select_assignment seat shiftId)
               (fun rows => match rows with
                            | [] => ret tt
                            | _ :: _ => rollback d0 ;;; respond (Resp 400 Conflict)
                            end) d0 shifts).
      * reflexivity.
      * intros [| y ys] d1; cbn -[keep_sequences]; split;
          reflexivity || exact I || apply same_tables_kept.
    + exact G1.
    + exact I.
Qed.

Lemma renew_seat_checks_guards f d0 seat shifts id :
  guards d0 (renew_seat_checks f d0 seat shifts id).
Proof.
  intro d. unfold renew_seat_checks.
  destruct (truthy_id seat && nonempty shifts); [| split; [reflexivity | exact I]].
  apply (for_each_guards f 1%nat
           (fun shiftId => select_assignment_of_other seat shiftId id)
           (fun rows => match rows with
                        | [] => ret tt
                        | _ :: _ => rollback d0 ;;; respond (Resp 400 Conflict)
                        end) d0 shifts).
  - reflexivity.
  - intros [| y ys] d1; cbn -[keep_sequences]; split;
      reflexivity || exact I || apply same_tables_kept.
Qed.

Lemma enroll_locker_check_outcome f d0 lockerId d :
  check_outcome d0 d (locker_free lockerId d)
                (enroll_locker_check f d0 lockerId d).
Proof.
  unfold enroll_locker_check, locker_free.
  destruct (truthy_id lockerId); [| cbn; split; [reflexivity | discriminate]].
  unfold bind at 1.
  destruct (query_outcome f 4%nat (select_locker lockerId) d) as [-> | ->];
    [| exact I].
  cbn [select_locker fst snd].
  destruct (filter (fun l => sql_eq (Some (l_id l)) lockerId) (locker d))
    as [| l ls].
  - cbn -[keep_sequences]. split; [reflexivity | apply same_tables_kept].
  - destruct (l_is_assigned l) eqn:E; cbn -[keep_sequences].
    + split; [reflexivity | apply same_tables_kept].
    + split; [reflexivity |]. intros _. exists l, ls. split; [reflexivity | exact E].
Qed.

Lemma locker_check_outcome f site d0 lockerId id d :
  check_outcome d0 d (locker_admits lockerId id d)
                (locker_check f site d0 lockerId id d).
Proof.
  unfold locker_check, locker_admits.
  destruct (truthy_id lockerId); [| cbn; split; [reflexivity | discriminate]].
  unfold bind at 1.
  destruct (query_outcome f site (select_locker lockerId) d) as [-> | ->];
    [| exact I].
  cbn [select_locker fst snd].
  destruct (filter (fun l => sql_eq (Some (l_id l)) lockerId) (locker d))
    as [| l ls].
  - cbn -[keep_sequences]. split; [reflexivity | apply same_tables_kept].
  - destruct (held_by_other l id) eqn:E; cbn -[keep_sequences].
    + split; [reflexivity | apply same_tables_kept].
    + split; [reflexivity |]. intros _. exists l, ls. split; [reflexivity | exact E].
Qed.

Lemma query_writes f site (q : db -> unit * db) :
  writes (query f site q) (fun d => snd (q d)).
Proof.
  intro d. destruct (query_outcome f site q d) as [-> | ->]; cbn;
    [reflexivity | exact I].
Qed.

Lemma assign_if_requested_writes f site lockerId id :
  writes (assign_if_requested f site lockerId id)
         (assigned_if_requested lockerId id).
Proof.
  intro d. unfold assign_if_requested, assigned_if_requested.
  destruct (truthy_id lockerId); [apply query_writes | reflexivity].
Qed.

Lemma release_previous_writes f site lockerId :
  writes (release_previous f site lockerId) (released_previous lockerId).
Proof.
  intro d. unfold release_previous, released_previous.
  destruct (truthy_id lockerId); [apply query_writes | reflexivity].
Qed.

Lemma insert_assignments_writes f site seat shifts id :
  writes (insert_assignments f site seat shifts id)
         (inserted_assignments seat shifts id).
Proof.
  unfold insert_assignments, inserted_assignments.
  induction shifts as [| x l IH]; intro d; cbn.
  - reflexivity.
  - unfold bind at 1.
    destruct (query_outcome f site (insert_assignment seat x id) d) as [-> | ->];
      [| exact I].
    apply IH.
Qed.

Lemma transaction_settled body d Q r d' :
  settled d Q (body d d) ->
  transaction body d = (r, d') ->
  (succeeded r = false /\ same_tables d d') \/ Q r d'.
Proof.
  unfold transaction, settled.
  destruct (body d d) as [r1 d1 | r1 d1 | d1]; intros HQ H; inversion H; subst.
  - right. exact HQ.
  - left. exact HQ.
  - left. split; [reflexivity | apply same_tables_kept].
Qed.

(** ** Sequences through a handler body *)

Lemma steady_ret {A : Type} (a : A) : steady (ret a).
Proof. intro d. reflexivity. Qed.

Lemma steady_respond {A : Type} r : steady (@respond A r).
Proof. intro d. reflexivity. Qed.

Lemma steady_throw {A : Type} : steady (@throw A).
Proof. intro d. reflexivity. Qed.

Lemma steady_rollback d0 : steady (rollback d0).
Proof. intro d. reflexivity. Qed.

Lemma steady_query {A : Type} f site (q : db -> A * db) :
  (forall d, sequences (snd (q d)) = sequences d) ->
  steady (query f site q).
Proof.
  intros H d. destruct (query_outcome f site q d) as [-> | ->];
    [apply H | reflexivity].
Qed.

Lemma steady_bind {A B : Type} (m : tx A) (k : A -> tx B) :
  steady m -> (forall a, steady (k a)) -> steady (bind m k).
Proof.
  intros Hm Hk d. unfold bind. specialize (Hm d).
  destruct (m d) as [a d1 | r d1 | d1]; [| exact Hm | exact Hm].
  specialize (Hk a d1).
  destruct (k a d1); rewrite <- Hm; exact Hk.
Qed.

Lemma steady_for_each {A : Type} (l : list A) (body : A -> tx unit) :
  (forall x, steady (body x)) -> steady (for_each l body).
Proof.
  intro H. induction l as [| x l IH]; cbn [for_each];
    [apply steady_ret | apply steady_bind; [apply H | intros _; exact IH]].
Qed.

Lemma transaction_steady body d :
  steady (body d) -> sequences (snd (transaction body d)) = sequences d.
Proof.
  intro H. specialize (H d). unfold transaction.
  destruct (body d d); exact H.
Qed.

Lemma steady_forward {A : Type} (m : tx A) : steady m -> forward m.
Proof.
  intros H d. specialize (H d).
  destruct (m d); apply sequences_grow_same; exact H.
Qed.

Lemma forward_query {A : Type} f site (q : db -> A * db) :
  (forall d, sequences_grow d (snd (q d))) ->
  forward (query f site q).
Proof.
  intros H d. destruct (query_outcome f site q d) as [-> | ->];
    [apply H | apply sequences_grow_refl].
Qed.

Lemma forward_bind {A B : Type} (m : tx A) (k : A -> tx B) :
  forward m -> (forall a, forward (k a)) -> forward (bind m k).
Proof.
  intros Hm Hk d. unfold bind. specialize (Hm d).
  destruct (m d) as [a d1 | r d1 | d1]; [| exact Hm | exact Hm].
  specialize (Hk a d1).
  destruct (k a d1); apply (sequences_grow_trans _ d1); assumption.
Qed.

Lemma forward_for_each {A : Type} (l : list A) (body : A -> tx unit) :
  (forall x, forward (body x)) -> forward (for_each l body).
Proof.
  intro H. induction l as [| x l IH]; cbn [for_each];
    [apply steady_forward, steady_ret
    | apply forward_bind; [apply H | intros _; exact IH]].
Qed.

Lemma transaction_forward body d :
  forward (body d) -> sequences_grow d (snd (transaction body d)).
Proof.
  intro H. specialize (H d). unfold transaction.
  destruct (body d d); exact H.
Qed.

(** One step towards [steady m] or [forward m], by the shape of [m]. *)
Ltac sequence_step :=
  match goal with
  | |- steady (ret _) => apply steady_ret
  | |- steady (respond _) => apply steady_respond
  | |- steady throw => apply steady_throw
  | |- steady (rollback _) => apply steady_rollback
  | |- steady (query _ _ _) => apply steady_query; intro; reflexivity
  | |- steady (bind _ _) => apply steady_bind; [| intro]
  | |- steady (for_each _ _) => apply steady_for_each; intro
  | |- steady (if ?c then _ else _) => destruct c
  | |- steady (match ?x with _ => _ end) => destruct x
  | |- forward (query _ _ _) =>
    apply forward_query; intro; unfold sequences_grow; cbn; lia
  | |- forward (bind _ _) => apply forward_bind; [| intro]
  | |- forward (for_each _ _) => apply forward_for_each; intro
  | |- forward (if ?c then _ else _) => destruct c
  | |- forward (match ?x with _ => _ end) => destruct x
  | |- forward _ => apply steady_forward
  end.

(** Rules for stepping through a body towards [settled d0 Q]. *)
Section Settling.

Variable d0 : db.
Variable Q : response -> db -> Prop.

Lemma settled_fail r d :
  succeeded r = false ->
  settled d0 Q ((rollback d0 ;;; respond r) d).
Proof.
  intro H. cbn -[keep_sequences]. split; [exact H | apply same_tables_kept].
Qed.

Lemma settled_ret r d :
  Q r d -> settled d0 Q (ret r d).
Proof. intro H. exact H. Qed.

Lemma settled_bind_check (m : tx unit) (k : unit -> tx response) d P :
  check_outcome d0 d P (m d) ->
  (P -> settled d0 Q (k tt d)) ->
  settled d0 Q (bind m k d).
Proof.
  unfold bind. destruct (m d) as [[] d1 | r d1 | d1]; cbn; intros H K.
  - destruct H as [-> HP]. apply K. exact HP.
  - exact H.
  - exact I.
Qed.

Lemma settled_bind_write (m : tx unit) (k : unit -> tx response) d d1 :
  write_outcome d1 (m d) ->
  settled d0 Q (k tt d1) ->
  settled d0 Q (bind m k d).
Proof.
  unfold bind. destruct (m d) as [[] d2 | r d2 | d2]; cbn; intros H K.
  - subst d2. exact K.
  - contradiction.
  - exact I.
Qed.

Lemma settled_bind_query {A : Type} f site (q : db -> A * db)
    (k : A -> tx response) d :
  settled d0 Q (k (fst (q d)) (snd (q d))) ->
  settled d0 Q (bind (query f site q) k d).
Proof.
  intro K. unfold bind.
  destruct (query_outcome f site q d) as [-> | ->]; [exact K | exact I].
Qed.

End Settling.

Lemma enroll_cases f now b d r d' :
  enroll f now b d = (r, d') ->
  (succeeded r = false /\ same_tables d d')
  \/ (r = Resp 201 Ok
      /\ d' = enroll_effect now b d
      /\ enroll_amounts_valid b
      /\ locker_free (parseInt_or_null (b_locker_id b)) d).
Proof.
  unfold enroll.
  apply (transaction_settled _ d
           (fun r d' =>
              r = Resp 201 Ok
              /\ d' = enroll_effect now b d
              /\ enroll_amounts_valid b
              /\ locker_free (parseInt_or_null (b_locker_id b)) d)).
  cbv beta.
  destruct (falsy (name (b_identity b)) || negb (truthy_id (b_branch_id b))
            || missing (b_membership_start b) || missing (b_membership_end b));
    [apply settled_fail; reflexivity |].
  cbv zeta.
  destruct (invalid_amount (parseFloat_or0 (b_total_fee b))) eqn:V1;
    [apply settled_fail; reflexivity |].
  destruct (invalid_amount (parseFloat_or0 (b_amount_paid b))) eqn:V2;
    [apply settled_fail; reflexivity |].
  destruct (invalid_amount (parseFloat_or0 (b_discount b))) eqn:V3;
    [apply settled_fail; reflexivity |].
  destruct (invalid_amount (parseFloat_def0 (b_cash b))) eqn:V4;
    [apply settled_fail; reflexivity |].
  destruct (invalid_amount (parseFloat_def0 (b_online b))) eqn:V5;
    [apply settled_fail; reflexivity |].
  destruct (invalid_amount (parseFloat_def0 (b_security_money b))) eqn:V6;
    [apply settled_fail; reflexivity |].
  eapply settled_bind_check; [apply enroll_seat_checks_guards | intros _].
  eapply settled_bind_check; [apply enroll_locker_check_outcome | intros Hfree].
  apply settled_bind_query. cbn [insert_student fst snd].
  eapply settled_bind_write; [apply assign_if_requested_writes |].
  eapply settled_bind_write; [apply insert_assignments_writes |].
  eapply settled_bind_write; [apply query_writes |].
  apply settled_ret.
  split; [reflexivity |]. split; [reflexivity |].
  split; [repeat split; assumption | exact Hfree].
Qed.

Lemma filter_map_update {A : Type} (key : A -> Z) (g : A -> A) (k : Z)
    (l : list A) :
  (forall y, key (g y) = key y) ->
  filter (fun y => key y =? k) (map (fun y => if key y =? k then g y else y) l)
  = map g (filter (fun y => key y =? k) l).
Proof.
  intro Hkey. induction l as [| y l IH]; cbn; [reflexivity |].
  destruct (key y =? k) eqn:E; cbn.
  - rewrite Hkey, E. cbn. rewrite IH. reflexivity.
  - rewrite E. exact IH.
Qed.

Lemma map_update_absent {A : Type} (key : A -> Z) (g : A -> A) (k : Z)
    (l : list A) :
  filter (fun y => key y =? k) l = [] ->
  map (fun y => if key y =? k then g y else y) l = l.
Proof.
  induction l as [| y l IH]; cbn; [reflexivity |].
  destruct (key y =? k); [discriminate |].
  intro H. rewrite (IH H). reflexivity.
Qed.

Lemma set_students_same d : set_students (students d) d = d.
Proof. destruct d; reflexivity. Qed.

Lemma students_released_previous P d :
  students (released_previous P d) = students d.
Proof. unfold released_previous. destruct (truthy_id P); reflexivity. Qed.

Lemma edit_cases f now id b d r d' :
  edit f now id b d = (r, d') ->
  (succeeded r = false /\ same_tables d d')
  \/ (r = Resp 200 Ok
      /\ exists previous cash online security_money,
           find_student id d = Some previous
           /\ to_numeric (b_cash b) = Some cash
           /\ to_numeric (b_online b) = Some online
           /\ to_numeric (b_security_money b) = Some security_money
           /\ locker_admits (parseInt_or_null (b_locker_id b)) id d
           /\ d' = edit_effect now id b previous cash online security_money d).
Proof.
  unfold edit.
  apply (transaction_settled _ d
           (fun r d' =>
              r = Resp 200 Ok
              /\ exists previous cash online security_money,
                   find_student id d = Some previous
                   /\ to_numeric (b_cash b) = Some cash
                   /\ to_numeric (b_online b) = Some online
                   /\ to_numeric (b_security_money b) = Some security_money
                   /\ locker_admits (parseInt_or_null (b_locker_id b)) id d
                   /\ d' = edit_effect now id b previous cash online
                                       security_money d)).
  cbv beta.
  destruct (falsy (name (b_identity b)) || falsy (phone (b_identity b))
            || falsy (address (b_identity b)) || negb (truthy_id (b_branch_id b))
            || missing (b_membership_start b) || missing (b_membership_end b));
    [apply settled_fail; reflexivity |].
  cbv zeta.
  eapply settled_bind_check; [apply locker_check_outcome | intros Hadm].
  apply settled_bind_query. cbn [select_student fst snd].
  destruct (filter (fun s => s_id s =? id) (students d))
    as [| previous rest] eqn:Eprev; [exact I |].
  eapply settled_bind_write; [apply release_previous_writes |].
  destruct (to_numeric (b_cash b)) as [cash |] eqn:Ec; [| exact I].
  destruct (to_numeric (b_online b)) as [online |] eqn:Eo; [| exact I].
  destruct (to_numeric (b_security_money b)) as [security_money |] eqn:Es;
    [| exact I].
  apply settled_bind_query. cbn [update_student fst snd].
  rewrite (filter_map_update s_id) by reflexivity.
  rewrite students_released_previous, Eprev. cbn [map].
  eapply settled_bind_write; [apply assign_if_requested_writes |].
  eapply settled_bind_write; [apply query_writes |].
  eapply settled_bind_write; [apply insert_assignments_writes |].
  eapply settled_bind_write; [apply query_writes |].
  apply settled_ret.
  split; [reflexivity |].
  exists previous, cash, online, security_money.
  split; [unfold find_student; rewrite <- head_filter_find, Eprev; reflexivity |].
  repeat (split; [reflexivity || assumption |]).
  unfold edit_effect. cbn [update_student snd].
  rewrite students_released_previous. reflexivity.
Qed.

Lemma renew_cases f now id b d r d' :
  renew f now id b d = (r, d') ->
  (succeeded r = false /\ same_tables d d')
  \/ (r = Resp 200 Ok
      /\ exists previous,
           find_student id d = Some previous
           /\ locker_admits (parseInt_or_null (b_locker_id b)) id d
           /\ d' = renew_effect now id b previous d).
Proof.
  unfold renew.
  apply (transaction_settled _ d
           (fun r d' =>
              r = Resp 200 Ok
              /\ exists previous,
                   find_student id d = Some previous
                   /\ locker_admits (parseInt_or_null (b_locker_id b)) id d
                   /\ d' = renew_effect now id b previous d)).
  cbv beta.
  destruct (missing (b_membership_start b) || missing (b_membership_end b)
            || falsy (name (b_identity b)) || falsy (phone (b_identity b))
            || negb (truthy_id (b_branch_id b)));
    [apply settled_fail; reflexivity |].
  cbv zeta.
  eapply settled_bind_check; [apply renew_seat_checks_guards | intros _].
  eapply settled_bind_check; [apply locker_check_outcome | intros Hadm].
  eapply settled_bind_write; [apply query_writes |].
  apply settled_bind_query. cbn [update_student fst snd].
  rewrite (filter_map_update s_id) by reflexivity.
  cbn [release_locker_by_student set_locker students snd].
  destruct (filter (fun s => s_id s =? id) (students d))
    as [| previous rest] eqn:Eprev; cbn [map];
    [apply settled_fail; reflexivity |].
  eapply settled_bind_write; [apply assign_if_requested_writes |].
  eapply settled_bind_write; [apply query_writes |].
  eapply settled_bind_write; [apply insert_assignments_writes |].
  eapply settled_bind_write; [apply query_writes |].
  apply settled_ret.
  split; [reflexivity |].
  exists previous.
  split; [unfold find_student; rewrite <- head_filter_find, Eprev; reflexivity |].
  split; [exact Hadm | reflexivity].
Qed.

Lemma release_if_deactivated_writes f id flag :
  writes (release_if_deactivated f id flag)
         (fun d =>
            if negb flag then
              snd (release_locker_by_student id
                     (snd (update_student id without_locker
                             (snd (delete_assignments id d)))))
            else d).
Proof.
  intro d. unfold release_if_deactivated.
  destruct (negb flag); [| reflexivity].
  unfold bind at 1.
  destruct (query_outcome f 2%nat (delete_assignments id) d) as [-> | ->];
    [| exact I].
  unfold bind at 1.
  destruct (query_outcome f 3%nat (update_student id without_locker)
              (snd (delete_assignments id d))) as [-> | ->]; [| exact I].
  apply query_writes.
Qed.

Lemma set_status_steady f id is_active d :
  sequences (snd (set_status f id is_active d)) = sequences d.
Proof.
  unfold set_status. apply transaction_steady.
  unfold release_if_deactivated. repeat sequence_step.
Qed.

Lemma set_status_cases f id is_active d r d' :
  set_status f id is_active d = (r, d') ->
  (succeeded r = false /\ d' = d)
  \/ (r = Resp 200 Ok
      /\ exists flag s,
           is_active = Some flag
           /\ find_student id d = Some s
           /\ d' = status_effect id flag d).
Proof.
  intro H.
  assert (R : (succeeded r = false /\ same_tables d d')
              \/ (r = Resp 200 Ok
                  /\ exists flag s,
                       is_active = Some flag
                       /\ find_student id d = Some s
                       /\ d' = status_effect id flag d)).
  { revert H. unfold set_status.
    apply (transaction_settled _ d
             (fun r d' =>
                r = Resp 200 Ok
                /\ exists flag s,
                     is_active = Some flag
                     /\ find_student id d = Some s
                     /\ d' = status_effect id flag d)).
    cbv beta.
    destruct is_active as [flag |];
      [| cbn; split; [reflexivity | apply same_tables_refl]].
    apply settled_bind_query. cbn [update_student fst snd].
    rewrite (filter_map_update s_id) by reflexivity.
    destruct (filter (fun s => s_id s =? id) (students d))
      as [| s rest] eqn:Es; cbn [map].
    - cbn. split; [reflexivity |].
      rewrite (map_update_absent s_id _ id _ Es). repeat split.
    - eapply settled_bind_write; [apply release_if_deactivated_writes |].
      apply settled_ret. split; [reflexivity |].
      exists flag, s. split; [reflexivity |].
      split; [unfold find_student; rewrite <- head_filter_find, Es; reflexivity |].
      unfold status_effect. cbn [update_student snd]. reflexivity. }
  destruct R as [[Hr Ht] | R]; [left | right; exact R].
  split; [exact Hr |]. apply same_tables_eq; [exact Ht |].
  pose proof (set_status_steady f id is_active d) as S.
  rewrite H in S. exact S.
Qed.

Lemma delete_student_cases f id d r d' :
  delete_student f id d = (r, d') ->
  kind_of r <> Internal ->
  d' = delete_effect id d
  /\ ((r = Resp 404 NotFound /\ find_student id d = None)
      \/ (r = Resp 200 Ok /\ exists s, find_student id d = Some s)).
Proof.
  unfold delete_student, autocommit, delete_effect.
  unfold bind at 1.
  destruct (query_outcome f 1%nat (delete_assignments id) d) as [-> | ->];
    [| intros H N; inversion H; subst; contradiction N; reflexivity].
  unfold bind at 1.
  destruct (query_outcome f 2%nat (release_locker_by_student id)
              (snd (delete_assignments id d))) as [-> | ->];
    [| intros H N; inversion H; subst; contradiction N; reflexivity].
  unfold bind at 1.
  destruct (query_outcome f 3%nat (delete_history id)
              (snd (release_locker_by_student id
                      (snd (delete_assignments id d))))) as [-> | ->];
    [| intros H N; inversion H; subst; contradiction N; reflexivity].
  unfold bind at 1.
  destruct (query_outcome f 4%nat (delete_student_row id)
              (snd (delete_history id
                      (snd (release_locker_by_student id
                              (snd (delete_assignments id d)))))))
    as [-> | ->];
    [| intros H N; inversion H; subst; contradiction N; reflexivity].
  cbn [delete_student_row delete_history release_locker_by_student
       delete_assignments set_students set_history set_locker set_assignments
       students fst snd].
  unfold find_student. rewrite <- head_filter_find.
  destruct (filter (fun s => s_id s =? id) (students d)) as [| s rest];
    cbn; intros H _; inversion H; subst; (split; [reflexivity |]).
  - left. split; reflexivity.
  - right. split; [reflexivity |]. exists s. reflexivity.
Qed.

Lemma enroll_forward f now b d : sequences_grow d (snd (enroll f now b d)).
Proof.
  unfold enroll. apply transaction_forward. cbv zeta.
  unfold enroll_seat_checks, enroll_locker_check, assign_if_requested,
    insert_assignments.
  repeat sequence_step.
Qed.

Lemma edit_forward f now id b d : sequences_grow d (snd (edit f now id b d)).
Proof.
  unfold edit. apply transaction_forward. cbv zeta.
  unfold locker_check, release_previous, assign_if_requested,
    insert_assignments.
  repeat sequence_step.
Qed.

Lemma renew_forward f now id b d : sequences_grow d (snd (renew f now id b d)).
Proof.
  unfold renew. apply transaction_forward. cbv zeta.
  unfold renew_seat_checks, locker_check, assign_if_requested,
    insert_assignments.
  repeat sequence_step.
Qed.

(** ** Tables a write leaves alone *)

Lemma inserted_assignments_frame seat shifts id d :
  students (inserted_assignments seat shifts id d) = students d
  /\ student_membership_history (inserted_assignments seat shifts id d)
     = student_membership_history d
  /\ locker (inserted_assignments seat shifts id d) = locker d
  /\ next_student_id (inserted_assignments seat shifts id d) = next_student_id d
  /\ next_history_id (inserted_assignments seat shifts id d) = next_history_id d.
Proof.
  unfold inserted_assignments. revert d.
  induction shifts as [| x l IH]; intro d; cbn [fold_left]; [repeat split |].
  destruct (IH (snd (insert_assignment seat x id d)))
    as (H1 & H2 & H3 & H4 & H5).
  rewrite H1, H2, H3, H4, H5. repeat split.
Qed.

Lemma assigned_if_requested_frame lockerId id d :
  students (assigned_if_requested lockerId id d) = students d
  /\ student_membership_history (assigned_if_requested lockerId id d)
     = student_membership_history d
  /\ seat_assignments (assigned_if_requested lockerId id d) = seat_assignments d
  /\ next_student_id (assigned_if_requested lockerId id d) = next_student_id d
  /\ next_history_id (assigned_if_requested lockerId id d) = next_history_id d.
Proof.
  unfold assigned_if_requested. destruct (truthy_id lockerId); repeat split.
Qed.

Lemma released_previous_frame lockerId d :
  students (released_previous lockerId d) = students d
  /\ student_membership_history (released_previous lockerId d)
     = student_membership_history d
  /\ seat_assignments (released_previous lockerId d) = seat_assignments d
  /\ next_student_id (released_previous lockerId d) = next_student_id d
  /\ next_history_id (released_previous lockerId d) = next_history_id d.
Proof.
  unfold released_previous. destruct (truthy_id lockerId); repeat split.
Qed.

Lemma students_enroll_effect now b d :
  students (enroll_effect now b d)
  = students d ++ [enroll_row now b (next_student_id d)].
Proof.
  unfold enroll_effect. cbn [insert_history snd students].
  rewrite (proj1 (inserted_assignments_frame _ _ _ _)).
  rewrite (proj1 (assigned_if_requested_frame _ _ _)).
  reflexivity.
Qed.

Lemma students_edit_effect now id b previous cash online security_money d :
  students (edit_effect now id b previous cash online security_money d)
  = map (fun s => if s_id s =? id
                  then edit_row now b cash online security_money s else s)
        (students d).
Proof.
  unfold edit_effect.
  cbn [overwrite_latest_history set_history snd students].
  rewrite (proj1 (inserted_assignments_frame _ _ _ _)).
  cbn [delete_assignments set_assignments snd students].
  rewrite (proj1 (assigned_if_requested_frame _ _ _)).
  cbn [update_student set_students snd students].
  rewrite (proj1 (released_previous_frame _ _)). reflexivity.
Qed.

Lemma students_renew_effect now id b previous d :
  students (renew_effect now id b previous d)
  = map (fun s => if s_id s =? id then renew_row now b s else s) (students d).
Proof.
  unfold renew_effect.
  cbn [insert_history snd students].
  rewrite (proj1 (inserted_assignments_frame _ _ _ _)).
  cbn [delete_assignments set_assignments snd students].
  rewrite (proj1 (assigned_if_requested_frame _ _ _)).
  reflexivity.
Qed.

Lemma history_edit_effect now id b previous cash online security_money d :
  student_membership_history
    (edit_effect now id b previous cash online security_money d)
  = map (fun h =>
           if sql_eq (Some (h_id h))
                     (latest_history_id id (student_membership_history d))
           then mkHrow (h_id h) (h_student_id h)
                  (history_identity (stored_identity (b_identity b)))
                  (b_membership_start b) (b_membership_end b)
                  (status_at now (b_membership_end b))
                  (parseFloat_or0 (b_total_fee b))
                  (parseFloat_or0 (b_amount_paid b))
                  (nsub (nsub (parseFloat_or0 (b_total_fee b))
                              (parseFloat_or0 (b_discount b)))
                        (parseFloat_or0 (b_amount_paid b)))
                  cash online security_money
                  (parseInt_or_null (b_seat_id b))
                  (first_shift (b_shift_ids b)) (b_branch_id b)
                  (parseInt_or_null (b_locker_id b))
                  (parseFloat_or0 (b_discount b)) now
           else h)
        (student_membership_history d).
Proof.
  unfold edit_effect.
  cbn [overwrite_latest_history set_history snd student_membership_history].
  destruct (inserted_assignments_frame (parseInt_or_null (b_seat_id b))
              (b_shift_ids b) id
              (snd (delete_assignments id
                 (assigned_if_requested (parseInt_or_null (b_locker_id b)) id
                    (snd (update_student id
                            (edit_row now b cash online security_money)
                            (released_previous (s_locker_id previous) d)))))))
    as (_ & -> & _).
  cbn [delete_assignments set_assignments snd student_membership_history].
  rewrite (proj1 (proj2 (assigned_if_requested_frame _ _ _))).
  cbn [update_student set_students snd student_membership_history].
  rewrite (proj1 (proj2 (released_previous_frame _ _))). reflexivity.
Qed.

Lemma history_renew_effect now id b previous d :
  student_membership_history (renew_effect now id b previous d)
  = student_membership_history d
    ++ [snapshot (next_history_id d) (renew_row now b previous)
          (parseInt_or_null (b_seat_id b)) (first_shift (b_shift_ids b))
          (b_branch_id b) (parseInt_or_null (b_locker_id b)) now].
Proof.
  unfold renew_effect.
  cbn [insert_history snd student_membership_history].
  destruct (inserted_assignments_frame (parseInt_or_null (b_seat_id b))
              (b_shift_ids b) id
              (snd (delete_assignments id
                 (assigned_if_requested (parseInt_or_null (b_locker_id b)) id
                    (snd (update_student id (renew_row now b)
                            (snd (release_locker_by_student id d))))))))
    as (_ & H2 & _ & _ & H5).
  rewrite H2, H5.
  cbn [delete_assignments set_assignments snd student_membership_history
       next_history_id].
  destruct (assigned_if_requested_frame (parseInt_or_null (b_locker_id b)) id
              (snd (update_student id (renew_row now b)
                      (snd (release_locker_by_student id d)))))
    as (_ & K2 & _ & _ & K5).
  rewrite K2, K5. reflexivity.
Qed.

(** ** The due balance on the head row *)

Lemma find_student_id id d s : find_student id d = Some s -> s_id s = id.
Proof.
  unfold find_student. intro H. apply find_some in H.
  destruct H as [_ H]. apply Z.eqb_eq. exact H.
Qed.

Lemma floats_differ x y :
  PrimFloat.ltb x y = true -> PrimFloat.ltb y y = false -> x <> y.
Proof. intros H1 H2 E. rewrite E in H1. rewrite H1 in H2. discriminate. Qed.

(** C1 - Enroll and Edit store the request's [amount_paid] and compute the
    due from it without comparing it with [cash + online].  Enroll with fee
    1000, amount paid 400, cash 0, online 0 answers 201 and persists due
    600, where fee - discount - (cash + online) is 1000; Edit with fee 1000,
    amount paid 1000, cash 400 answers 200 and persists due 0, where it is
    600.  In general the head row of a successful Enroll or Edit has
    due = fee - discount - amount_paid with the request's own amount_paid,
    whatever the channels say; Renew is the handler that computes
    amount_paid as cash + online. *)
Theorem enroll_and_edit_trust_amount_paid :
  (exists s d',
     enroll no_faults 20 unbalanced_enrolment opening_db = (Resp 201 Ok, d')
     /\ students d' = [s]
     /\ s_amount_paid s = 400%float
     /\ (read_or0 (s_cash s) + read_or0 (s_online s))%float = 0%float
     /\ read_or0 (s_due_amount s) = 600%float
     /\ (read_or0 (s_total_fee s) - read_or0 (s_discount s)
         - (read_or0 (s_cash s) + read_or0 (s_online s)))%float = 1000%float
     /\ ~ ledger_balanced s)
  /\ (exists s d',
        edit no_faults 25 1 unbalanced_edit enrolled_db = (Resp 200 Ok, d')
        /\ students d' = [s]
        /\ s_amount_paid s = 1000%float
        /\ (read_or0 (s_cash s) + read_or0 (s_online s))%float = 400%float
        /\ read_or0 (s_due_amount s) = 0%float
        /\ (read_or0 (s_total_fee s) - read_or0 (s_discount s)
            - (read_or0 (s_cash s) + read_or0 (s_online s)))%float = 600%float
        /\ ~ ledger_balanced s)
  /\ (forall f now b d r d',
        enroll f now b d = (r, d') -> succeeded r = true ->
        exists s,
          students d' = students d ++ [s]
          /\ s_id s = next_student_id d
          /\ due_from_amount_paid s
          /\ s_amount_paid s = parseFloat_or0 (b_amount_paid b)
          /\ s_cash s = parseFloat_def0 (b_cash b)
          /\ s_online s = parseFloat_def0 (b_online b))
  /\ (forall f now id b d r d',
        edit f now id b d = (r, d') -> succeeded r = true ->
        exists s,
          find_student id d' = Some s
          /\ due_from_amount_paid s
          /\ s_amount_paid s = parseFloat_or0 (b_amount_paid b)
          /\ to_numeric (b_cash b) = Some (s_cash s)
          /\ to_numeric (b_online b) = Some (s_online s))
  /\ (forall f now id b d r d',
        renew f now id b d = (r, d') -> succeeded r = true ->
        exists s,
          find_student id d' = Some s
          /\ due_from_amount_paid s
          /\ s_amount_paid s = nadd (s_cash s) (s_online s)).
Proof.
  split; [| split; [| split; [| split]]].
  - eexists. eexists.
    split; [vm_compute; reflexivity |].
    split; [reflexivity |].
    split; [vm_compute; reflexivity |].
    split; [vm_compute; reflexivity |].
    split; [vm_compute; reflexivity |].
    split; [vm_compute; reflexivity |].
    unfold ledger_balanced. vm_compute.
    apply floats_differ; reflexivity.
  - eexists. eexists.
    split; [vm_compute; reflexivity |].
    split; [reflexivity |].
    split; [vm_compute; reflexivity |].
    split; [vm_compute; reflexivity |].
    split; [vm_compute; reflexivity |].
    split; [vm_compute; reflexivity |].
    unfold ledger_balanced. vm_compute.
    apply floats_differ; reflexivity.
  - intros f now b d r d' H Hok. apply enroll_cases in H.
    destruct H as [[Hr _] | (_ & Hd & _)]; [rewrite Hr in Hok; discriminate |].
    subst d'. exists (enroll_row now b (next_student_id d)).
    split; [apply students_enroll_effect |]. repeat split.
  - intros f now id b d r d' H Hok. apply edit_cases in H.
    destruct H as [[Hr _] | (_ & previous & cash & online & sec & Hp & Hc & Ho & _ & _ & Hd)];
      [rewrite Hr in Hok; discriminate |].
    subst d'. exists (edit_row now b cash online sec previous).
    split; [| split; [reflexivity |]; split; [reflexivity |];
              split; assumption].
    unfold find_student. rewrite students_edit_effect.
    apply (find_map_update s_id); [reflexivity | exact Hp].
  - intros f now id b d r d' H Hok. apply renew_cases in H.
    destruct H as [[Hr _] | (_ & previous & Hp & _ & Hd)];
      [rewrite Hr in Hok; discriminate |].
    subst d'. exists (renew_row now b previous).
    split; [| split; reflexivity].
    unfold find_student. rewrite students_renew_effect.
    apply (find_map_update s_id); [reflexivity | exact Hp].
Qed.

Lemma enroll_and_edit_trust_amount_paid_witness :
  (exists s,
     students (snd (enroll no_faults 20 first_enrolment opening_db))
     = students opening_db ++ [s]
     /\ s_id s = next_student_id opening_db
     /\ due_from_amount_paid s
     /\ s_amount_paid s = parseFloat_or0 (b_amount_paid first_enrolment)
     /\ s_cash s = parseFloat_def0 (b_cash first_enrolment)
     /\ s_online s = parseFloat_def0 (b_online first_enrolment))
  /\ (exists s,
        find_student 1 (snd (renew no_faults 41 1 renewal enrolled_db)) = Some s
        /\ due_from_amount_paid s
        /\ s_amount_paid s = nadd (s_cash s) (s_online s)).
Proof.
  split.
  - apply (proj1 (proj2 (proj2 enroll_and_edit_trust_amount_paid)) no_faults 20
             first_enrolment opening_db (Resp 201 Ok));
      vm_compute; reflexivity.
  - apply (proj2 (proj2 (proj2 (proj2 enroll_and_edit_trust_amount_paid)))
             no_faults 41 1 renewal enrolled_db (Resp 200 Ok));
      vm_compute; reflexivity.
Defined.

(** ** Reactivation *)

Lemma Forall2_map_same {A : Type} (R : A -> A -> Prop) (g : A -> A) (l : list A) :
  (forall x, R x (g x)) -> Forall2 R l (map g l).
Proof.
  intro H. induction l as [| x l IH]; cbn; constructor; [apply H | exact IH].
Qed.

Lemma Forall2_same {A : Type} (R : A -> A -> Prop) (l : list A) :
  (forall x, R x x) -> Forall2 R l l.
Proof.
  intro H. induction l as [| x l IH]; constructor; [apply H | exact IH].
Qed.

(** C9 - a status update with [is_active = true] writes nothing but the
    [is_active] column of the member's head row: seat assignments, lockers
    and history rows are the same, every head row keeps all its other
    columns, and rows of other members are untouched.  The release of seats
    and locker belongs to [is_active = false] alone. *)
Theorem reactivation_changes_only_the_flag :
  (forall f id d r d',
     set_status f id (Some true) d = (r, d') ->
     seat_assignments d' = seat_assignments d
     /\ locker d' = locker d
     /\ student_membership_history d' = student_membership_history d
     /\ Forall2 (fun s s' => same_but_is_active s s'
                             /\ (s_id s <> id -> s' = s)
                             /\ (s' <> s -> s_is_active s' = true))
                (students d) (students d'))
  /\ (forall f id d r d',
        set_status f id (Some false) d = (r, d') ->
        succeeded r = true ->
        seat_assignments d'
        = filter (fun a => negb (a_student_id a =? id)) (seat_assignments d)
        /\ locker d'
           = map (fun l => if sql_eq (l_student_id l) (Some id)
                           then mkLocker (l_id l) false None else l)
                 (locker d)
        /\ student_membership_history d' = student_membership_history d).
Proof.
  split.
  - intros f id d r d' H. apply set_status_cases in H.
    destruct H as [[_ ->] | (_ & flag & s & Hf & _ & ->)].
    + repeat split; try reflexivity.
      apply Forall2_same. intro x. repeat split; try reflexivity.
      intro N. contradiction N. reflexivity.
    + inversion Hf. subst flag. unfold status_effect. cbn.
      repeat split; try reflexivity.
      apply Forall2_map_same. intro x.
      destruct (Z.eqb_spec (s_id x) id) as [E | E].
      * repeat split; try reflexivity. intro N. contradiction.
      * repeat split; try reflexivity. intro N. contradiction N. reflexivity.
  - intros f id d r d' H Hok. apply set_status_cases in H.
    destruct H as [[Hr _] | (_ & flag & s & Hf & _ & ->)];
      [rewrite Hr in Hok; discriminate |].
    inversion Hf. subst flag. unfold status_effect. cbn.
    repeat split; reflexivity.
Qed.

Lemma reactivation_changes_only_the_flag_witness :
  seat_assignments (snd (set_status no_faults 1 (Some true) enrolled_db))
  = seat_assignments enrolled_db
  /\ locker (snd (set_status no_faults 1 (Some true) enrolled_db))
     = locker enrolled_db
  /\ student_membership_history
       (snd (set_status no_faults 1 (Some true) enrolled_db))
     = student_membership_history enrolled_db
  /\ Forall2 (fun s s' => same_but_is_active s s'
                          /\ (s_id s <> 1 -> s' = s)
                          /\ (s' <> s -> s_is_active s' = true))
             (students enrolled_db)
             (students (snd (set_status no_faults 1 (Some true) enrolled_db))).
Proof.
  apply (proj1 reactivation_changes_only_the_flag no_faults 1 enrolled_db
           (Resp 200 Ok)).
  vm_compute. reflexivity.
Defined.

(** ** The history trail under Edit and Renew *)

Lemma latest_history_id_fold id rows acc :
  match fold_left
          (fun acc h =>
             if h_student_id h =? id then
               match acc with
               | Some m => Some (Z.max m (h_id h))
               | None => Some (h_id h)
               end
             else acc)
          rows acc
  with
  | None => acc = None /\ forall h, In h rows -> h_student_id h <> id
  | Some m =>
    (acc = Some m \/ exists h, In h rows /\ h_student_id h = id /\ h_id h = m)
    /\ (forall a, acc = Some a -> a <= m)
    /\ (forall h, In h rows -> h_student_id h = id -> h_id h <= m)
  end.
Proof.
  revert acc. induction rows as [| h rows IH]; intro acc; cbn [fold_left].
  - destruct acc as [m |].
    + split; [left; reflexivity |]. split.
      * intros a Ha. inversion Ha. lia.
      * intros h [].
    + split; [reflexivity |]. intros h [].
  - destruct (Z.eqb_spec (h_student_id h) id) as [E | E].
    + specialize (IH (match acc with
                      | Some m => Some (Z.max m (h_id h))
                      | None => Some (h_id h)
                      end)).
      destruct (fold_left _ rows _) as [m |].
      * destruct IH as (Hex & Hacc & Hall).
        assert (Hh : h_id h <= m).
        { destruct acc as [a |]; [apply (Z.le_trans _ (Z.max a (h_id h))) |];
            try apply Hacc; try reflexivity; lia. }
        split; [| split].
        -- destruct Hex as [Hex | (g & Hg & Hs & Hm)].
           ++ destruct acc as [a |].
              ** inversion Hex.
                 destruct (Z.max_spec a (h_id h)) as [[_ Hmax] | [_ Hmax]].
                 --- right. exists h. split; [left; reflexivity |].
                     split; [exact E | lia].
                 --- left. f_equal. lia.
              ** inversion Hex. right. exists h.
                 split; [left; reflexivity |]. split; [exact E | reflexivity].
           ++ right. exists g. split; [right; exact Hg |]. split; assumption.
        -- intros a Ha. subst acc.
           specialize (Hacc _ eq_refl). lia.
        -- intros g [Hg | Hg] Hs; [subst g; exact Hh | apply Hall; assumption].
      * destruct IH as [Hacc _]. destruct acc; discriminate.
    + specialize (IH acc).
      destruct (fold_left _ rows acc) as [m |].
      * destruct IH as (Hex & Hacc & Hall).
        split; [| split].
        -- destruct Hex as [Hex | (g & Hg & Hs & Hm)]; [left; exact Hex |].
           right. exists g. split; [right; exact Hg |]. split; assumption.
        -- exact Hacc.
        -- intros g [Hg | Hg] Hs; [subst g; contradiction | apply Hall; assumption].
      * destruct IH as [Hacc Hall]. split; [exact Hacc |].
        intros g [Hg | Hg]; [subst g; exact E | apply Hall; exact Hg].
Qed.

Lemma latest_history_id_none id rows :
  latest_history_id id rows = None ->
  forall h, In h rows -> h_student_id h <> id.
Proof.
  intro H. pose proof (latest_history_id_fold id rows None) as L.
  unfold latest_history_id in H. rewrite H in L. apply L.
Qed.

Lemma latest_history_id_some id rows m :
  latest_history_id id rows = Some m ->
  (exists h, In h rows /\ h_student_id h = id /\ h_id h = m)
  /\ (forall h, In h rows -> h_student_id h = id -> h_id h <= m).
Proof.
  intro H. pose proof (latest_history_id_fold id rows None) as L.
  unfold latest_history_id in H. rewrite H in L.
  destruct L as ([L | L] & _ & Hall); [discriminate |].
  split; assumption.
Qed.

Lemma count_after_map {A : Type} (p : A -> bool) (g : A -> A) (l : list A) :
  (forall x, p (g x) = p x) ->
  List.length (filter p (map g l)) = List.length (filter p l).
Proof.
  intro H. induction l as [| x l IH]; cbn; [reflexivity |].
  rewrite H. destruct (p x); cbn; rewrite IH; reflexivity.
Qed.

Lemma map_single_update {A : Type} (key : A -> Z) (F : A -> A) (m : Z)
    (l : list A) (h : A) :
  NoDup (map key l) -> In h l -> key h = m ->
  exists l1 l2,
    l = l1 ++ h :: l2
    /\ map (fun y => if sql_eq (Some (key y)) (Some m) then F y else y) l
       = l1 ++ F h :: l2.
Proof.
  intros Hnd Hin Hk.
  destruct (in_split _ _ Hin) as (l1 & l2 & ->).
  exists l1, l2. split; [reflexivity |].
  rewrite map_app in Hnd. cbn in Hnd.
  pose proof (NoDup_remove_2 _ _ _ Hnd) as Hno.
  rewrite map_app. cbn [map sql_eq]. rewrite Hk, Z.eqb_refl.
  assert (Hid : forall l0, (forall y, In y l0 -> key y <> m) ->
                map (fun y => if key y =? m then F y else y) l0 = l0).
  { intros l0 H0. rewrite <- (map_id l0) at 2. apply map_ext_in.
    intros y Hy. destruct (Z.eqb_spec (key y) m) as [E | E];
      [exfalso; apply (H0 y Hy E) | reflexivity]. }
  rewrite !Hid; [reflexivity | |].
  - intros y Hy E. apply Hno. apply in_or_app. right.
    rewrite Hk, <- E. apply in_map. exact Hy.
  - intros y Hy E. apply Hno. apply in_or_app. left.
    rewrite Hk, <- E. apply in_map. exact Hy.
Qed.

(** C4 - a successful Edit keeps every member's number of history rows;
    with [id] a key of the history table it rewrites exactly one row, the
    member's row with the greatest id (or none when the member has no
    row), in place: the row keeps its id and owner and takes the amounts,
    dates, status, branch and locker of the head row the same call stored,
    the requested seat, the first requested shift and the time of the
    call.  A successful Renew appends exactly one row, owned by the member,
    after the rows that were there, which stay as they were. *)
Theorem edit_overwrites_renew_appends :
  (forall f now id b d r d',
     edit f now id b d = (r, d') -> succeeded r = true ->
     (forall m, count_history m d' = count_history m d)
     /\ (NoDup (map h_id (student_membership_history d)) ->
         (student_membership_history d' = student_membership_history d
          /\ count_history id d = 0%nat)
         \/ exists l1 h h' l2,
              student_membership_history d = l1 ++ h :: l2
              /\ student_membership_history d' = l1 ++ h' :: l2
              /\ h_student_id h = id
              /\ (forall g, In g (student_membership_history d) ->
                            h_student_id g = id -> h_id g <= h_id h)
              /\ h_id h' = h_id h
              /\ h_student_id h' = h_student_id h
              /\ exists s',
                   find_student id d' = Some s'
                   /\ mirrors s' h'
                   /\ h_identity h' = history_identity (s_identity s')
                   /\ h_seat_id h' = parseInt_or_null (b_seat_id b)
                   /\ h_shift_id h' = first_shift (b_shift_ids b)
                   /\ h_changed_at h' = now))
  /\ (forall f now id b d r d',
        renew f now id b d = (r, d') -> succeeded r = true ->
        exists h,
          student_membership_history d' = student_membership_history d ++ [h]
          /\ h_student_id h = id
          /\ count_history id d' = S (count_history id d)
          /\ forall m, m <> id -> count_history m d' = count_history m d).
Proof.
  split.
  - intros f now id b d r d' H Hok. apply edit_cases in H.
    destruct H as [[Hr _] | (_ & previous & cash & online & sec & Hp & _ & _ & _ & _ & Hd)];
      [rewrite Hr in Hok; discriminate |].
    subst d'. split.
    + intro m. unfold count_history. rewrite history_edit_effect.
      apply count_after_map. intro x.
      destruct (sql_eq _ _); reflexivity.
    + intro Hnd. rewrite history_edit_effect.
      destruct (latest_history_id id (student_membership_history d))
        as [m |] eqn:El.
      * right. apply latest_history_id_some in El.
        destruct El as ((h & Hin & Hs & Hm) & Hmax).
        destruct (map_single_update h_id
                    (fun h0 =>
                       mkHrow (h_id h0) (h_student_id h0)
                         (history_identity (stored_identity (b_identity b)))
                         (b_membership_start b) (b_membership_end b)
                         (status_at now (b_membership_end b))
                         (parseFloat_or0 (b_total_fee b))
                         (parseFloat_or0 (b_amount_paid b))
                         (nsub (nsub (parseFloat_or0 (b_total_fee b))
                                     (parseFloat_or0 (b_discount b)))
                               (parseFloat_or0 (b_amount_paid b)))
                         cash online sec
                         (parseInt_or_null (b_seat_id b))
                         (first_shift (b_shift_ids b)) (b_branch_id b)
                         (parseInt_or_null (b_locker_id b))
                         (parseFloat_or0 (b_discount b)) now)
                    m _ h Hnd Hin Hm) as (l1 & l2 & E1 & E2).
        exists l1, h. eexists. exists l2.
        split; [exact E1 |]. split; [exact E2 |].
        split; [exact Hs |].
        split; [intros g Hg Hgs; rewrite Hm; apply Hmax; assumption |].
        split; [reflexivity |]. split; [reflexivity |].
        exists (edit_row now b cash online sec previous).
        split.
        { unfold find_student. rewrite students_edit_effect.
          apply (find_map_update s_id); [reflexivity | exact Hp]. }
        split; [| repeat split].
        unfold mirrors. cbn. repeat split.
        rewrite Hs. symmetry. apply (find_student_id _ _ _ Hp).
      * left. split.
        -- rewrite <- (map_id (student_membership_history d)) at 2.
           apply map_ext. intro h. reflexivity.
        -- unfold count_history.
           pose proof (latest_history_id_none _ _ El) as Hnone.
           destruct (filter (fun h => h_student_id h =? id)
                            (student_membership_history d)) as [| h t] eqn:Ef;
             [reflexivity |].
           exfalso.
           assert (Hin : In h (filter (fun h => h_student_id h =? id)
                                      (student_membership_history d)))
             by (rewrite Ef; left; reflexivity).
           apply filter_In in Hin. destruct Hin as [Hin Hs].
           apply (Hnone h Hin). apply Z.eqb_eq. exact Hs.
  - intros f now id b d r d' H Hok. apply renew_cases in H.
    destruct H as [[Hr _] | (_ & previous & Hp & _ & Hd)];
      [rewrite Hr in Hok; discriminate |].
    subst d'. eexists. split; [apply history_renew_effect |].
    pose proof (find_student_id _ _ _ Hp) as Hid.
    split; [cbn; exact Hid |].
    unfold count_history. rewrite history_renew_effect.
    split; [| intros m Hm];
      rewrite filter_app, length_app; cbn [filter snapshot h_student_id];
      cbn [renew_row s_id]; rewrite Hid.
    + rewrite Z.eqb_refl. cbn. lia.
    + destruct (Z.eqb_spec id m) as [E | E];
        [exfalso; apply Hm; symmetry; exact E | cbn; lia].
Qed.

Lemma edit_overwrites_renew_appends_witness :
  ((forall m,
      count_history m (snd (edit no_faults 30 1 first_enrolment renewed_db))
      = count_history m renewed_db)
   /\ (NoDup (map h_id (student_membership_history renewed_db)) ->
       (student_membership_history
          (snd (edit no_faults 30 1 first_enrolment renewed_db))
        = student_membership_history renewed_db
        /\ count_history 1 renewed_db = 0%nat)
       \/ exists l1 h h' l2,
            student_membership_history renewed_db = l1 ++ h :: l2
            /\ student_membership_history
                 (snd (edit no_faults 30 1 first_enrolment renewed_db))
               = l1 ++ h' :: l2
            /\ h_student_id h = 1
            /\ (forall g, In g (student_membership_history renewed_db) ->
                          h_student_id g = 1 -> h_id g <= h_id h)
            /\ h_id h' = h_id h
            /\ h_student_id h' = h_student_id h
            /\ exists s',
                 find_student 1
                   (snd (edit no_faults 30 1 first_enrolment renewed_db))
                 = Some s'
                 /\ mirrors s' h'
                 /\ h_identity h' = history_identity (s_identity s')
                 /\ h_seat_id h' = parseInt_or_null (b_seat_id first_enrolment)
                 /\ h_shift_id h' = first_shift (b_shift_ids first_enrolment)
                 /\ h_changed_at h' = 30))
  /\ (exists h,
        student_membership_history (snd (renew no_faults 41 1 renewal enrolled_db))
        = student_membership_history enrolled_db ++ [h]
        /\ h_student_id h = 1
        /\ count_history 1 (snd (renew no_faults 41 1 renewal enrolled_db))
           = S (count_history 1 enrolled_db)
        /\ forall m, m <> 1 ->
             count_history m (snd (renew no_faults 41 1 renewal enrolled_db))
             = count_history m enrolled_db).
Proof.
  split.
  - apply (proj1 edit_overwrites_renew_appends no_faults 30 1 first_enrolment
             renewed_db (Resp 200 Ok));
      vm_compute; reflexivity.
  - apply (proj2 edit_overwrites_renew_appends no_faults 41 1 renewal
             enrolled_db (Resp 200 Ok));
      vm_compute; reflexivity.
Defined.

(** ** Lockers *)

Lemma sql_eq_true x y :
  sql_eq x y = true -> exists z, x = Some z /\ y = Some z.
Proof.
  destruct x as [a |], y as [b |]; cbn; try discriminate.
  intro H. apply Z.eqb_eq in H. subst b. exists a. split; reflexivity.
Qed.

Lemma sql_eq_refl z : sql_eq (Some z) (Some z) = true.
Proof. cbn. apply Z.eqb_refl. Qed.

Lemma same_id_same_row (rows : list student) s1 s2 :
  NoDup (map s_id rows) -> In s1 rows -> In s2 rows -> s_id s1 = s_id s2 ->
  s1 = s2.
Proof.
  induction rows as [| x rows IH]; intros Hnd H1 H2 E; [destruct H1 |].
  cbn in Hnd. inversion Hnd as [| ? ? Hx Hnd']. subst.
  destruct H1 as [H1 | H1], H2 as [H2 | H2].
  - congruence.
  - subst x. exfalso. apply Hx. rewrite E. apply in_map. exact H2.
  - subst x. exfalso. apply Hx. rewrite <- E. apply in_map. exact H1.
  - apply IH; assumption.
Qed.

Lemma ids_after_update id (g : student -> student) rows :
  (forall s, s_id (g s) = s_id s) ->
  map s_id (map (fun s => if s_id s =? id then g s else s) rows)
  = map s_id rows.
Proof.
  intro Hg. rewrite map_map. apply map_ext. intro s.
  destruct (s_id s =? id); [apply Hg | reflexivity].
Qed.

Lemma NoDup_ids_filter (p : student -> bool) rows :
  NoDup (map s_id rows) -> NoDup (map s_id (filter p rows)).
Proof.
  induction rows as [| x rows IH]; cbn; intro H; [constructor |].
  inversion H as [| ? ? Hx Hnd]. subst.
  destruct (p x); cbn; [constructor |]; try (apply IH; exact Hnd).
  intro Hin. apply Hx. apply in_map_iff in Hin.
  destruct Hin as (y & Hy & Hf). apply filter_In in Hf.
  rewrite <- Hy. apply in_map. apply Hf.
Qed.

(** The two readings of the rule agree when ids are keys. *)
Lemma linked_exclusive d :
  NoDup (map s_id (students d)) ->
  linked (students d) (locker d) -> locker_exclusive d.
Proof.
  intros Hnd [I1 I2] l Hl. unfold holders.
  destruct (l_is_assigned l) eqn:Ea.
  - destruct (I1 l Hl Ea) as (s & Hs & Hsl).
    exists s. split; [| apply (I2 s l Hs Hl Hsl)].
    assert (Hall : forall s', In s' (students d) ->
                     sql_eq (s_locker_id s') (Some (l_id l)) = true -> s' = s).
    { intros s' Hs' E. apply sql_eq_true in E. destruct E as (z & Ez & Ez').
      inversion Ez'. subst z.
      destruct (I2 s' l Hs' Hl Ez) as [_ B1].
      destruct (I2 s l Hs Hl Hsl) as [_ B2].
      apply (same_id_same_row (students d)); try assumption. congruence. }
    revert Hnd Hs Hall. generalize (students d). intro rows.
    induction rows as [| x rows IH]; intros Hnd Hs Hall; [destruct Hs |].
    cbn in Hnd. inversion Hnd as [| ? ? Hx Hnd']. subst.
    cbn [filter].
    destruct (sql_eq (s_locker_id x) (Some (l_id l))) eqn:E.
    + assert (x = s) by (apply Hall; [left; reflexivity | exact E]). subst x.
      f_equal.
      destruct (filter (fun s0 => sql_eq (s_locker_id s0) (Some (l_id l))) rows)
        as [| y t] eqn:Ef; [reflexivity |].
      exfalso.
      assert (Hy : In y (filter (fun s0 => sql_eq (s_locker_id s0) (Some (l_id l))) rows))
        by (rewrite Ef; left; reflexivity).
      apply filter_In in Hy. destruct Hy as [Hy Ey].
      assert (y = s) by (apply Hall; [right; exact Hy | exact Ey]). subst y.
      apply Hx. apply in_map. exact Hy.
    + destruct Hs as [Hs | Hs].
      * subst x. rewrite Hsl, sql_eq_refl in E. discriminate.
      * apply IH; [exact Hnd' | exact Hs |].
        intros s' Hs' E'. apply Hall; [right; exact Hs' | exact E'].
  - destruct (filter (fun s => sql_eq (s_locker_id s) (Some (l_id l))) (students d))
      as [| y t] eqn:Ef; [reflexivity |].
    exfalso.
    assert (Hy : In y (filter (fun s => sql_eq (s_locker_id s) (Some (l_id l)))
                              (students d)))
      by (rewrite Ef; left; reflexivity).
    apply filter_In in Hy. destruct Hy as [Hy Ey].
    apply sql_eq_true in Ey. destruct Ey as (z & Ez & Ez'). inversion Ez'. subst z.
    destruct (I2 y l Hy Hl Ez) as [B _]. congruence.
Qed.

Lemma exclusive_linked d :
  locker_exclusive d -> linked (students d) (locker d).
Proof.
  intro H. split.
  - intros l Hl Ea. specialize (H l Hl). rewrite Ea in H.
    destruct H as (s & Hs & _). exists s.
    assert (Hin : In s (holders (l_id l) (students d)))
      by (rewrite Hs; left; reflexivity).
    apply filter_In in Hin. destruct Hin as [Hin E].
    split; [exact Hin |].
    apply sql_eq_true in E. destruct E as (z & Ez & Ez'). congruence.
  - intros s l Hs Hl Hsl. specialize (H l Hl).
    assert (Hin : In s (holders (l_id l) (students d))).
    { apply filter_In. split; [exact Hs |]. rewrite Hsl. apply sql_eq_refl. }
    destruct (l_is_assigned l).
    + destruct H as (s0 & H0 & B). rewrite H0 in Hin.
      destruct Hin as [Hin | []]. subst s0. split; [reflexivity | exact B].
    + rewrite H in Hin. destruct Hin.
Qed.

Lemma truthy_or_null o :
  parseInt_or_null o = None
  \/ (exists z, parseInt_or_null o = Some z /\ z <> 0).
Proof.
  unfold parseInt_or_null. destruct (truthy_id o) eqn:E; [right | left; reflexivity].
  destruct o as [z |]; [| discriminate]. exists z. split; [reflexivity |].
  cbn in E. apply negb_true_iff in E. apply Z.eqb_neq in E. exact E.
Qed.

Lemma truthy_nonzero z : z <> 0 -> truthy_id (Some z) = true.
Proof.
  intro H. cbn. apply negb_true_iff. apply Z.eqb_neq. exact H.
Qed.

Lemma assign_row_id L id l : l_id (assign_row L id l) = l_id l.
Proof. unfold assign_row. destruct (_ && _); reflexivity. Qed.

Lemma assign_row_none id l : assign_row None id l = l.
Proof. reflexivity. Qed.

Lemma assign_row_hit z id l :
  z <> 0 -> l_id l = z ->
  assign_row (Some z) id l = mkLocker (l_id l) true (Some id).
Proof.
  intros Hz E. unfold assign_row.
  rewrite (truthy_nonzero z Hz), E, sql_eq_refl. reflexivity.
Qed.

Lemma assign_row_miss z id l :
  l_id l <> z -> assign_row (Some z) id l = l.
Proof.
  intro E. unfold assign_row. cbn [sql_eq].
  destruct (Z.eqb_spec (l_id l) z) as [E' | E']; [contradiction |].
  rewrite andb_false_r. reflexivity.
Qed.

(** Edit, Renew and Deactivate: the member's row moves to [lockerId]
    (possibly none), the rows released by [R] include the locker it held,
    and the requested locker is flagged for it. *)
Lemma linked_after_relocation (id : Z) (g : student -> student)
    (R : locker_row -> locker_row) (lockerId : option Z)
    (rows : list student) (lockers : list locker_row) (previous : student) :
  NoDup (map s_id rows) ->
  In previous rows -> s_id previous = id ->
  linked rows lockers ->
  (forall s, s_id (g s) = s_id s /\ s_locker_id (g s) = lockerId) ->
  (forall l, l_id (R l) = l_id l) ->
  (forall l, R l = l \/ l_is_assigned (R l) = false) ->
  (forall l, In l lockers -> s_locker_id previous = Some (l_id l) ->
             l_is_assigned (R l) = false) ->
  (forall l, In l lockers -> l_is_assigned l = true ->
             l_student_id l <> Some id -> R l = l) ->
  (lockerId = None \/ exists z, lockerId = Some z /\ z <> 0) ->
  (forall z, lockerId = Some z ->
     exists l0 ls,
       filter (fun l => sql_eq (Some (l_id l)) lockerId) lockers = l0 :: ls
       /\ held_by_other l0 id = false) ->
  linked (map (fun s => if s_id s =? id then g s else s) rows)
         (map (fun l => assign_row lockerId id (R l)) lockers).
Proof.
  intros Hnd Hprev Hpid [I1 I2] Hg Rid Rcase Rheld Rother Hshape Hadm.
  assert (Hfree : forall z s l,
            lockerId = Some z -> In s rows -> s_id s <> id ->
            In l lockers -> l_id l = z -> s_locker_id s = Some z -> False).
  { intros z s l Hz Hs Hsid Hl Hlz Hsl.
    destruct (Hadm z Hz) as (l0 & ls & Ef & Hh).
    assert (Hl0 : In l0 (filter (fun l => sql_eq (Some (l_id l)) lockerId) lockers))
      by (rewrite Ef; left; reflexivity).
    apply filter_In in Hl0. destruct Hl0 as [Hl0 E0].
    rewrite Hz in E0. cbn in E0. apply Z.eqb_eq in E0.
    assert (Hs0 : s_locker_id s = Some (l_id l0)) by congruence.
    destruct (I2 s l0 Hs Hl0 Hs0) as [A0 B0].
    unfold held_by_other in Hh. rewrite A0, B0 in Hh. cbn in Hh.
    apply negb_false_iff in Hh. apply Z.eqb_eq in Hh. contradiction. }
  split.
  - intros l' Hl' Ea. apply in_map_iff in Hl'. destruct Hl' as (l & El & Hl).
    subst l'.
    destruct Hshape as [Hn | (z & Hz & Hz0)].
    + subst lockerId. rewrite assign_row_none in Ea |- *.
      destruct (Rcase l) as [Rl | Rl]; [| congruence].
      rewrite Rl in Ea |- *.
      destruct (I1 l Hl Ea) as (s & Hs & Hsl).
      destruct (Z.eqb_spec (s_id s) id) as [E | E].
      * exfalso.
        assert (s = previous)
          by (apply (same_id_same_row rows); try assumption; congruence).
        subst s. pose proof (Rheld l Hl Hsl) as Hr. congruence.
      * exists s. split; [| exact Hsl].
        apply in_map_iff. exists s. split; [| exact Hs].
        destruct (Z.eqb_spec (s_id s) id); [contradiction | reflexivity].
    + subst lockerId. rewrite assign_row_id, Rid.
      destruct (Z.eq_dec (l_id l) z) as [E | E].
      * exists (g previous). split.
        -- apply in_map_iff. exists previous. split; [| exact Hprev].
           rewrite Hpid, Z.eqb_refl. reflexivity.
        -- rewrite (proj2 (Hg previous)). congruence.
      * rewrite assign_row_miss in Ea by (rewrite Rid; exact E).
        destruct (Rcase l) as [Rl | Rl]; [| congruence].
        rewrite Rl in Ea.
        destruct (I1 l Hl Ea) as (s & Hs & Hsl).
        destruct (Z.eqb_spec (s_id s) id) as [E' | E'].
        -- exfalso.
           assert (s = previous)
             by (apply (same_id_same_row rows); try assumption; congruence).
           subst s. pose proof (Rheld l Hl Hsl) as Hr. congruence.
        -- exists s. split; [| exact Hsl].
           apply in_map_iff. exists s. split; [| exact Hs].
           destruct (Z.eqb_spec (s_id s) id); [contradiction | reflexivity].
  - intros s' l' Hs' Hl' Hsl.
    apply in_map_iff in Hs'. destruct Hs' as (s & Es & Hs).
    apply in_map_iff in Hl'. destruct Hl' as (l & El & Hl).
    subst l'. rewrite assign_row_id, Rid in Hsl.
    destruct (Z.eqb_spec (s_id s) id) as [E | E].
    + subst s'. destruct (Hg s) as [Gid Gl]. rewrite Gid, Gl in *.
      destruct Hshape as [Hn | (z & Hz & Hz0)]; [congruence |].
      subst lockerId. assert (Hzl : l_id l = z) by congruence.
      rewrite (assign_row_hit z); [| exact Hz0 | rewrite Rid; exact Hzl].
      cbn. split; [reflexivity | congruence].
    + subst s'.
      destruct (I2 s l Hs Hl Hsl) as [A0 B0].
      assert (Rl : R l = l).
      { apply Rother; [exact Hl | exact A0 |]. rewrite B0. congruence. }
      rewrite Rl.
      destruct Hshape as [Hn | (z & Hz & Hz0)].
      * subst lockerId. rewrite assign_row_none. split; assumption.
      * destruct (Z.eq_dec (l_id l) z) as [E' | E'].
        -- exfalso. apply (Hfree z s l Hz Hs E Hl E'). congruence.
        -- subst lockerId. rewrite assign_row_miss by exact E'.
           split; assumption.
Qed.

(** Enroll: a row with a fresh id is added and the requested locker, whose
    flag was off, is flagged for it. *)
Lemma linked_after_enrolment (n : student) (lockerId : option Z)
    (rows : list student) (lockers : list locker_row) :
  linked rows lockers ->
  s_locker_id n = lockerId ->
  (lockerId = None \/ exists z, lockerId = Some z /\ z <> 0) ->
  (forall z, lockerId = Some z ->
     exists l0 ls,
       filter (fun l => sql_eq (Some (l_id l)) lockerId) lockers = l0 :: ls
       /\ l_is_assigned l0 = false) ->
  linked (rows ++ [n]) (map (assign_row lockerId (s_id n)) lockers).
Proof.
  intros [I1 I2] Hn Hshape Hfree.
  assert (Hnone : forall z s l,
            lockerId = Some z -> In s rows -> In l lockers -> l_id l = z ->
            s_locker_id s = Some z -> False).
  { intros z s l Hz Hs Hl Hlz Hsl.
    destruct (Hfree z Hz) as (l0 & ls & Ef & Hoff).
    assert (Hl0 : In l0 (filter (fun l => sql_eq (Some (l_id l)) lockerId) lockers))
      by (rewrite Ef; left; reflexivity).
    apply filter_In in Hl0. destruct Hl0 as [Hl0 E0].
    rewrite Hz in E0. cbn in E0. apply Z.eqb_eq in E0.
    assert (Hs0 : s_locker_id s = Some (l_id l0)) by congruence.
    destruct (I2 s l0 Hs Hl0 Hs0) as [A0 _]. congruence. }
  split.
  - intros l' Hl' Ea. apply in_map_iff in Hl'. destruct Hl' as (l & El & Hl).
    subst l'. rewrite assign_row_id.
    destruct Hshape as [Hnull | (z & Hz & Hz0)].
    + subst lockerId. rewrite Hnull, assign_row_none in Ea.
      destruct (I1 l Hl Ea) as (s & Hs & Hsl).
      exists s. split; [apply in_or_app; left; exact Hs | exact Hsl].
    + destruct (Z.eq_dec (l_id l) z) as [E | E].
      * exists n. split; [apply in_or_app; right; left; reflexivity |].
        congruence.
      * rewrite Hz, assign_row_miss in Ea by exact E.
        destruct (I1 l Hl Ea) as (s & Hs & Hsl).
        exists s. split; [apply in_or_app; left; exact Hs | exact Hsl].
  - intros s l' Hs Hl' Hsl. apply in_map_iff in Hl'.
    destruct Hl' as (l & El & Hl). subst l'. rewrite assign_row_id in Hsl.
    apply in_app_or in Hs. destruct Hs as [Hs | [Hs | []]].
    + destruct (I2 s l Hs Hl Hsl) as [A0 B0].
      destruct Hshape as [Hnull | (z & Hz & Hz0)].
      * rewrite Hnull, assign_row_none. split; assumption.
      * destruct (Z.eq_dec (l_id l) z) as [E | E].
        -- exfalso. apply (Hnone z s l Hz Hs Hl E). congruence.
        -- rewrite Hz, assign_row_miss by exact E. split; assumption.
    + subst s.
      destruct Hshape as [Hnull | (z & Hz & Hz0)]; [congruence |].
      assert (E : l_id l = z) by congruence.
      rewrite Hz, (assign_row_hit z) by assumption.
      cbn. split; reflexivity.
Qed.

(** Delete: the member's rows go and the lockers that point to it are
    released. *)
Lemma linked_after_removal (id : Z) (rows : list student)
    (lockers : list locker_row) :
  linked rows lockers ->
  linked (filter (fun s => negb (s_id s =? id)) rows)
         (map (release_row_by_student id) lockers).
Proof.
  intros [I1 I2]. split.
  - intros l' Hl' Ea. apply in_map_iff in Hl'. destruct Hl' as (l & El & Hl).
    subst l'. unfold release_row_by_student in *.
    destruct (sql_eq (l_student_id l) (Some id)) eqn:E; [discriminate |].
    destruct (I1 l Hl Ea) as (s & Hs & Hsl).
    exists s. split; [| exact Hsl].
    apply filter_In. split; [exact Hs |].
    destruct (I2 s l Hs Hl Hsl) as [_ B0].
    apply negb_true_iff. apply Z.eqb_neq. intro N.
    rewrite B0, N, sql_eq_refl in E. discriminate.
  - intros s l' Hs Hl' Hsl. apply in_map_iff in Hl'.
    destruct Hl' as (l & El & Hl). subst l'.
    apply filter_In in Hs. destruct Hs as [Hs Hid].
    apply negb_true_iff in Hid. apply Z.eqb_neq in Hid.
    unfold release_row_by_student in *.
    destruct (sql_eq (l_student_id l) (Some id)) eqn:E.
    + cbn in Hsl. destruct (I2 s l Hs Hl Hsl) as [_ B0].
      rewrite B0 in E. cbn in E. apply Z.eqb_eq in E. contradiction.
    + apply (I2 s l Hs Hl Hsl).
Qed.

(** A rewrite of head rows that keeps [id] and [locker_id]. *)
Lemma linked_same_references (id : Z) (g : student -> student)
    (rows : list student) (lockers : list locker_row) :
  (forall s, s_id (g s) = s_id s /\ s_locker_id (g s) = s_locker_id s) ->
  linked rows lockers ->
  linked (map (fun s => if s_id s =? id then g s else s) rows) lockers.
Proof.
  intros Hg [I1 I2]. split.
  - intros l Hl Ea. destruct (I1 l Hl Ea) as (s & Hs & Hsl).
    exists (if s_id s =? id then g s else s). split.
    + apply in_map_iff. exists s. split; [reflexivity | exact Hs].
    + destruct (s_id s =? id); [rewrite (proj2 (Hg s)) |]; exact Hsl.
  - intros s' l Hs' Hl Hsl. apply in_map_iff in Hs'.
    destruct Hs' as (s & Es & Hs). subst s'.
    destruct (s_id s =? id).
    + rewrite (proj2 (Hg s)) in Hsl. rewrite (proj1 (Hg s)).
      apply (I2 s l Hs Hl Hsl).
    + apply (I2 s l Hs Hl Hsl).
Qed.

Lemma release_by_id_fits (previous : student) rows lockers :
  linked rows lockers -> In previous rows ->
  (forall l, In l lockers -> l_id l <> 0) ->
  (forall l, l_id (release_row_by_id (s_locker_id previous) l) = l_id l)
  /\ (forall l, release_row_by_id (s_locker_id previous) l = l
                \/ l_is_assigned (release_row_by_id (s_locker_id previous) l)
                   = false)
  /\ (forall l, In l lockers -> s_locker_id previous = Some (l_id l) ->
                l_is_assigned (release_row_by_id (s_locker_id previous) l)
                = false)
  /\ (forall l, In l lockers -> l_is_assigned l = true ->
                l_student_id l <> Some (s_id previous) ->
                release_row_by_id (s_locker_id previous) l = l).
Proof.
  intros [I1 I2] Hprev Hnz. unfold release_row_by_id.
  split; [| split; [| split]].
  - intro l. destruct (_ && _); reflexivity.
  - intro l. destruct (_ && _); [right | left]; reflexivity.
  - intros l Hl E. rewrite E, (truthy_nonzero _ (Hnz l Hl)), sql_eq_refl.
    reflexivity.
  - intros l Hl Ea Hb.
    destruct (truthy_id (s_locker_id previous)
              && sql_eq (Some (l_id l)) (s_locker_id previous)) eqn:E;
      [| reflexivity].
    exfalso. apply andb_true_iff in E. destruct E as [_ E].
    apply sql_eq_true in E. destruct E as (z & Ez & Ez').
    assert (Eh : s_locker_id previous = Some (l_id l)) by congruence.
    destruct (I2 previous l Hprev Hl Eh) as [_ B0]. contradiction.
Qed.

Lemma release_by_student_fits (previous : student) rows lockers :
  linked rows lockers -> In previous rows ->
  (forall l, l_id (release_row_by_student (s_id previous) l) = l_id l)
  /\ (forall l, release_row_by_student (s_id previous) l = l
                \/ l_is_assigned (release_row_by_student (s_id previous) l)
                   = false)
  /\ (forall l, In l lockers -> s_locker_id previous = Some (l_id l) ->
                l_is_assigned (release_row_by_student (s_id previous) l)
                = false)
  /\ (forall l, In l lockers -> l_is_assigned l = true ->
                l_student_id l <> Some (s_id previous) ->
                release_row_by_student (s_id previous) l = l).
Proof.
  intros [I1 I2] Hprev. unfold release_row_by_student.
  split; [| split; [| split]].
  - intro l. destruct (sql_eq _ _); reflexivity.
  - intro l. destruct (sql_eq _ _); [right | left]; reflexivity.
  - intros l Hl E. destruct (I2 previous l Hprev Hl E) as [_ B0].
    rewrite B0, sql_eq_refl. reflexivity.
  - intros l Hl Ea Hb.
    destruct (sql_eq (l_student_id l) (Some (s_id previous))) eqn:E;
      [| reflexivity].
    exfalso. apply sql_eq_true in E. destruct E as (z & Ez & Ez').
    apply Hb. congruence.
Qed.

(** The [students] and [locker] tables after each handler. *)

Lemma locker_assigned_if_requested lockerId id d :
  locker (assigned_if_requested lockerId id d)
  = map (assign_row lockerId id) (locker d).
Proof.
  unfold assigned_if_requested, assign_row.
  destruct (truthy_id lockerId); cbn.
  - reflexivity.
  - symmetry. apply map_id.
Qed.

Lemma locker_released_previous lockerId d :
  locker (released_previous lockerId d)
  = map (release_row_by_id lockerId) (locker d).
Proof.
  unfold released_previous, release_row_by_id.
  destruct (truthy_id lockerId); cbn.
  - reflexivity.
  - symmetry. apply map_id.
Qed.

Lemma enroll_effect_tables now b d :
  students (enroll_effect now b d)
  = students d ++ [enroll_row now b (next_student_id d)]
  /\ locker (enroll_effect now b d)
     = map (assign_row (parseInt_or_null (b_locker_id b)) (next_student_id d))
           (locker d)
  /\ next_student_id (enroll_effect now b d) = next_student_id d + 1.
Proof.
  split; [apply students_enroll_effect |].
  unfold enroll_effect. cbn [insert_history snd locker next_student_id].
  destruct (inserted_assignments_frame (parseInt_or_null (b_seat_id b))
              (b_shift_ids b) (s_id (enroll_row now b (next_student_id d)))
              (assigned_if_requested (parseInt_or_null (b_locker_id b))
                 (s_id (enroll_row now b (next_student_id d)))
                 (snd (insert_student (enroll_row now b) d))))
    as (_ & _ & -> & -> & _).
  rewrite locker_assigned_if_requested.
  rewrite (proj1 (proj2 (proj2 (proj2 (assigned_if_requested_frame _ _ _))))).
  split; reflexivity.
Qed.

Lemma edit_effect_tables now id b previous cash online security_money d :
  students (edit_effect now id b previous cash online security_money d)
  = map (fun s => if s_id s =? id
                  then edit_row now b cash online security_money s else s)
        (students d)
  /\ locker (edit_effect now id b previous cash online security_money d)
     = map (fun l => assign_row (parseInt_or_null (b_locker_id b)) id
                       (release_row_by_id (s_locker_id previous) l))
           (locker d)
  /\ next_student_id (edit_effect now id b previous cash online security_money d)
     = next_student_id d.
Proof.
  split; [apply students_edit_effect |].
  unfold edit_effect.
  cbn [overwrite_latest_history set_history snd locker next_student_id].
  destruct (inserted_assignments_frame (parseInt_or_null (b_seat_id b))
              (b_shift_ids b) id
              (snd (delete_assignments id
                 (assigned_if_requested (parseInt_or_null (b_locker_id b)) id
                    (snd (update_student id
                            (edit_row now b cash online security_money)
                            (released_previous (s_locker_id previous) d)))))))
    as (_ & _ & -> & -> & _).
  cbn [delete_assignments set_assignments snd locker next_student_id].
  rewrite locker_assigned_if_requested.
  rewrite (proj1 (proj2 (proj2 (proj2 (assigned_if_requested_frame _ _ _))))).
  cbn [update_student set_students snd locker next_student_id].
  rewrite locker_released_previous, map_map.
  rewrite (proj1 (proj2 (proj2 (proj2 (released_previous_frame _ _))))).
  split; reflexivity.
Qed.

Lemma renew_effect_tables now id b previous d :
  students (renew_effect now id b previous d)
  = map (fun s => if s_id s =? id then renew_row now b s else s) (students d)
  /\ locker (renew_effect now id b previous d)
     = map (fun l => assign_row (parseInt_or_null (b_locker_id b)) id
                       (release_row_by_student id l))
           (locker d)
  /\ next_student_id (renew_effect now id b previous d) = next_student_id d.
Proof.
  split; [apply students_renew_effect |].
  unfold renew_effect.
  cbn [insert_history snd locker next_student_id].
  destruct (inserted_assignments_frame (parseInt_or_null (b_seat_id b))
              (b_shift_ids b) id
              (snd (delete_assignments id
                 (assigned_if_requested (parseInt_or_null (b_locker_id b)) id
                    (snd (update_student id (renew_row now b)
                            (snd (release_locker_by_student id d))))))))
    as (_ & _ & -> & -> & _).
  cbn [delete_assignments set_assignments snd locker next_student_id].
  rewrite locker_assigned_if_requested.
  rewrite (proj1 (proj2 (proj2 (proj2 (assigned_if_requested_frame _ _ _))))).
  cbn [update_student set_students release_locker_by_student set_locker
       snd locker next_student_id].
  rewrite map_map. split; reflexivity.
Qed.

Lemma deactivation_tables id d :
  students (status_effect id false d)
  = map (fun s => if s_id s =? id
                  then without_locker (with_is_active false s) else s)
        (students d)
  /\ locker (status_effect id false d)
     = map (fun l => assign_row None id (release_row_by_student id l))
           (locker d)
  /\ next_student_id (status_effect id false d) = next_student_id d.
Proof.
  unfold status_effect. cbn. split; [| split; reflexivity].
  rewrite map_map. apply map_ext. intro s.
  destruct (Z.eqb_spec (s_id s) id) as [E | E]; cbn.
  - apply Z.eqb_eq in E. rewrite E. reflexivity.
  - apply Z.eqb_neq in E. rewrite E. reflexivity.
Qed.

Lemma NoDup_snoc (l : list Z) x : NoDup l -> ~ In x l -> NoDup (l ++ [x]).
Proof.
  induction l as [| y l IH]; cbn; intros Hnd Hx.
  - constructor; [intros [] | constructor].
  - inversion Hnd as [| ? ? Hy Hnd']. subst. constructor.
    + intro Hin. apply in_app_or in Hin. destruct Hin as [Hin | [Hin | []]].
      * contradiction.
      * apply Hx. left. symmetry. exact Hin.
    + apply IH; [exact Hnd' |]. intro Hin. apply Hx. right. exact Hin.
Qed.

Lemma keys_after_update id (g : student -> student)
    (R : locker_row -> locker_row) d d' :
  (forall s, s_id (g s) = s_id s) ->
  (forall l, l_id (R l) = l_id l) ->
  students d' = map (fun s => if s_id s =? id then g s else s) (students d) ->
  locker d' = map R (locker d) ->
  next_student_id d' = next_student_id d ->
  keys_ok d -> keys_ok d'.
Proof.
  intros Hg HR Es El En (K1 & K2 & K3). unfold keys_ok.
  rewrite Es, El, En. split; [| split].
  - rewrite ids_after_update by exact Hg. exact K1.
  - intros s' Hs'. apply in_map_iff in Hs'. destruct Hs' as (s & E & Hs).
    subst s'. destruct (s_id s =? id); [rewrite Hg |]; apply K2; exact Hs.
  - intros l' Hl'. apply in_map_iff in Hl'. destruct Hl' as (l & E & Hl).
    subst l'. rewrite HR. apply K3. exact Hl.
Qed.

Lemma find_student_in id d s :
  find_student id d = Some s -> In s (students d) /\ s_id s = id.
Proof.
  intro H. split; [| apply (find_student_id _ _ _ H)].
  unfold find_student in H. apply find_some in H. apply H.
Qed.

Lemma admits_by_shape (lockerId : option Z) (P : locker_row -> Prop) d :
  (truthy_id lockerId = true ->
   exists l ls, fst (select_locker lockerId d) = l :: ls /\ P l) ->
  (lockerId = None \/ exists z, lockerId = Some z /\ z <> 0) ->
  forall z, lockerId = Some z ->
    exists l0 ls,
      filter (fun l => sql_eq (Some (l_id l)) lockerId) (locker d) = l0 :: ls
      /\ P l0.
Proof.
  intros H Hshape z Hz. apply H.
  destruct Hshape as [Hn | (z' & Hz' & Hnz)]; [congruence |].
  rewrite Hz'. apply truthy_nonzero. exact Hnz.
Qed.

Lemma in_order_unwound d d' :
  same_tables d d' -> sequences_grow d d' ->
  keys_ok d -> locker_exclusive d ->
  keys_ok d' /\ locker_exclusive d'.
Proof.
  intros (Es & _ & _ & El & _) (G & _) (K1 & K2 & K3) Hx.
  unfold keys_ok, locker_exclusive. rewrite Es, El.
  split; [| exact Hx].
  split; [exact K1 |]. split; [| exact K3].
  intros s Hs. specialize (K2 s Hs). lia.
Qed.

(** The rule the handlers keep is stronger than the rule as worded. *)
Lemma exclusive_flag_iff_single_holder d :
  locker_exclusive d -> flag_iff_single_holder d.
Proof.
  intros Hx l Hl. specialize (Hx l Hl).
  destruct (l_is_assigned l).
  - destruct Hx as (s & Hs & Hp). rewrite Hs. split.
    + split; reflexivity.
    + intros s' E. inversion E. subst s'. exact Hp.
  - rewrite Hx. split.
    + split; intro N; discriminate N.
    + intros s' E. discriminate E.
Qed.

(** On a store whose keys are in order, every lifecycle operation (Enroll,
    Edit, Renew, status update, and a Delete that was not cut short by a
    storage failure) keeps the rule that a flagged locker has exactly one
    holder, to whom it points back, and an unflagged locker has no
    holder. *)
Lemma lockers_stay_exclusive f op d r d' :
  keys_ok d ->
  locker_exclusive d ->
  run f op d = (r, d') ->
  (forall id, op = Delete id -> kind_of r <> Internal) ->
  keys_ok d' /\ locker_exclusive d'.
Proof.
  intros Hk Hx Hrun Hdel.
  pose proof (exclusive_linked d Hx) as Hl.
  pose proof Hk as (K1 & K2 & K3).
  destruct op as [now b | now id b | now id b | id is_active | id];
    cbn [run] in Hrun.
  - (* Enroll *)
    pose proof (enroll_forward f now b d) as G. rewrite Hrun in G.
    apply enroll_cases in Hrun.
    destruct Hrun as [[_ Ht] | (_ & -> & _ & Hfree)];
      [apply (in_order_unwound d); assumption |].
    clear G.
    destruct (enroll_effect_tables now b d) as (Es & El & En).
    assert (Hk' : keys_ok (enroll_effect now b d)).
    { unfold keys_ok. rewrite Es, El, En. split; [| split].
      - rewrite map_app. cbn. apply NoDup_snoc; [exact K1 |].
        intro Hin. apply in_map_iff in Hin. destruct Hin as (s & E & Hs).
        specialize (K2 s Hs). lia.
      - intros s Hs. apply in_app_or in Hs. destruct Hs as [Hs | [Hs | []]].
        + specialize (K2 s Hs). lia.
        + subst s. cbn. lia.
      - intros l' Hl'. apply in_map_iff in Hl'. destruct Hl' as (l & E & Hl').
        subst l'. rewrite assign_row_id. apply K3. exact Hl'. }
    split; [exact Hk' |].
    apply linked_exclusive; [apply Hk' |]. rewrite Es, El.
    apply (linked_after_enrolment (enroll_row now b (next_student_id d))
             (parseInt_or_null (b_locker_id b))).
    + exact Hl.
    + reflexivity.
    + apply truthy_or_null.
    + apply (admits_by_shape _ (fun l => l_is_assigned l = false) d Hfree).
      apply truthy_or_null.
  - (* Edit *)
    pose proof (edit_forward f now id b d) as G. rewrite Hrun in G.
    apply edit_cases in Hrun.
    destruct Hrun as [[_ Ht] | (_ & previous & cash & online & sec & Hp & _ & _ & _ & Hadm & ->)];
      [apply (in_order_unwound d); assumption |].
    clear G.
    destruct (find_student_in _ _ _ Hp) as [Hin Hid].
    destruct (edit_effect_tables now id b previous cash online sec d)
      as (Es & El & En).
    destruct (release_by_id_fits previous _ _ Hl Hin K3) as (R1 & R2 & R3 & R4).
    rewrite Hid in R4.
    assert (Hk' : keys_ok (edit_effect now id b previous cash online sec d)).
    { apply (keys_after_update id (edit_row now b cash online sec)
               (fun l => assign_row (parseInt_or_null (b_locker_id b)) id
                           (release_row_by_id (s_locker_id previous) l)) d);
        try assumption.
      - reflexivity.
      - intro l. rewrite assign_row_id. apply R1. }
    split; [exact Hk' |].
    apply linked_exclusive; [apply Hk' |]. rewrite Es, El.
    apply (linked_after_relocation id _ _ _ _ _ previous); try assumption.
    + intro s. split; reflexivity.
    + apply truthy_or_null.
    + apply (admits_by_shape _ (fun l => held_by_other l id = false) d Hadm).
      apply truthy_or_null.
  - (* Renew *)
    pose proof (renew_forward f now id b d) as G. rewrite Hrun in G.
    apply renew_cases in Hrun.
    destruct Hrun as [[_ Ht] | (_ & previous & Hp & Hadm & ->)];
      [apply (in_order_unwound d); assumption |].
    clear G.
    destruct (find_student_in _ _ _ Hp) as [Hin Hid].
    destruct (renew_effect_tables now id b previous d) as (Es & El & En).
    destruct (release_by_student_fits previous _ _ Hl Hin) as (R1 & R2 & R3 & R4).
    rewrite Hid in R1, R2, R3, R4.
    assert (Hk' : keys_ok (renew_effect now id b previous d)).
    { apply (keys_after_update id (renew_row now b)
               (fun l => assign_row (parseInt_or_null (b_locker_id b)) id
                           (release_row_by_student id l)) d);
        try assumption.
      - reflexivity.
      - intro l. rewrite assign_row_id. apply R1. }
    split; [exact Hk' |].
    apply linked_exclusive; [apply Hk' |]. rewrite Es, El.
    apply (linked_after_relocation id _ _ _ _ _ previous); try assumption.
    + intro s. split; reflexivity.
    + apply truthy_or_null.
    + apply (admits_by_shape _ (fun l => held_by_other l id = false) d Hadm).
      apply truthy_or_null.
  - (* status update *)
    apply set_status_cases in Hrun.
    destruct Hrun as [[_ ->] | (_ & flag & previous & _ & Hp & ->)];
      [split; assumption |].
    destruct (find_student_in _ _ _ Hp) as [Hin Hid].
    destruct flag.
    + assert (Hk' : keys_ok (status_effect id true d)).
      { apply (keys_after_update id (with_is_active true) (fun l => l) d);
          try assumption; try reflexivity.
        cbn. symmetry. apply map_id. }
      split; [exact Hk' |].
      apply linked_exclusive; [apply Hk' |].
      apply (linked_same_references id (with_is_active true)); [| exact Hl].
      intro s. split; reflexivity.
    + destruct (deactivation_tables id d) as (Es & El & En).
      destruct (release_by_student_fits previous _ _ Hl Hin)
        as (R1 & R2 & R3 & R4).
      rewrite Hid in R1, R2, R3, R4.
      assert (Hk' : keys_ok (status_effect id false d)).
      { apply (keys_after_update id
                 (fun s => without_locker (with_is_active false s))
                 (fun l => assign_row None id (release_row_by_student id l)) d);
          try assumption.
        reflexivity. }
      split; [exact Hk' |].
      apply linked_exclusive; [apply Hk' |]. rewrite Es, El.
      apply (linked_after_relocation id _ _ _ _ _ previous); try assumption.
      * intro s. split; reflexivity.
      * left. reflexivity.
      * intros z Hz. discriminate Hz.
  - (* Delete *)
    apply delete_student_cases in Hrun; [| apply (Hdel id eq_refl)].
    destruct Hrun as [-> _].
    assert (Hk' : keys_ok (delete_effect id d)).
    { unfold keys_ok, delete_effect. cbn. split; [| split].
      - apply NoDup_ids_filter. exact K1.
      - intros s Hs. apply filter_In in Hs. apply K2. apply Hs.
      - intros l' Hl'. apply in_map_iff in Hl'. destruct Hl' as (l & E & Hl').
        subst l'. destruct (sql_eq _ _); cbn; apply K3; exact Hl'. }
    split; [exact Hk' |].
    apply linked_exclusive; [apply Hk' |].
    apply (linked_after_removal id). exact Hl.
Qed.

Lemma locker_member_db_in_order :
  keys_ok locker_member_db /\ locker_exclusive locker_member_db.
Proof.
  split.
  - split; [| split].
    + vm_compute. constructor; [intros [] | constructor].
    + intros s [<- | []]. vm_compute. reflexivity.
    + intros l [<- | []]. vm_compute. discriminate.
  - intros l [<- | []]. vm_compute. eexists. split; reflexivity.
Qed.

(** C5 - a Delete cut short at its last statement breaks the locker rule.
    The store is the sample branch after a member enrolled with locker 1,
    where the rule holds.  DELETE of that member with the store rejecting
    [DELETE FROM students] answers 500 after the locker was released by the
    third of four statements that commit one by one: the locker's flag is
    off while the member's row, still there, references it.  Every other
    outcome of the five operations, under every fault plan, keeps lockers
    exclusive and with that the rule as worded. *)
Theorem interrupted_delete_breaks_locker_rule :
  (locker_member_db = snd (run no_faults (Enroll 20 locker_enrolment) opening_db)
   /\ flag_iff_single_holder locker_member_db)
  /\ (exists d' s,
        run (fails_at 4) (Delete 1) locker_member_db = (Resp 500 Internal, d')
        /\ locker d' = [mkLocker 1 false None]
        /\ students d' = [s]
        /\ s_locker_id s = Some 1
        /\ holders 1 (students d') = [s]
        /\ ~ flag_iff_single_holder d')
  /\ (forall f op d r d',
        keys_ok d -> locker_exclusive d ->
        run f op d = (r, d') ->
        (forall id, op = Delete id -> kind_of r <> Internal) ->
        keys_ok d' /\ locker_exclusive d' /\ flag_iff_single_holder d').
Proof.
  split; [| split].
  - split; [reflexivity |].
    apply exclusive_flag_iff_single_holder. apply locker_member_db_in_order.
  - eexists. eexists.
    split; [vm_compute; reflexivity |].
    split; [reflexivity |]. split; [reflexivity |]. split; [reflexivity |].
    split; [reflexivity |].
    intro H.
    destruct (H (mkLocker 1 false None) (or_introl eq_refl)) as [[_ H2] _].
    specialize (H2 eq_refl). discriminate H2.
  - intros f op d r d' Hk Hx Hrun Hdel.
    destruct (lockers_stay_exclusive f op d r d' Hk Hx Hrun Hdel) as [Hk' Hx'].
    split; [exact Hk' |]. split; [exact Hx' |].
    apply exclusive_flag_iff_single_holder. exact Hx'.
Qed.

Lemma interrupted_delete_breaks_locker_rule_witness :
  keys_ok (snd (run no_faults (Renew 41 1 renewal) locker_member_db))
  /\ locker_exclusive (snd (run no_faults (Renew 41 1 renewal) locker_member_db))
  /\ flag_iff_single_holder
       (snd (run no_faults (Renew 41 1 renewal) locker_member_db)).
Proof.
  apply (proj2 (proj2 interrupted_delete_breaks_locker_rule) no_faults
           (Renew 41 1 renewal) locker_member_db (Resp 200 Ok)).
  - apply locker_member_db_in_order.
  - apply locker_member_db_in_order.
  - vm_compute. reflexivity.
  - intros id H. discriminate H.
Defined.

(** ** Where a handler departs from its siblings *)

(** C6 - Edit has no seat check.  With seat 1 held by member 1 in shift 1,
    an Edit of member 2 that asks for seat 1 in shift 1 succeeds and leaves
    two assignments for the pair; Renew, given the same request on the same
    store, answers [Conflict] and changes nothing. *)
Theorem edit_double_books_a_seat :
  In (mkAssignment 1 (Some 1) 1 1) (seat_assignments two_member_db)
  /\ (exists d',
        edit no_faults 30 2 seat_grab two_member_db = (Resp 200 Ok, d')
        /\ seat_assignments d'
           = [mkAssignment 1 (Some 1) 1 1; mkAssignment 3 (Some 1) 1 2])
  /\ renew no_faults 30 2 seat_grab two_member_db
     = (Resp 400 Conflict, two_member_db).
Proof.
  split; [vm_compute; left; reflexivity |].
  split; [eexists; split; vm_compute; reflexivity |].
  vm_compute. reflexivity.
Qed.

(** Enroll does check the six amounts before its first query. *)
Lemma enroll_rejects_invalid_amounts f now b d :
  invalid_amount (parseFloat_or0 (b_total_fee b)) = true
  \/ invalid_amount (parseFloat_or0 (b_amount_paid b)) = true
  \/ invalid_amount (parseFloat_or0 (b_discount b)) = true
  \/ invalid_amount (parseFloat_def0 (b_cash b)) = true
  \/ invalid_amount (parseFloat_def0 (b_online b)) = true
  \/ invalid_amount (parseFloat_def0 (b_security_money b)) = true ->
  enroll f now b d = (Resp 400 ValidationError, d).
Proof.
  intro H.
  assert (Refused : forall r,
             match (rollback d ;;; respond r) d with
             | Next r1 d1 => (r1, d1)
             | Respond r1 d1 => (r1, d1)
             | Thrown d1 => (Resp 500 Internal, keep_sequences d d1)
             end = (r, d)).
  { intro r. cbn -[keep_sequences].
    rewrite keep_sequences_same by reflexivity. reflexivity. }
  unfold enroll, transaction.
  destruct (falsy (name (b_identity b)) || negb (truthy_id (b_branch_id b))
            || missing (b_membership_start b) || missing (b_membership_end b));
    [apply Refused |].
  cbv zeta.
  destruct (invalid_amount (parseFloat_or0 (b_total_fee b))); [apply Refused |].
  destruct (invalid_amount (parseFloat_or0 (b_amount_paid b)));
    [apply Refused |].
  destruct (invalid_amount (parseFloat_or0 (b_discount b))); [apply Refused |].
  destruct (invalid_amount (parseFloat_def0 (b_cash b))); [apply Refused |].
  destruct (invalid_amount (parseFloat_def0 (b_online b))); [apply Refused |].
  destruct (invalid_amount (parseFloat_def0 (b_security_money b)));
    [apply Refused |].
  exfalso. repeat (destruct H as [H | H]; [discriminate |]). discriminate.
Qed.

(** C7 - Edit and Renew parse the amounts and use them without a range
    check.  A fee of -50 is refused by Enroll with a validation error, but
    Edit and Renew accept it and store it on the head row. *)
Theorem edit_and_renew_accept_negative_fee :
  enroll no_faults 30 negative_fee enrolled_db
  = (Resp 400 ValidationError, enrolled_db)
  /\ (exists d' s,
        edit no_faults 30 1 negative_fee enrolled_db = (Resp 200 Ok, d')
        /\ find_student 1 d' = Some s
        /\ s_total_fee s = (-50)%float
        /\ s_due_amount s = (-50 - 0 - 400)%float)
  /\ (exists d' s,
        renew no_faults 30 1 negative_fee enrolled_db = (Resp 200 Ok, d')
        /\ find_student 1 d' = Some s
        /\ s_total_fee s = (-50)%float).
Proof.
  split; [apply enroll_rejects_invalid_amounts; left; reflexivity |].
  split.
  - eexists. eexists. split; [vm_compute; reflexivity |].
    split; [vm_compute; reflexivity |]. split; reflexivity.
  - eexists. eexists. split; [vm_compute; reflexivity |].
    split; [vm_compute; reflexivity |]. reflexivity.
Qed.

(** C8 - Delete sends its four statements outside any transaction.  When
    the last one (the removal of the member row) is rejected, the answer is
    the generic 500 while the member's seat assignment and history row are
    already gone and the member row is still there.  A Delete of an id that
    no row carries answers 404 and leaves the store as it was. *)
Theorem delete_is_not_all_or_nothing :
  count_history 1 enrolled_db = 1%nat
  /\ List.length (seat_assignments enrolled_db) = 1%nat
  /\ (exists d' s,
        delete_student (fails_at 4) 1 enrolled_db = (Resp 500 Internal, d')
        /\ student_membership_history d' = []
        /\ seat_assignments d' = []
        /\ find_student 1 d' = Some s
        /\ d' <> enrolled_db)
  /\ delete_student no_faults 7 enrolled_db = (Resp 404 NotFound, enrolled_db).
Proof.
  split; [reflexivity |]. split; [reflexivity |].
  split.
  - eexists. eexists. split; [vm_compute; reflexivity |].
    split; [reflexivity |]. split; [reflexivity |].
    split; [vm_compute; reflexivity |].
    intro H. apply (f_equal seat_assignments) in H. vm_compute in H.
    discriminate H.
  - vm_compute. reflexivity.
Qed.

(** * More of the handlers' behaviour *)

(** ** What a passed check loop has established *)

Lemma for_each_checked {A B : Type} f site (sel : A -> db -> list B * db)
    (k : list B -> tx unit) (ok : list B -> Prop) d0 (l : list A) :
  (forall x d, snd (sel x d) = d) ->
  (forall rows d, check_outcome d0 d (ok rows) (k rows d)) ->
  forall d,
    check_outcome d0 d (forall x, In x l -> ok (fst (sel x d)))
      (for_each l (fun x => rows <- query f site (sel x) ;; k rows) d).
Proof.
  intros Hsel Hk. induction l as [| x l IH]; intro d; cbn [for_each].
  - cbn. split; [reflexivity |]. intros x [].
  - unfold bind at 1. unfold bind at 1.
    destruct (query_outcome f site (sel x) d) as [-> | ->]; [| exact I].
    rewrite Hsel.
    specialize (Hk (fst (sel x d)) d).
    destruct (k (fst (sel x d)) d) as [[] d1 | r d1 | d1]; cbn in Hk |- *.
    + destruct Hk as [-> Hx]. specialize (IH d).
      destruct (for_each l _ d) as [[] d2 | r d2 | d2]; cbn in IH |- *.
      * destruct IH as [-> Hl]. split; [reflexivity |].
        intros y [<- | Hy]; [exact Hx | apply Hl; exact Hy].
      * exact IH.
      * exact I.
    + exact Hk.
    + exact I.
Qed.

Lemma enroll_seat_checks_outcome f d0 seat shifts d :
  check_outcome d0 d (pairs_free seat shifts d)
                (enroll_seat_checks f d0 seat shifts d).
Proof.
  unfold enroll_seat_checks, pairs_free.
  destruct (truthy_id seat && nonempty shifts);
    [| cbn; split; [reflexivity | discriminate]].
  unfold bind at 1.
  destruct (query_outcome f 1%nat (select_seat seat) d) as [-> | ->]; [| exact I].
  cbn [select_seat fst snd].
  destruct (filter (fun s => sql_eq (Some s) seat) (seats d)) as [| x xs].
  - cbn -[keep_sequences]. split; [reflexivity | apply same_tables_kept].
  - unfold bind at 1.
    pose proof (for_each_guards f 2%nat (fun shiftId => select_schedule shiftId)
                (fun rows => match rows with
                             | [] => rollback d0 ;;; respond (Resp 400 ValidationError)
                             | _ :: _ => ret tt
                             end) d0 shifts (fun _ _ => eq_refl)) as G1.
    cbv beta in G1.
    assert (K1 : forall (rows : list Z) d1,
               check_outcome d0 d1 True
                 (match rows with
                  | [] => rollback d0 ;;; respond (Resp 400 ValidationError)
                  | _ :: _ => ret tt
                  end d1)).
    { intros [| y ys] d1; cbn -[keep_sequences]; split;
        reflexivity || exact I || apply same_tables_kept. }
    specialize (G1 K1 d).
    destruct (for_each shifts _ d) as [[] d1 | r d1 | d1]; cbn in G1 |- *;
      [| exact G1 | exact I].
    destruct G1 as [-> _].
    pose proof (for_each_checked f 3%nat
                  (fun shiftId => select_assignment seat shiftId)
                  (fun rows => match rows with
                               | [] => ret tt
                               | _ :: _ => rollback d0 ;;; respond (Resp 400 Conflict)
                               end)
                  (fun rows => rows = []) d0 shifts (fun _ _ => eq_refl)) as G2.
    cbv beta in G2.
    assert (K2 : forall (rows : list assignment) d1,
               check_outcome d0 d1 (rows = [])
                 (match rows with
                  | [] => ret tt
                  | _ :: _ => rollback d0 ;;; respond (Resp 400 Conflict)
                  end d1)).
    { intros [| y ys] d1; cbn -[keep_sequences]; split;
        reflexivity || apply same_tables_kept. }
    specialize (G2 K2 d).
    destruct (for_each shifts _ d) as [[] d1 | r d1 | d1]; cbn in G2 |- *;
      [| exact G2 | exact I].
    destruct G2 as [-> Hall]. split; [reflexivity |]. intros _. exact Hall.
Qed.

Lemma renew_seat_checks_outcome f d0 seat shifts id d :
  check_outcome d0 d (pairs_free_of_others seat shifts id d)
                (renew_seat_checks f d0 seat shifts id d).
Proof.
  unfold renew_seat_checks, pairs_free_of_others.
  destruct (truthy_id seat && nonempty shifts);
    [| cbn; split; [reflexivity | discriminate]].
  pose proof (for_each_checked f 1%nat
                (fun shiftId => select_assignment_of_other seat shiftId id)
                (fun rows => match rows with
                             | [] => ret tt
                             | _ :: _ => rollback d0 ;;; respond (Resp 400 Conflict)
                             end)
                (fun rows => rows = []) d0 shifts (fun _ _ => eq_refl)) as G.
  cbv beta in G.
  assert (K : forall (rows : list assignment) d1,
             check_outcome d0 d1 (rows = [])
               (match rows with
                | [] => ret tt
                | _ :: _ => rollback d0 ;;; respond (Resp 400 Conflict)
                end d1)).
  { intros [| y ys] d1; cbn -[keep_sequences]; split;
        reflexivity || apply same_tables_kept. }
  specialize (G K d).
  destruct (for_each shifts _ d) as [[] d1 | r d1 | d1]; cbn in G |- *;
    [| exact G | exact I].
  destruct G as [-> Hall]. split; [reflexivity |]. intros _. exact Hall.
Qed.

(** Everything a successful Enroll has checked and written. *)
Lemma enroll_success f now b d r d' :
  enroll f now b d = (r, d') ->
  succeeded r = true ->
  r = Resp 201 Ok
  /\ d' = enroll_effect now b d
  /\ enroll_required b = true
  /\ enroll_amounts_valid b
  /\ pairs_free (parseInt_or_null (b_seat_id b)) (b_shift_ids b) d
  /\ locker_free (parseInt_or_null (b_locker_id b)) d.
Proof.
  intros H Hok.
  assert (R : (succeeded r = false /\ same_tables d d')
              \/ (r = Resp 201 Ok
                  /\ d' = enroll_effect now b d
                  /\ enroll_required b = true
                  /\ enroll_amounts_valid b
                  /\ pairs_free (parseInt_or_null (b_seat_id b)) (b_shift_ids b) d
                  /\ locker_free (parseInt_or_null (b_locker_id b)) d)).
  { revert H. unfold enroll.
    apply (transaction_settled _ d
             (fun r d' =>
                r = Resp 201 Ok
                /\ d' = enroll_effect now b d
                /\ enroll_required b = true
                /\ enroll_amounts_valid b
                /\ pairs_free (parseInt_or_null (b_seat_id b)) (b_shift_ids b) d
                /\ locker_free (parseInt_or_null (b_locker_id b)) d)).
    cbv beta. unfold enroll_required.
    destruct (falsy (name (b_identity b)) || negb (truthy_id (b_branch_id b))
              || missing (b_membership_start b) || missing (b_membership_end b));
      [apply settled_fail; reflexivity |].
    cbv zeta.
    destruct (invalid_amount (parseFloat_or0 (b_total_fee b))) eqn:V1;
      [apply settled_fail; reflexivity |].
    destruct (invalid_amount (parseFloat_or0 (b_amount_paid b))) eqn:V2;
      [apply settled_fail; reflexivity |].
    destruct (invalid_amount (parseFloat_or0 (b_discount b))) eqn:V3;
      [apply settled_fail; reflexivity |].
    destruct (invalid_amount (parseFloat_def0 (b_cash b))) eqn:V4;
      [apply settled_fail; reflexivity |].
    destruct (invalid_amount (parseFloat_def0 (b_online b))) eqn:V5;
      [apply settled_fail; reflexivity |].
    destruct (invalid_amount (parseFloat_def0 (b_security_money b))) eqn:V6;
      [apply settled_fail; reflexivity |].
    eapply settled_bind_check; [apply enroll_seat_checks_outcome | intros Hpairs].
    eapply settled_bind_check; [apply enroll_locker_check_outcome | intros Hfree].
    apply settled_bind_query. cbn [insert_student fst snd].
    eapply settled_bind_write; [apply assign_if_requested_writes |].
    eapply settled_bind_write; [apply insert_assignments_writes |].
    eapply settled_bind_write; [apply query_writes |].
    apply settled_ret.
    split; [reflexivity |]. split; [reflexivity |]. split; [reflexivity |].
    split; [repeat split; assumption |]. split; assumption. }
  destruct R as [[Hr _] | R]; [rewrite Hr in Hok; discriminate | exact R].
Qed.

(** Everything a successful Renew has checked and written. *)
Lemma renew_success f now id b d r d' :
  renew f now id b d = (r, d') ->
  succeeded r = true ->
  r = Resp 200 Ok
  /\ renew_required b = true
  /\ pairs_free_of_others (parseInt_or_null (b_seat_id b)) (b_shift_ids b) id d
  /\ exists previous,
       find_student id d = Some previous
       /\ d' = renew_effect now id b previous d.
Proof.
  intros H Hok.
  assert (R : (succeeded r = false /\ same_tables d d')
              \/ (r = Resp 200 Ok
                  /\ renew_required b = true
                  /\ pairs_free_of_others (parseInt_or_null (b_seat_id b))
                       (b_shift_ids b) id d
                  /\ exists previous,
                       find_student id d = Some previous
                       /\ d' = renew_effect now id b previous d)).
  { revert H. unfold renew.
    apply (transaction_settled _ d
             (fun r d' =>
                r = Resp 200 Ok
                /\ renew_required b = true
                /\ pairs_free_of_others (parseInt_or_null (b_seat_id b))
                     (b_shift_ids b) id d
                /\ exists previous,
                     find_student id d = Some previous
                     /\ d' = renew_effect now id b previous d)).
    cbv beta. unfold renew_required.
    destruct (missing (b_membership_start b) || missing (b_membership_end b)
              || falsy (name (b_identity b)) || falsy (phone (b_identity b))
              || negb (truthy_id (b_branch_id b)));
      [apply settled_fail; reflexivity |].
    cbv zeta.
    eapply settled_bind_check; [apply renew_seat_checks_outcome | intros Hpairs].
    eapply settled_bind_check; [apply locker_check_outcome | intros Hadm].
    eapply settled_bind_write; [apply query_writes |].
    apply settled_bind_query. cbn [update_student fst snd].
    rewrite (filter_map_update s_id) by reflexivity.
    cbn [release_locker_by_student set_locker students snd].
    destruct (filter (fun s => s_id s =? id) (students d))
      as [| previous rest] eqn:Eprev; cbn [map];
      [apply settled_fail; reflexivity |].
    eapply settled_bind_write; [apply assign_if_requested_writes |].
    eapply settled_bind_write; [apply query_writes |].
    eapply settled_bind_write; [apply insert_assignments_writes |].
    eapply settled_bind_write; [apply query_writes |].
    apply settled_ret.
    split; [reflexivity |]. split; [reflexivity |]. split; [exact Hpairs |].
    exists previous.
    split; [unfold find_student; rewrite <- head_filter_find, Eprev; reflexivity |].
    reflexivity. }
  destruct R as [[Hr _] | R]; [rewrite Hr in Hok; discriminate | exact R].
Qed.

(** The [seat_assignments] table after the insert loop. *)
Lemma assignments_inserted seat shifts id d :
  seat_assignments (inserted_assignments seat shifts id d)
  = seat_assignments d
    ++ fresh_assignments seat id (next_assignment_id d) shifts.
Proof.
  unfold inserted_assignments. revert d.
  induction shifts as [| x l IH]; intro d; cbn [fold_left fresh_assignments].
  - symmetry. apply app_nil_r.
  - rewrite IH. cbn [insert_assignment snd seat_assignments next_assignment_id].
    rewrite <- app_assoc. reflexivity.
Qed.

Lemma fresh_assignments_rows seat id next shifts a :
  In a (fresh_assignments seat id next shifts) ->
  a_seat_id a = seat /\ a_student_id a = id /\ In (a_shift_id a) shifts.
Proof.
  revert next. induction shifts as [| x l IH]; intros next H; [destruct H |].
  cbn in H. destruct H as [<- | H].
  - cbn. repeat split. left. reflexivity.
  - destruct (IH _ H) as (H1 & H2 & H3). repeat split; try assumption.
    right. exact H3.
Qed.

Lemma fresh_assignments_shifts seat id next shifts :
  map (fun a => (a_seat_id a, a_shift_id a))
      (fresh_assignments seat id next shifts)
  = map (fun shiftId => (seat, shiftId)) shifts.
Proof.
  revert next. induction shifts as [| x l IH]; intro next; cbn;
    [reflexivity | rewrite IH; reflexivity].
Qed.

Lemma assignments_enroll_effect now b d :
  seat_assignments (enroll_effect now b d)
  = seat_assignments d
    ++ fresh_assignments (parseInt_or_null (b_seat_id b)) (next_student_id d)
         (next_assignment_id d) (b_shift_ids b).
Proof.
  unfold enroll_effect. cbn [insert_history snd seat_assignments].
  rewrite assignments_inserted.
  unfold assigned_if_requested.
  destruct (truthy_id (parseInt_or_null (b_locker_id b))); reflexivity.
Qed.

Lemma assignments_edit_effect now id b previous cash online security_money d :
  seat_assignments (edit_effect now id b previous cash online security_money d)
  = filter (fun a => negb (a_student_id a =? id)) (seat_assignments d)
    ++ fresh_assignments (parseInt_or_null (b_seat_id b)) id
         (next_assignment_id d) (b_shift_ids b).
Proof.
  unfold edit_effect.
  cbn [overwrite_latest_history set_history snd seat_assignments].
  rewrite assignments_inserted.
  unfold assigned_if_requested, released_previous.
  destruct (truthy_id (parseInt_or_null (b_locker_id b)));
    destruct (truthy_id (s_locker_id previous)); reflexivity.
Qed.

Lemma assignments_renew_effect now id b previous d :
  seat_assignments (renew_effect now id b previous d)
  = filter (fun a => negb (a_student_id a =? id)) (seat_assignments d)
    ++ fresh_assignments (parseInt_or_null (b_seat_id b)) id
         (next_assignment_id d) (b_shift_ids b).
Proof.
  unfold renew_effect.
  cbn [insert_history snd seat_assignments].
  rewrite assignments_inserted.
  unfold assigned_if_requested.
  destruct (truthy_id (parseInt_or_null (b_locker_id b))); reflexivity.
Qed.

(** ** All or nothing *)

(** X1 - whatever query fails and whatever is wrong with the request, an
    Enroll, Edit, Renew or status update that does not answer with success
    leaves every table exactly as it found it; the id sequences are not
    part of what is rolled back and may have moved forward. *)
Theorem failed_call_leaves_every_table f op d r d' :
  run f op d = (r, d') ->
  (forall id, op <> Delete id) ->
  succeeded r = false ->
  same_tables d d' /\ sequences_grow d d'.
Proof.
  intros H Hop Hr.
  destruct op as [now b | now id b | now id b | id is_active | id];
    cbn [run] in H.
  - pose proof (enroll_forward f now b d) as G. rewrite H in G.
    apply enroll_cases in H.
    destruct H as [[_ H] | (H & _)]; [split; assumption | subst r; discriminate].
  - pose proof (edit_forward f now id b d) as G. rewrite H in G.
    apply edit_cases in H.
    destruct H as [[_ H] | (H & _)]; [split; assumption | subst r; discriminate].
  - pose proof (renew_forward f now id b d) as G. rewrite H in G.
    apply renew_cases in H.
    destruct H as [[_ H] | (H & _)]; [split; assumption | subst r; discriminate].
  - apply set_status_cases in H.
    destruct H as [[_ ->] | (H & _)]; [| subst r; discriminate].
    split; [apply same_tables_refl | apply sequences_grow_refl].
  - exfalso. apply (Hop id). reflexivity.
Qed.

Lemma failed_call_leaves_every_table_witness :
  same_tables enrolled_db (snd (run (fails_at 8) (Renew 41 1 renewal) enrolled_db))
  /\ sequences_grow enrolled_db
       (snd (run (fails_at 8) (Renew 41 1 renewal) enrolled_db))
  /\ next_assignment_id enrolled_db = 2
  /\ next_assignment_id (snd (run (fails_at 8) (Renew 41 1 renewal) enrolled_db))
     = 3.
Proof.
  destruct (failed_call_leaves_every_table (fails_at 8) (Renew 41 1 renewal)
              enrolled_db (Resp 500 Internal)
              (snd (run (fails_at 8) (Renew 41 1 renewal) enrolled_db)))
    as [H1 H2].
  - vm_compute. reflexivity.
  - intros id H. discriminate H.
  - reflexivity.
  - split; [exact H1 |]. split; [exact H2 |]. split; reflexivity.
Defined.

(** ** Seats *)

Lemma delete_student_assignments f id d r d' :
  delete_student f id d = (r, d') ->
  seat_assignments d' = seat_assignments d
  \/ seat_assignments d'
     = filter (fun a => negb (a_student_id a =? id)) (seat_assignments d).
Proof.
  unfold delete_student, autocommit.
  unfold bind at 1.
  destruct (query_outcome f 1%nat (delete_assignments id) d) as [-> | ->];
    [| intro H; inversion H; left; reflexivity].
  unfold bind at 1.
  destruct (query_outcome f 2%nat (release_locker_by_student id)
              (snd (delete_assignments id d))) as [-> | ->];
    [| intro H; inversion H; right; reflexivity].
  unfold bind at 1.
  destruct (query_outcome f 3%nat (delete_history id)
              (snd (release_locker_by_student id
                      (snd (delete_assignments id d))))) as [-> | ->];
    [| intro H; inversion H; right; reflexivity].
  unfold bind at 1.
  destruct (query_outcome f 4%nat (delete_student_row id)
              (snd (delete_history id
                      (snd (release_locker_by_student id
                              (snd (delete_assignments id d)))))))
    as [-> | ->];
    [| intro H; inversion H; right; reflexivity].
  cbn [delete_student_row delete_history release_locker_by_student
       delete_assignments set_students set_history set_locker set_assignments
       students fst snd].
  destruct (filter (fun s => s_id s =? id) (students d)) as [| s rest];
    cbn; intro H; inversion H; right; reflexivity.
Qed.

Lemma seat_exclusive_filter (p : assignment -> bool) d d' :
  seat_assignments d' = filter p (seat_assignments d) ->
  seat_exclusive d -> seat_exclusive d'.
Proof.
  intros E H a1 a2 H1 H2. rewrite E in H1, H2.
  apply filter_In in H1. apply filter_In in H2.
  apply H; [apply H1 | apply H2].
Qed.

Lemma seat_exclusive_same d d' :
  seat_assignments d' = seat_assignments d ->
  seat_exclusive d -> seat_exclusive d'.
Proof.
  intros E H a1 a2 H1 H2. rewrite E in H1, H2. apply H; assumption.
Qed.

(** Rows kept from before, plus fresh rows of one member on one seat, none
    of which meets a kept row of another member. *)
Lemma seat_exclusive_extended (kept fresh : list assignment) seat id d d' :
  seat_assignments d' = kept ++ fresh ->
  (forall a, In a kept -> In a (seat_assignments d)) ->
  (forall a, In a fresh -> a_seat_id a = seat /\ a_student_id a = id) ->
  (forall a n, In a kept -> In n fresh ->
               sql_eq (a_seat_id a) seat = true ->
               a_shift_id a = a_shift_id n -> a_student_id a = id) ->
  seat_exclusive d -> seat_exclusive d'.
Proof.
  intros E Hkept Hfresh Hmeet H a1 a2 H1 H2 Hs Hsh.
  rewrite E in H1, H2.
  apply in_app_or in H1. apply in_app_or in H2.
  destruct H1 as [K1 | F1], H2 as [K2 | F2].
  - apply H; try assumption; apply Hkept; assumption.
  - destruct (Hfresh a2 F2) as [S2 I2]. rewrite I2.
    apply (Hmeet a1 a2 K1 F2); [rewrite <- S2; exact Hs | exact Hsh].
  - destruct (Hfresh a1 F1) as [S1 I1]. rewrite I1. symmetry.
    apply (Hmeet a2 a1 K2 F1); [| symmetry; exact Hsh].
    rewrite <- S1.
    destruct (a_seat_id a1) as [x |], (a_seat_id a2) as [y |];
      cbn in Hs |- *; try discriminate.
    rewrite Z.eqb_sym. exact Hs.
  - destruct (Hfresh a1 F1) as [_ I1]. destruct (Hfresh a2 F2) as [_ I2].
    congruence.
Qed.

Lemma truthy_requested o z :
  parseInt_or_null o = Some z -> truthy_id (parseInt_or_null o) = true.
Proof.
  intro H. destruct (truthy_or_null o) as [N | (z' & E & Hz)]; [congruence |].
  rewrite E. apply truthy_nonzero. exact Hz.
Qed.

(** X2 - Enroll, Renew, a status update and Delete never create a second
    holder for a (seat, shift) pair: if no pair is assigned to two different
    members before the call, none is after it, under every fault plan.
    (Edit is the handler without a seat check.) *)
Theorem seat_exclusivity_kept f op d r d' :
  seat_exclusive d ->
  run f op d = (r, d') ->
  (forall now id b, op <> Edit now id b) ->
  seat_exclusive d'.
Proof.
  intros Hx H Hop.
  destruct op as [now b | now id b | now id b | id is_active | id];
    cbn [run] in H.
  - (* Enroll *)
    destruct (succeeded r) eqn:Hr.
    + destruct (enroll_success _ _ _ _ _ _ H Hr) as (_ & -> & _ & _ & Hfree & _).
      apply (seat_exclusive_extended (seat_assignments d)
               (fresh_assignments (parseInt_or_null (b_seat_id b))
                  (next_student_id d) (next_assignment_id d) (b_shift_ids b))
               (parseInt_or_null (b_seat_id b)) (next_student_id d) d);
        try assumption.
      * apply assignments_enroll_effect.
      * intros a Ha. exact Ha.
      * intros a Ha. destruct (fresh_assignments_rows _ _ _ _ _ Ha) as (S1 & I1 & _).
        split; assumption.
      * intros a n Ha Hn Hs Hsh. exfalso.
        destruct (fresh_assignments_rows _ _ _ _ _ Hn) as (_ & _ & Hin).
        apply sql_eq_true in Hs. destruct Hs as (z & Ez & Eseat).
        assert (T : truthy_id (parseInt_or_null (b_seat_id b))
                    && nonempty (b_shift_ids b) = true).
        { rewrite (truthy_requested _ _ Eseat).
          destruct (b_shift_ids b); [destruct Hin | reflexivity]. }
        pose proof (Hfree T _ Hin) as Hnone. cbn in Hnone.
        assert (Hina : In a (filter
                               (fun a0 => sql_eq (a_seat_id a0)
                                            (parseInt_or_null (b_seat_id b))
                                          && (a_shift_id a0 =? a_shift_id n))
                               (seat_assignments d))).
        { apply filter_In. split; [exact Ha |].
          rewrite Ez, Eseat, sql_eq_refl, Hsh, Z.eqb_refl. reflexivity. }
        rewrite Hnone in Hina. destruct Hina.
    + apply enroll_cases in H.
      destruct H as [[_ Ht] | (-> & _)]; [| discriminate].
      apply (seat_exclusive_same d); [apply Ht | exact Hx].
  - exfalso. apply (Hop now id b). reflexivity.
  - (* Renew *)
    destruct (succeeded r) eqn:Hr.
    + destruct (renew_success _ _ _ _ _ _ _ H Hr)
        as (_ & _ & Hfree & previous & _ & ->).
      apply (seat_exclusive_extended
               (filter (fun a => negb (a_student_id a =? id)) (seat_assignments d))
               (fresh_assignments (parseInt_or_null (b_seat_id b)) id
                  (next_assignment_id d) (b_shift_ids b))
               (parseInt_or_null (b_seat_id b)) id d);
        try assumption.
      * apply assignments_renew_effect.
      * intros a Ha. apply filter_In in Ha. apply Ha.
      * intros a Ha. destruct (fresh_assignments_rows _ _ _ _ _ Ha) as (S1 & I1 & _).
        split; assumption.
      * intros a n Ha Hn Hs Hsh. exfalso.
        apply filter_In in Ha. destruct Ha as [Ha Hother].
        destruct (fresh_assignments_rows _ _ _ _ _ Hn) as (_ & _ & Hin).
        apply sql_eq_true in Hs. destruct Hs as (z & Ez & Eseat).
        assert (T : truthy_id (parseInt_or_null (b_seat_id b))
                    && nonempty (b_shift_ids b) = true).
        { rewrite (truthy_requested _ _ Eseat).
          destruct (b_shift_ids b); [destruct Hin | reflexivity]. }
        pose proof (Hfree T _ Hin) as Hnone. cbn in Hnone.
        assert (Hina : In a (filter
                               (fun a0 => sql_eq (a_seat_id a0)
                                            (parseInt_or_null (b_seat_id b))
                                          && (a_shift_id a0 =? a_shift_id n)
                                          && negb (a_student_id a0 =? id))
                               (seat_assignments d))).
        { apply filter_In. split; [exact Ha |].
          rewrite Ez, Eseat, sql_eq_refl, Hsh, Z.eqb_refl, Hother. reflexivity. }
        rewrite Hnone in Hina. destruct Hina.
    + apply renew_cases in H.
      destruct H as [[_ Ht] | (-> & _)]; [| discriminate].
      apply (seat_exclusive_same d); [apply Ht | exact Hx].
  - (* status update *)
    apply set_status_cases in H.
    destruct H as [[_ ->] | (_ & flag & s & _ & _ & ->)]; [exact Hx |].
    destruct flag.
    + apply (seat_exclusive_same d); [reflexivity | exact Hx].
    + apply (seat_exclusive_filter (fun a => negb (a_student_id a =? id)) d);
        [reflexivity | exact Hx].
  - (* Delete *)
    destruct (delete_student_assignments _ _ _ _ _ H) as [E | E].
    + apply (seat_exclusive_same d); assumption.
    + apply (seat_exclusive_filter _ d _ E). exact Hx.
Qed.

Lemma two_member_db_seat_exclusive : seat_exclusive two_member_db.
Proof.
  intros a1 a2 H1 H2.
  cbn in H1, H2.
  destruct H1 as [<- | [<- | []]], H2 as [<- | [<- | []]]; cbn;
    intros Hs Hsh; try reflexivity; discriminate.
Qed.

Lemma seat_exclusivity_kept_witness :
  seat_exclusive (snd (run no_faults (Renew 41 1 renewal) two_member_db)).
Proof.
  apply (seat_exclusivity_kept no_faults (Renew 41 1 renewal) two_member_db
           (Resp 200 Ok)).
  - exact two_member_db_seat_exclusive.
  - vm_compute. reflexivity.
  - intros now id b H. discriminate H.
Defined.

(** X3 - after a successful Enroll, Edit or Renew the member holds exactly
    one assignment row per requested shift, in the order requested, each on
    the requested seat (or on no seat when none was sent); the rows of other
    members are the ones that were there.  For Edit and Renew whatever the
    member held before is gone. *)
Theorem assignments_follow_the_request :
  (forall f now b d r d',
     enroll f now b d = (r, d') -> succeeded r = true ->
     exists rows,
       seat_assignments d' = seat_assignments d ++ rows
       /\ Forall (fun a => a_student_id a = next_student_id d) rows
       /\ map (fun a => (a_seat_id a, a_shift_id a)) rows
          = map (fun shiftId => (parseInt_or_null (b_seat_id b), shiftId))
                (b_shift_ids b))
  /\ (forall f now id b d r d',
        (edit f now id b d = (r, d') \/ renew f now id b d = (r, d')) ->
        succeeded r = true ->
        filter (fun a => negb (a_student_id a =? id)) (seat_assignments d')
        = filter (fun a => negb (a_student_id a =? id)) (seat_assignments d)
        /\ map (fun a => (a_seat_id a, a_shift_id a))
               (filter (fun a => a_student_id a =? id) (seat_assignments d'))
           = map (fun shiftId => (parseInt_or_null (b_seat_id b), shiftId))
                 (b_shift_ids b)).
Proof.
  assert (Hall : forall seat id next shifts,
             Forall (fun a => a_student_id a = id)
                    (fresh_assignments seat id next shifts)).
  { intros seat id next shifts. apply Forall_forall. intros a Ha.
    apply (fresh_assignments_rows _ _ _ _ _ Ha). }
  assert (Hmine : forall id (kept fresh : list assignment),
             Forall (fun a => a_student_id a = id) fresh ->
             filter (fun a => negb (a_student_id a =? id))
                    (filter (fun a => negb (a_student_id a =? id)) kept ++ fresh)
             = filter (fun a => negb (a_student_id a =? id)) kept
             /\ filter (fun a => a_student_id a =? id)
                       (filter (fun a => negb (a_student_id a =? id)) kept ++ fresh)
                = fresh).
  { intros id kept fresh Hf. rewrite !filter_app.
    assert (F1 : filter (fun a => negb (a_student_id a =? id)) fresh = []).
    { induction Hf as [| a l Ha Hl IH]; cbn; [reflexivity |].
      rewrite Ha, Z.eqb_refl. cbn. exact IH. }
    assert (F2 : filter (fun a => a_student_id a =? id) fresh = fresh).
    { clear F1. induction Hf as [| a l Ha Hl IH]; cbn; [reflexivity |].
      rewrite Ha, Z.eqb_refl, IH. reflexivity. }
    assert (F3 : filter (fun a => a_student_id a =? id)
                        (filter (fun a => negb (a_student_id a =? id)) kept) = []).
    { induction kept as [| a l IH]; cbn; [reflexivity |].
      destruct (a_student_id a =? id) eqn:E; cbn; [exact IH |].
      rewrite E. exact IH. }
    assert (F4 : filter (fun a => negb (a_student_id a =? id))
                        (filter (fun a => negb (a_student_id a =? id)) kept)
                 = filter (fun a => negb (a_student_id a =? id)) kept).
    { clear F3. induction kept as [| a l IH]; cbn; [reflexivity |].
      destruct (a_student_id a =? id) eqn:E; cbn; [exact IH |].
      rewrite E. cbn. rewrite IH. reflexivity. }
    rewrite F1, F2, F3, F4, app_nil_r. split; reflexivity. }
  split.
  - intros f now b d r d' H Hok.
    destruct (enroll_success _ _ _ _ _ _ H Hok) as (_ & -> & _).
    eexists. split; [apply assignments_enroll_effect |].
    split; [apply Hall | apply fresh_assignments_shifts].
  - intros f now id b d r d' [H | H] Hok.
    + apply edit_cases in H.
      destruct H as [[Hr _] | (_ & previous & cash & online & sec & _ & _ & _ & _ & _ & ->)];
        [rewrite Hr in Hok; discriminate |].
      rewrite assignments_edit_effect.
      destruct (Hmine id (seat_assignments d) _ (Hall (parseInt_or_null (b_seat_id b))
                  id (next_assignment_id d) (b_shift_ids b))) as [E1 E2].
      rewrite E1, E2. split; [reflexivity | apply fresh_assignments_shifts].
    + destruct (renew_success _ _ _ _ _ _ _ H Hok) as (_ & _ & _ & previous & _ & ->).
      rewrite assignments_renew_effect.
      destruct (Hmine id (seat_assignments d) _ (Hall (parseInt_or_null (b_seat_id b))
                  id (next_assignment_id d) (b_shift_ids b))) as [E1 E2].
      rewrite E1, E2. split; [reflexivity | apply fresh_assignments_shifts].
Qed.

Lemma assignments_follow_the_request_witness :
  filter (fun a => negb (a_student_id a =? 2))
         (seat_assignments (snd (edit no_faults 30 2 seat_grab two_member_db)))
  = filter (fun a => negb (a_student_id a =? 2)) (seat_assignments two_member_db)
  /\ map (fun a => (a_seat_id a, a_shift_id a))
         (filter (fun a => a_student_id a =? 2)
                 (seat_assignments (snd (edit no_faults 30 2 seat_grab two_member_db))))
     = map (fun shiftId => (parseInt_or_null (b_seat_id seat_grab), shiftId))
           (b_shift_ids seat_grab).
Proof.
  apply (proj2 assignments_follow_the_request no_faults 30 2 seat_grab
           two_member_db (Resp 200 Ok)).
  - left. vm_compute. reflexivity.
  - reflexivity.
Defined.

(** ** What Enroll stores *)

Lemma valid_amount_nonneg v : invalid_amount v = false -> nonneg_amount v.
Proof.
  unfold invalid_amount, nonneg_amount. intro H.
  apply orb_false_iff in H. exact H.
Qed.

(** X4 - a head row created by Enroll never holds a negative amount or a
    non-number in fee, amount paid, discount, cash, online or security
    money (the due balance, computed from them, is the one column that can
    be negative). *)
Theorem enroll_stores_valid_amounts f now b d r d' :
  enroll f now b d = (r, d') ->
  succeeded r = true ->
  exists s,
    students d' = students d ++ [s]
    /\ nonneg_amount (s_total_fee s)
    /\ nonneg_amount (s_amount_paid s)
    /\ nonneg_amount (s_discount s)
    /\ nonneg_amount (s_cash s)
    /\ nonneg_amount (s_online s)
    /\ nonneg_amount (s_security_money s).
Proof.
  intros H Hok.
  destruct (enroll_success _ _ _ _ _ _ H Hok)
    as (_ & -> & _ & (V1 & V2 & V3 & V4 & V5 & V6) & _).
  exists (enroll_row now b (next_student_id d)).
  split; [apply students_enroll_effect |].
  cbn [enroll_row s_total_fee s_amount_paid s_discount s_cash s_online
       s_security_money].
  split; [apply valid_amount_nonneg; exact V1 |].
  split; [apply valid_amount_nonneg; exact V2 |].
  split; [apply valid_amount_nonneg; exact V3 |].
  split; [apply valid_amount_nonneg; exact V4 |].
  split; [apply valid_amount_nonneg; exact V5 |].
  apply valid_amount_nonneg; exact V6.
Qed.

Lemma enroll_stores_valid_amounts_witness :
  exists s,
    students (snd (enroll no_faults 20 first_enrolment opening_db))
    = students opening_db ++ [s]
    /\ nonneg_amount (s_total_fee s)
    /\ nonneg_amount (s_amount_paid s)
    /\ nonneg_amount (s_discount s)
    /\ nonneg_amount (s_cash s)
    /\ nonneg_amount (s_online s)
    /\ nonneg_amount (s_security_money s).
Proof.
  apply (enroll_stores_valid_amounts no_faults 20 first_enrolment opening_db
           (Resp 201 Ok));
    vm_compute; reflexivity.
Defined.

(** ** Head row and history row of one call *)

Lemma history_enroll_effect now b d :
  student_membership_history (enroll_effect now b d)
  = student_membership_history d
    ++ [snapshot (next_history_id d) (enroll_row now b (next_student_id d))
          (parseInt_or_null (b_seat_id b)) (first_shift (b_shift_ids b))
          (b_branch_id b) (parseInt_or_null (b_locker_id b)) now].
Proof.
  unfold enroll_effect.
  cbn [insert_history snd student_membership_history].
  destruct (inserted_assignments_frame (parseInt_or_null (b_seat_id b))
              (b_shift_ids b) (s_id (enroll_row now b (next_student_id d)))
              (assigned_if_requested (parseInt_or_null (b_locker_id b))
                 (s_id (enroll_row now b (next_student_id d)))
                 (snd (insert_student (enroll_row now b) d))))
    as (_ & H2 & _ & _ & H5).
  rewrite H2, H5.
  destruct (assigned_if_requested_frame (parseInt_or_null (b_locker_id b))
              (s_id (enroll_row now b (next_student_id d)))
              (snd (insert_student (enroll_row now b) d)))
    as (_ & K2 & _ & _ & K5).
  rewrite K2, K5. reflexivity.
Qed.

Lemma same_key_same_row {A : Type} (key : A -> Z) (rows : list A) x y :
  NoDup (map key rows) -> In x rows -> In y rows -> key x = key y -> x = y.
Proof.
  induction rows as [| z rows IH]; intros Hnd H1 H2 E; [destruct H1 |].
  cbn in Hnd. inversion Hnd as [| ? ? Hz Hnd']. subst.
  destruct H1 as [H1 | H1], H2 as [H2 | H2].
  - congruence.
  - subst z. exfalso. apply Hz. rewrite E. apply in_map. exact H2.
  - subst z. exfalso. apply Hz. rewrite <- E. apply in_map. exact H1.
  - apply IH; assumption.
Qed.

(** X5 - the history row that a call writes carries the head row the same
    call stored: same owner, cash, online, amount paid, due, fee, discount,
    security money, dates, status, branch and locker.  Enroll and Renew
    append that row; Edit (history ids being keys) rewrites the member's
    latest row to it. *)
Theorem written_history_row_mirrors_head :
  (forall f now b d r d',
     enroll f now b d = (r, d') -> succeeded r = true ->
     exists s h,
       students d' = students d ++ [s]
       /\ student_membership_history d' = student_membership_history d ++ [h]
       /\ mirrors s h
       /\ h_seat_id h = parseInt_or_null (b_seat_id b)
       /\ h_shift_id h = first_shift (b_shift_ids b))
  /\ (forall f now id b d r d',
        renew f now id b d = (r, d') -> succeeded r = true ->
        exists s h,
          find_student id d' = Some s
          /\ student_membership_history d' = student_membership_history d ++ [h]
          /\ mirrors s h
          /\ h_seat_id h = parseInt_or_null (b_seat_id b)
          /\ h_shift_id h = first_shift (b_shift_ids b))
  /\ (forall f now id b d r d' m,
        edit f now id b d = (r, d') -> succeeded r = true ->
        NoDup (map h_id (student_membership_history d)) ->
        latest_history_id id (student_membership_history d) = Some m ->
        exists s h,
          find_student id d' = Some s
          /\ find_history m d' = Some h
          /\ mirrors s h
          /\ h_seat_id h = parseInt_or_null (b_seat_id b)
          /\ h_shift_id h = first_shift (b_shift_ids b)).
Proof.
  split; [| split].
  - intros f now b d r d' H Hok.
    destruct (enroll_success _ _ _ _ _ _ H Hok) as (_ & -> & _).
    eexists. eexists.
    split; [apply students_enroll_effect |].
    split; [apply history_enroll_effect |].
    split; [| split; reflexivity].
    unfold mirrors. cbn. repeat split.
  - intros f now id b d r d' H Hok.
    destruct (renew_success _ _ _ _ _ _ _ H Hok) as (_ & _ & _ & previous & Hp & ->).
    exists (renew_row now b previous). eexists.
    split.
    { unfold find_student. rewrite students_renew_effect.
      apply (find_map_update s_id); [reflexivity | exact Hp]. }
    split; [apply history_renew_effect |].
    split; [| split; reflexivity].
    unfold mirrors. cbn. repeat split.
  - intros f now id b d r d' m H Hok Hnd Hm.
    apply edit_cases in H.
    destruct H as [[Hr _] | (_ & previous & cash & online & sec & Hp & _ & _ & _ & _ & ->)];
      [rewrite Hr in Hok; discriminate |].
    destruct (latest_history_id_some _ _ _ Hm) as ((h0 & Hin & Hs & Hid) & _).
    assert (Hfind : find (fun h => h_id h =? m) (student_membership_history d)
                    = Some h0).
    { destruct (find (fun h => h_id h =? m) (student_membership_history d))
        as [h1 |] eqn:E.
      - apply find_some in E. destruct E as [Hin1 E1]. apply Z.eqb_eq in E1.
        f_equal. apply (same_key_same_row h_id (student_membership_history d));
          try assumption. congruence.
      - exfalso. apply (find_none _ _ E) in Hin.
        apply Z.eqb_neq in Hin. contradiction. }
    exists (edit_row now b cash online sec previous). eexists.
    split.
    { unfold find_student. rewrite students_edit_effect.
      apply (find_map_update s_id); [reflexivity | exact Hp]. }
    split.
    { unfold find_history. rewrite history_edit_effect, Hm.
      apply (find_map_update h_id _ m _ h0); [reflexivity | exact Hfind]. }
    split; [| split; reflexivity].
    unfold mirrors. cbn. repeat split.
    rewrite Hs. symmetry. apply (find_student_id _ _ _ Hp).
Qed.

Lemma written_history_row_mirrors_head_witness :
  exists s h,
    find_student 1 (snd (edit no_faults 30 1 first_enrolment renewed_db)) = Some s
    /\ find_history 2 (snd (edit no_faults 30 1 first_enrolment renewed_db))
       = Some h
    /\ mirrors s h
    /\ h_seat_id h = parseInt_or_null (b_seat_id first_enrolment)
    /\ h_shift_id h = first_shift (b_shift_ids first_enrolment).
Proof.
  apply (proj2 (proj2 written_history_row_mirrors_head) no_faults 30 1
           first_enrolment renewed_db (Resp 200 Ok)).
  - vm_compute. reflexivity.
  - reflexivity.
  - vm_compute. constructor; [intros [H | []]; discriminate H |].
    constructor; [intros [] | constructor].
  - vm_compute. reflexivity.
Defined.

(** ** The shift recorded on a history row *)

Lemma first_shift_fold (l : list Z) (acc : option Z) :
  fold_left (fun acc shiftId => if truthy_id acc then acc else Some shiftId)
            l acc
  = if truthy_id acc then acc
    else match find (fun z => negb (z =? 0)) l with
         | Some z => Some z
         | None => match l with [] => acc | _ :: _ => Some 0 end
         end.
Proof.
  revert acc. induction l as [| x l IH]; intro acc; cbn [fold_left find].
  - destruct (truthy_id acc); reflexivity.
  - rewrite IH. destruct (truthy_id acc) eqn:Ta; [rewrite Ta; reflexivity |].
    cbn [truthy_id]. destruct (Z.eqb_spec x 0) as [E | E]; cbn [negb].
    + subst x. destruct (find (fun z => negb (z =? 0)) l); [reflexivity |].
      destruct l; reflexivity.
    + reflexivity.
Qed.

(** X6 - the shift written on a history row is the first requested shift
    id that is not 0; a request without shifts records none, and a request
    whose ids are all 0 records 0.  For ids that are all non-zero it is the
    head of the list. *)
Theorem first_shift_is_first_nonzero (l : list Z) :
  first_shift l
  = match find (fun z => negb (z =? 0)) l with
    | Some z => Some z
    | None => match l with [] => None | _ :: _ => Some 0 end
    end
  /\ (Forall (fun z => z <> 0) l -> first_shift l = hd_error l).
Proof.
  assert (E : first_shift l
              = match find (fun z => negb (z =? 0)) l with
                | Some z => Some z
                | None => match l with [] => None | _ :: _ => Some 0 end
                end).
  { unfold first_shift. rewrite first_shift_fold. reflexivity. }
  split; [exact E |].
  intro H. rewrite E. destruct H as [| x l Hx Hl]; [reflexivity |].
  cbn. apply Z.eqb_neq in Hx. rewrite Hx. reflexivity.
Qed.

Lemma first_shift_is_first_nonzero_witness : first_shift [3; 1] = hd_error [3; 1].
Proof.
  apply (proj2 (first_shift_is_first_nonzero [3; 1])).
  repeat constructor; discriminate.
Defined.

(** ** Calls on a member that does not exist *)

Lemma locker_check_answers f site d0 lockerId id d :
  match locker_check f site d0 lockerId id d with
  | Next _ d1 => d1 = d
  | Respond r d1 =>
    (r = Resp 400 ValidationError \/ r = Resp 400 Conflict)
    /\ d1 = keep_sequences d0 d
  | Thrown d1 => d1 = d
  end.
Proof.
  unfold locker_check.
  destruct (truthy_id lockerId); [| reflexivity].
  unfold bind at 1.
  destruct (query_outcome f site (select_locker lockerId) d) as [-> | ->];
    [| reflexivity].
  cbn [select_locker fst snd].
  destruct (filter (fun l => sql_eq (Some (l_id l)) lockerId) (locker d))
    as [| l ls].
  - cbn -[keep_sequences]. split; [left |]; reflexivity.
  - destruct (held_by_other l id); cbn -[keep_sequences];
      [split; [right |]; reflexivity | reflexivity].
Qed.

Lemma find_student_none_filter id d :
  find_student id d = None -> filter (fun s => s_id s =? id) (students d) = [].
Proof.
  unfold find_student. rewrite <- head_filter_find.
  destruct (filter (fun s => s_id s =? id) (students d)); [reflexivity | discriminate].
Qed.

(** X7 - Edit of an id that no head row carries never answers 404: the
    lookup of the previous locker reads [rows[0]] of an empty result and
    raises, so the answer is the generic 500 (or an earlier 400), and the
    store is left as it was.  With the required fields present and no locker
    requested the answer is 500 under every fault plan. *)
Theorem edit_of_missing_member f now id b d :
  find_student id d = None ->
  (forall r d',
     edit f now id b d = (r, d') ->
     d' = d /\ kind_of r <> Ok /\ kind_of r <> NotFound)
  /\ (edit_required b = true ->
      parseInt_or_null (b_locker_id b) = None ->
      edit f now id b d = (Resp 500 Internal, d)).
Proof.
  intro Hnone. apply find_student_none_filter in Hnone.
  assert (Back : keep_sequences d d = d)
    by (apply keep_sequences_same; reflexivity).
  unfold edit, transaction, edit_required.
  destruct (falsy (name (b_identity b)) || falsy (phone (b_identity b))
            || falsy (address (b_identity b)) || negb (truthy_id (b_branch_id b))
            || missing (b_membership_start b) || missing (b_membership_end b)).
  { split; [| discriminate].
    intros r d' H. cbn -[keep_sequences] in H. rewrite Back in H.
    inversion H. repeat split; discriminate. }
  cbv zeta. split.
  - intros r d'. unfold bind at 1.
    pose proof (locker_check_answers f 1%nat d
                  (parseInt_or_null (b_locker_id b)) id d) as L.
    destruct (locker_check f 1%nat d (parseInt_or_null (b_locker_id b)) id d)
      as [[] d1 | r1 d1 | d1].
    + subst d1. unfold bind at 1.
      destruct (query_outcome f 2%nat (select_student id) d) as [-> | ->].
      * cbn [select_student fst snd]. rewrite Hnone.
        cbn -[keep_sequences]. rewrite Back.
        intro H. inversion H. repeat split; discriminate.
      * rewrite Back. intro H. inversion H. repeat split; discriminate.
    + destruct L as [[-> | ->] ->]; rewrite Back; intro H; inversion H;
        repeat split; discriminate.
    + subst d1. rewrite Back. intro H. inversion H. repeat split; discriminate.
  - intros _ Hl. rewrite Hl. cbn [locker_check truthy_id].
    unfold bind at 1. cbn [ret]. unfold bind at 1.
    destruct (query_outcome f 2%nat (select_student id) d) as [-> | ->];
      [| rewrite Back; reflexivity].
    cbn [select_student fst snd]. rewrite Hnone.
    cbn -[keep_sequences]. rewrite Back. reflexivity.
Qed.

Lemma edit_of_missing_member_witness :
  edit no_faults 30 9 first_enrolment enrolled_db
  = (Resp 500 Internal, enrolled_db).
Proof.
  apply (proj2 (edit_of_missing_member no_faults 30 9 first_enrolment
                  enrolled_db eq_refl));
    reflexivity.
Defined.

(** X8 - Renew of an id that no head row carries, with the required fields
    present, no seat and no locker requested and the two writes before the
    test going through, answers 404 and leaves the store as it was. *)
Theorem renew_of_missing_member f now id b d :
  find_student id d = None ->
  renew_required b = true ->
  parseInt_or_null (b_seat_id b) = None ->
  parseInt_or_null (b_locker_id b) = None ->
  f 3%nat = false -> f 4%nat = false ->
  renew f now id b d = (Resp 404 NotFound, d).
Proof.
  intros Hnone Hreq Hseat Hlock F3 F4.
  apply find_student_none_filter in Hnone.
  unfold renew, transaction. unfold renew_required in Hreq.
  apply negb_true_iff in Hreq. rewrite Hreq. cbv zeta.
  rewrite Hseat, Hlock.
  cbn [renew_seat_checks locker_check truthy_id andb].
  unfold bind at 1. cbn [ret]. unfold bind at 1. cbn [ret].
  unfold bind at 1. unfold query at 1. rewrite F3.
  cbn [release_locker_by_student].
  unfold bind at 1. unfold query at 1. rewrite F4.
  cbn [update_student set_locker students].
  rewrite (filter_map_update s_id) by reflexivity.
  rewrite Hnone. cbn -[keep_sequences].
  rewrite keep_sequences_same by reflexivity. reflexivity.
Qed.

Lemma renew_of_missing_member_witness :
  renew no_faults 30 9 unbalanced_enrolment enrolled_db
  = (Resp 404 NotFound, enrolled_db).
Proof.
  apply (renew_of_missing_member no_faults 30 9 unbalanced_enrolment
           enrolled_db); reflexivity.
Defined.

(** ** Deactivate and Delete *)

Lemma filter_all {A : Type} (p : A -> bool) (l : list A) :
  (forall x, In x l -> p x = true) -> filter p l = l.
Proof.
  induction l as [| x l IH]; intro H; cbn; [reflexivity |].
  rewrite (H x (or_introl eq_refl)), IH; [reflexivity |].
  intros y Hy. apply H. right. exact Hy.
Qed.

Lemma map_untouched {A : Type} (p : A -> bool) (g : A -> A) (l : list A) :
  (forall x, In x l -> p x = false) ->
  map (fun x => if p x then g x else x) l = l.
Proof.
  induction l as [| x l IH]; intro H; cbn; [reflexivity |].
  rewrite (H x (or_introl eq_refl)), IH; [reflexivity |].
  intros y Hy. apply H. right. exact Hy.
Qed.

Lemma find_other_after_update {A : Type} (key : A -> Z) (g : A -> A) (k m : Z)
    (l : list A) :
  (forall y, key (g y) = key y) -> m <> k ->
  find (fun y => key y =? m) (map (fun y => if key y =? k then g y else y) l)
  = find (fun y => key y =? m) l.
Proof.
  intros Hg Hm. induction l as [| y l IH]; cbn; [reflexivity |].
  destruct (Z.eqb_spec (key y) k) as [E | E].
  - rewrite Hg. destruct (Z.eqb_spec (key y) m) as [E' | E'];
      [exfalso; apply Hm; congruence | exact IH].
  - rewrite IH. reflexivity.
Qed.

(** X9 - a successful status update with [is_active = false] leaves the
    member with no seat assignment, no locker and no locker pointing back
    to it, and turns the flag off; the member's amounts, dates and history
    rows, and the head rows of all other members, stay as they were. *)
Theorem deactivation_releases_and_keeps_the_record f id d r d' :
  set_status f id (Some false) d = (r, d') ->
  succeeded r = true ->
  (exists s,
     find_student id d = Some s
     /\ find_student id d' = Some (without_locker (with_is_active false s)))
  /\ (forall m, m <> id -> find_student m d' = find_student m d)
  /\ (forall a, In a (seat_assignments d') -> a_student_id a <> id)
  /\ (forall l, In l (locker d') -> l_student_id l <> Some id)
  /\ student_membership_history d' = student_membership_history d.
Proof.
  intros H Hok. apply set_status_cases in H.
  destruct H as [[Hr _] | (_ & flag & s & Hf & Hs & ->)];
    [rewrite Hr in Hok; discriminate |].
  inversion Hf. subst flag.
  destruct (deactivation_tables id d) as (Es & El & _).
  split; [| split; [| split; [| split]]].
  - exists s. split; [exact Hs |].
    unfold find_student. rewrite Es.
    apply (find_map_update s_id
             (fun s0 => without_locker (with_is_active false s0)) id _ s);
      [reflexivity | exact Hs].
  - intros m Hm. unfold find_student. rewrite Es.
    apply (find_other_after_update s_id); [reflexivity | exact Hm].
  - intros a Ha. unfold status_effect in Ha. cbn in Ha.
    apply filter_In in Ha. destruct Ha as [_ Ha].
    apply negb_true_iff in Ha. apply Z.eqb_neq. exact Ha.
  - intros l Hl. rewrite El in Hl. apply in_map_iff in Hl.
    destruct Hl as (l0 & E & _). subst l. rewrite assign_row_none.
    unfold release_row_by_student.
    destruct (sql_eq (l_student_id l0) (Some id)) eqn:E; cbn.
    + discriminate.
    + intro N. rewrite N, sql_eq_refl in E. discriminate.
  - reflexivity.
Qed.

Lemma deactivation_releases_and_keeps_the_record_witness :
  (exists s,
     find_student 1 locker_member_db = Some s
     /\ find_student 1 (snd (set_status no_faults 1 (Some false) locker_member_db))
        = Some (without_locker (with_is_active false s)))
  /\ (forall m, m <> 1 ->
        find_student m (snd (set_status no_faults 1 (Some false) locker_member_db))
        = find_student m locker_member_db)
  /\ (forall a,
        In a (seat_assignments
                (snd (set_status no_faults 1 (Some false) locker_member_db))) ->
        a_student_id a <> 1)
  /\ (forall l,
        In l (locker (snd (set_status no_faults 1 (Some false) locker_member_db))) ->
        l_student_id l <> Some 1)
  /\ student_membership_history
       (snd (set_status no_faults 1 (Some false) locker_member_db))
     = student_membership_history locker_member_db.
Proof.
  apply (deactivation_releases_and_keeps_the_record no_faults 1
           locker_member_db (Resp 200 Ok));
    vm_compute; reflexivity.
Defined.

(** X10 - on a connection outside any transaction, a Delete that answers
    with success has removed the member's head row, all its history rows
    and seat assignments, and released every locker that pointed to it,
    and the head rows, history rows and assignments of every other member
    are untouched.  On a connection that an early return left inside its
    transaction the same Delete answers with the same success and nothing
    is committed: the member is still stored. *)
Theorem delete_removes_the_member_only c f id d r d' :
  delete_student_on c f id d = (r, d') ->
  succeeded r = true ->
  (c = Idle ->
   find_student id d' = None
   /\ count_history id d' = 0%nat
   /\ (forall a, In a (seat_assignments d') -> a_student_id a <> id)
   /\ (forall l, In l (locker d') -> l_student_id l <> Some id)
   /\ (forall m, m <> id ->
         find_student m d' = find_student m d
         /\ filter (fun h => h_student_id h =? m) (student_membership_history d')
            = filter (fun h => h_student_id h =? m) (student_membership_history d)
         /\ filter (fun a => a_student_id a =? m) (seat_assignments d')
            = filter (fun a => a_student_id a =? m) (seat_assignments d)))
  /\ (c = InTransaction ->
      d' = d /\ exists s, find_student id d' = Some s).
Proof.
  intros H Hok.
  assert (Hk : kind_of r <> Internal).
  { intro N. unfold succeeded in Hok. rewrite N in Hok. discriminate. }
  split.
  2:{ intros ->. cbn in H. inversion H. subst d'. split; [reflexivity |].
      destruct (delete_student f id d) as [r0 d0] eqn:E. cbn in *. subst r0.
      destruct (delete_student_cases _ _ _ _ _ E Hk) as [_ [[-> _] | [_ Hs]]];
        [discriminate Hok | exact Hs]. }
  intros ->. cbn in H.
  destruct (delete_student_cases _ _ _ _ _ H Hk) as [-> _].
  assert (Hkeep : forall {A : Type} (key : A -> Z) (m : Z) (l : list A),
             m <> id ->
             filter (fun x => key x =? m) (filter (fun x => negb (key x =? id)) l)
             = filter (fun x => key x =? m) l).
  { intros A key m l Hm. induction l as [| x l IH]; cbn; [reflexivity |].
    destruct (Z.eqb_spec (key x) id) as [E | E]; cbn.
    - destruct (Z.eqb_spec (key x) m) as [E' | E'];
        [exfalso; apply Hm; congruence | exact IH].
    - rewrite IH. reflexivity. }
  unfold delete_effect, find_student, count_history. cbn.
  split; [| split; [| split; [| split]]].
  - destruct (find (fun s => s_id s =? id)
                   (filter (fun s => negb (s_id s =? id)) (students d)))
      as [s |] eqn:E; [| reflexivity].
    apply find_some in E. destruct E as [Hin E]. apply filter_In in Hin.
    destruct Hin as [_ Hin]. rewrite E in Hin. discriminate.
  - destruct (filter (fun h => h_student_id h =? id)
                     (filter (fun h => negb (h_student_id h =? id))
                             (student_membership_history d)))
      as [| h t] eqn:E; [reflexivity |].
    assert (Hin : In h (h :: t)) by (left; reflexivity).
    rewrite <- E in Hin. apply filter_In in Hin. destruct Hin as [Hin E1].
    apply filter_In in Hin. destruct Hin as [_ E2].
    rewrite E1 in E2. discriminate.
  - intros a Ha. apply filter_In in Ha. destruct Ha as [_ Ha].
    apply negb_true_iff in Ha. apply Z.eqb_neq. exact Ha.
  - intros l Hl. apply in_map_iff in Hl. destruct Hl as (l0 & E & _). subst l.
    destruct (sql_eq (l_student_id l0) (Some id)) eqn:E; cbn.
    + discriminate.
    + intro N. rewrite N, sql_eq_refl in E. discriminate.
  - intros m Hm. split; [| split].
    + rewrite <- !head_filter_find. rewrite (Hkeep _ s_id m _ Hm). reflexivity.
    + apply (Hkeep _ h_student_id m _ Hm).
    + apply (Hkeep _ a_student_id m _ Hm).
Qed.

Lemma delete_removes_the_member_only_witness :
  (find_student 1 (snd (delete_student_on Idle no_faults 1 two_member_db)) = None
   /\ count_history 1 (snd (delete_student_on Idle no_faults 1 two_member_db))
      = 0%nat)
  /\ (delete_student_on InTransaction no_faults 1 two_member_db
      = (Resp 200 Ok, two_member_db)
      /\ exists s, find_student 1 two_member_db = Some s).
Proof.
  split.
  - destruct (delete_removes_the_member_only Idle no_faults 1 two_member_db
                (Resp 200 Ok)
                (snd (delete_student_on Idle no_faults 1 two_member_db)))
      as [H _]; [vm_compute; reflexivity | reflexivity |].
    destruct (H eq_refl) as (H1 & H2 & _). split; assumption.
  - split; [vm_compute; reflexivity |].
    destruct (delete_removes_the_member_only InTransaction no_faults 1
                two_member_db (Resp 200 Ok) two_member_db)
      as [_ H]; [vm_compute; reflexivity | reflexivity |].
    apply (H eq_refl).
Defined.

Lemma set_assignments_same d : set_assignments (seat_assignments d) d = d.
Proof. destruct d; reflexivity. Qed.

Lemma set_locker_same d : set_locker (locker d) d = d.
Proof. destruct d; reflexivity. Qed.

Lemma set_history_same d : set_history (student_membership_history d) d = d.
Proof. destruct d; reflexivity. Qed.

(** X11 - a Delete of an id that no row of the store mentions changes
    nothing, whichever statement fails, and answers 404 when none does. *)
Theorem delete_of_unknown_member f id d :
  unknown_member id d ->
  snd (delete_student f id d) = d
  /\ (kind_of (fst (delete_student f id d)) = NotFound
      \/ kind_of (fst (delete_student f id d)) = Internal)
  /\ delete_student no_faults id d = (Resp 404 NotFound, d).
Proof.
  intros (Hs & Ha & Hh & Hl).
  assert (E1 : snd (delete_assignments id d) = d).
  { cbn. rewrite filter_all; [apply set_assignments_same |].
    intros a Hin. apply negb_true_iff. apply Z.eqb_neq. apply Ha. exact Hin. }
  assert (E2 : snd (release_locker_by_student id d) = d).
  { cbn. rewrite map_untouched; [apply set_locker_same |].
    intros l Hin. destruct (sql_eq (l_student_id l) (Some id)) eqn:E;
      [| reflexivity].
    exfalso. apply (Hl l Hin). apply sql_eq_true in E.
    destruct E as (z & Ez & Ez'). congruence. }
  assert (E3 : snd (delete_history id d) = d).
  { cbn. rewrite filter_all; [apply set_history_same |].
    intros h Hin. apply negb_true_iff. apply Z.eqb_neq. apply Hh. exact Hin. }
  assert (E4 : delete_student_row id d = ([], d)).
  { unfold delete_student_row. rewrite (find_student_none_filter _ _ Hs).
    f_equal. rewrite filter_all; [apply set_students_same |].
    intros s Hin. apply negb_true_iff. apply Z.eqb_neq. intro N.
    unfold find_student in Hs. apply (find_none _ _ Hs) in Hin.
    apply Z.eqb_neq in Hin. contradiction. }
  assert (G : forall g,
             delete_student g id d = (Resp 404 NotFound, d)
             \/ (delete_student g id d = (Resp 500 Internal, d)
                 /\ exists k, g k = true)).
  { intro g. destruct (delete_student g id d) as [r0 d1] eqn:E.
    cbn in E1, E2, E3.
    unfold delete_student, autocommit in E.
    unfold bind at 1 in E. unfold query at 1 in E.
    destruct (g 1%nat) eqn:G1;
      [inversion E; right; split; [reflexivity | exists 1%nat; exact G1] |].
    cbn [delete_assignments] in E. rewrite E1 in E.
    unfold bind at 1 in E. unfold query at 1 in E.
    destruct (g 2%nat) eqn:G2;
      [inversion E; right; split; [reflexivity | exists 2%nat; exact G2] |].
    cbn [release_locker_by_student] in E. rewrite E2 in E.
    unfold bind at 1 in E. unfold query at 1 in E.
    destruct (g 3%nat) eqn:G3;
      [inversion E; right; split; [reflexivity | exists 3%nat; exact G3] |].
    cbn [delete_history] in E. rewrite E3 in E.
    unfold bind at 1 in E. unfold query at 1 in E.
    destruct (g 4%nat) eqn:G4;
      [inversion E; right; split; [reflexivity | exists 4%nat; exact G4] |].
    rewrite E4 in E. cbn in E. inversion E. left. reflexivity. }
  split; [| split].
  - destruct (G f) as [-> | [-> _]]; reflexivity.
  - destruct (G f) as [-> | [-> _]]; [left | right]; reflexivity.
  - destruct (G no_faults) as [E | [_ (k & Hk)]]; [exact E | discriminate Hk].
Qed.

Lemma delete_of_unknown_member_witness :
  snd (delete_student (fails_at 3) 7 enrolled_db) = enrolled_db
  /\ (kind_of (fst (delete_student (fails_at 3) 7 enrolled_db)) = NotFound
      \/ kind_of (fst (delete_student (fails_at 3) 7 enrolled_db)) = Internal)
  /\ delete_student no_faults 7 enrolled_db = (Resp 404 NotFound, enrolled_db).
Proof.
  apply (delete_of_unknown_member (fails_at 3) 7 enrolled_db).
  split; [reflexivity |]. split; [| split].
  - intros a [<- | []]. discriminate.
  - intros h [<- | []]. discriminate.
  - intros l [<- | []]. discriminate.
Defined.

(** ** Payments: acceptance *)

(** X12 - when no query fails, a payment is accepted exactly when the
    amount is a number for which [amount <= 0] is false, the method is cash
    or online, the history row exists, [amount > due + 0.01] is false on
    the row's due as doubles, and the member it belongs to exists.  So on a
    due of 2.01 the amount 2.02 is refused, since 2.01 + 0.01 is below 2.02
    as doubles, and on a due of 0.05 the amount 0.060000000000000005 is
    accepted, since 0.05 + 0.01 is that very double. *)
Theorem payment_accepted_iff :
  (forall hid amt ch d,
     succeeded (fst (apply_payment no_faults hid amt ch d)) = true
     <-> exists amount h s,
           amt = Some amount
           /\ PrimFloat.leb amount 0 = false
           /\ (ch = "cash" \/ ch = "online")
           /\ find_history hid d = Some h
           /\ PrimFloat.ltb (read_or0 (h_due_amount h) + 0.01)%float amount
              = false
           /\ find_student (h_student_id h) d = Some s)
  /\ (exists h,
        find_history 1 (owing_db 2.01%float) = Some h
        /\ h_due_amount h = 2.01%float
        /\ fst (apply_payment no_faults 1 (Some 2.02%float) "cash"
                  (owing_db 2.01%float)) = Resp 400 Conflict)
  /\ (exists h,
        find_history 1 (owing_db 0.05%float) = Some h
        /\ h_due_amount h = 0.05%float
        /\ PrimFloat.ltb 0.06%float 0.060000000000000005%float = true
        /\ fst (apply_payment no_faults 1 (Some 0.060000000000000005%float)
                  "cash" (owing_db 0.05%float)) = Resp 200 Ok).
Proof.
  split; [| split; eexists; (split; [vm_compute; reflexivity |]);
            repeat split; vm_compute; reflexivity].
  intros hid amt ch d. split.
  - intro Hok.
    destruct (apply_payment no_faults hid amt ch d) as [r d'] eqn:E.
    apply apply_payment_cases in E. cbn [fst] in Hok.
    destruct E as [[Hr _] | (amount & h & s & Ha & Hpos & Hch & Hh & Hle & Hs & _)];
      [rewrite Hr in Hok; discriminate |].
    exists amount, h, s. split; [exact Ha |]. split; [exact Hpos |].
    split.
    { apply orb_true_iff in Hch.
      destruct Hch as [Hc | Hc]; apply String.eqb_eq in Hc; [left | right];
        exact Hc. }
    split; [exact Hh |]. split; [exact Hle | exact Hs].
  - intros (amount & h & s & -> & Hpos & Hch & Hh & Hle & Hs).
    rewrite (apply_payment_accepts no_faults hid amount ch d h s);
      try reflexivity; assumption.
Qed.

Lemma payment_accepted_iff_witness :
  succeeded (fst (apply_payment no_faults 1 (Some 600%float) "online" enrolled_db))
  = true.
Proof.
  apply (proj2 (proj1 payment_accepted_iff 1 (Some 600%float) "online"
                  enrolled_db)).
  exists 600%float, first_period_row.
  eexists. split; [reflexivity |]. split; [reflexivity |].
  split; [right; reflexivity |]. split; [vm_compute; reflexivity |].
  split; [reflexivity | vm_compute; reflexivity].
Defined.

(** ** Deleting a locker *)

Lemma delete_locker_steady f id d :
  sequences (snd (delete_locker f id d)) = sequences d.
Proof.
  unfold delete_locker. apply transaction_steady. repeat sequence_step.
Qed.

Lemma delete_locker_cases f id d r d' :
  delete_locker f id d = (r, d') ->
  (succeeded r = false /\ d' = d)
  \/ (r = Resp 200 Ok
      /\ exists l rest,
           fst (select_locker (Some id) d) = l :: rest
           /\ d' = delete_locker_effect id l d).
Proof.
  intro H.
  assert (R : (succeeded r = false /\ same_tables d d')
              \/ (r = Resp 200 Ok
                  /\ exists l rest,
                       fst (select_locker (Some id) d) = l :: rest
                       /\ d' = delete_locker_effect id l d)).
  { revert H. unfold delete_locker.
    apply (transaction_settled _ d
             (fun r d' =>
                r = Resp 200 Ok
                /\ exists l rest,
                     fst (select_locker (Some id) d) = l :: rest
                     /\ d' = delete_locker_effect id l d)).
    cbv beta.
    apply settled_bind_query. cbn [select_locker fst snd].
    destruct (filter (fun l => sql_eq (Some (l_id l)) (Some id)) (locker d))
      as [| l rest] eqn:El.
    - apply settled_fail. reflexivity.
    - assert (W : write_outcome
                    (if l_is_assigned l
                     then snd (clear_locker_of (l_student_id l) d) else d)
                    ((if l_is_assigned l
                      then query f 2 (clear_locker_of (l_student_id l))
                      else ret tt) d)).
      { destruct (l_is_assigned l); [| reflexivity].
        destruct (query_outcome f 2%nat (clear_locker_of (l_student_id l)) d)
          as [-> | ->]; [reflexivity | exact I]. }
      eapply settled_bind_write; [exact W |].
      apply settled_bind_query.
      destruct (fst (delete_locker_row id
                       (if l_is_assigned l
                        then snd (clear_locker_of (l_student_id l) d) else d)))
        as [| x xs] eqn:Er.
      + apply settled_fail. reflexivity.
      + apply settled_ret. split; [reflexivity |].
        exists l, rest. split; reflexivity. }
  destruct R as [[Hr Ht] | R]; [left | right; exact R].
  split; [exact Hr |]. apply same_tables_eq; [exact Ht |].
  pose proof (delete_locker_steady f id d) as S.
  rewrite H in S. exact S.
Qed.

Lemma filter_map_none {A : Type} (p : A -> bool) (g : A -> A) (l : list A) :
  (forall x, In x l -> p (g x) = false) -> filter p (map g l) = [].
Proof.
  induction l as [| x l IH]; intro H; cbn; [reflexivity |].
  rewrite (H x (or_introl eq_refl)). apply IH.
  intros y Hy. apply H. right. exact Hy.
Qed.

Lemma filter_map_stable {A : Type} (p : A -> bool) (g : A -> A) (l : list A) :
  (forall x, In x l -> g x = x \/ (p x = false /\ p (g x) = false)) ->
  filter p (map g l) = filter p l.
Proof.
  induction l as [| x l IH]; intro H; cbn; [reflexivity |].
  rewrite IH by (intros y Hy; apply H; right; exact Hy).
  destruct (H x (or_introl eq_refl)) as [-> | [-> ->]]; reflexivity.
Qed.

Lemma first_selected_locker id d l rest :
  fst (select_locker (Some id) d) = l :: rest ->
  In l (locker d) /\ l_id l = id.
Proof.
  cbn. intro E.
  assert (Hin : In l (filter (fun l0 => l_id l0 =? id) (locker d)))
    by (rewrite E; left; reflexivity).
  apply filter_In in Hin. destruct Hin as [Hin Hid].
  split; [exact Hin | apply Z.eqb_eq; exact Hid].
Qed.

(** X15 - deleting a locker either fails and leaves the store as it was,
    or removes exactly the locker rows with that id and clears at most the
    locker column of member rows, with history and seat assignments
    untouched.  On a store that keeps lockers exclusive, no member is left
    holding the deleted locker and the remaining lockers are still
    exclusive. *)
Theorem locker_deletion_leaves_no_holder f id d r d' :
  delete_locker f id d = (r, d') ->
  (succeeded r = false -> d' = d)
  /\ (succeeded r = true ->
      (forall l, In l (locker d') <-> In l (locker d) /\ l_id l <> id)
      /\ Forall2 (fun s s' => s' = s \/ s' = without_locker s)
                 (students d) (students d')
      /\ student_membership_history d' = student_membership_history d
      /\ seat_assignments d' = seat_assignments d
      /\ (keys_ok d -> locker_exclusive d ->
          holders id (students d') = []
          /\ keys_ok d' /\ locker_exclusive d')).
Proof.
  intro H. apply delete_locker_cases in H.
  destruct H as [[Hr ->] | (-> & l & rest & El & ->)].
  - split; [reflexivity |]. intro Hok. rewrite Hr in Hok. discriminate.
  - split; [intro Hok; discriminate Hok |]. intros _.
    destruct (first_selected_locker _ _ _ _ El) as [Hl Hid].
    unfold delete_locker_effect.
    assert (Hlock : forall d1, locker d1 = locker d ->
              forall l0, In l0 (locker (snd (delete_locker_row id d1)))
                         <-> In l0 (locker d) /\ l_id l0 <> id).
    { intros d1 E1 l0. cbn. rewrite E1, filter_In.
      destruct (Z.eqb_spec (l_id l0) id) as [E | E]; cbn; split.
      - intros [_ N]. discriminate.
      - intros [_ N]. contradiction.
      - intros [I0 _]. split; assumption.
      - intros [I0 _]. split; [exact I0 | reflexivity]. }
    destruct (l_is_assigned l) eqn:Ea.
    + split; [apply Hlock; reflexivity |].
      split.
      { cbn [delete_locker_row clear_locker_of set_locker set_students students locker snd fst].
        apply Forall2_map_same. intro x.
        destruct (sql_eq (Some (s_id x)) (l_student_id l));
          [right | left]; reflexivity. }
      split; [reflexivity |]. split; [reflexivity |].
      intros Hk Hx.
      pose proof (Hx l Hl) as Hxl. rewrite Ea, Hid in Hxl.
      destruct Hxl as (s0 & Hs0 & Hp).
      assert (Hs0in : In s0 (students d) /\ s_locker_id s0 = Some id).
      { assert (Hin : In s0 (holders id (students d)))
          by (rewrite Hs0; left; reflexivity).
        apply filter_In in Hin. destruct Hin as [I0 E0].
        split; [exact I0 |].
        apply sql_eq_true in E0. destruct E0 as (z & E1 & E2).
        congruence. }
      destruct Hs0in as [Hs0in Hs0l].
      destruct Hk as (Hnd & Hlt & Hnz).
      assert (Hch : forall x, In x (students d) ->
                sql_eq (Some (s_id x)) (l_student_id l) = true -> x = s0).
      { intros x Hin E. rewrite Hp in E. cbn in E. apply Z.eqb_eq in E.
        apply (same_id_same_row (students d)); assumption. }
      split; [| split].
      * cbn [delete_locker_row clear_locker_of set_locker set_students students locker snd fst].
        unfold holders. apply filter_map_none.
        intros x Hin.
        destruct (sql_eq (Some (s_id x)) (l_student_id l)) eqn:E;
          [reflexivity |].
        destruct (sql_eq (s_locker_id x) (Some id)) eqn:E'; [| reflexivity].
        assert (Hx0 : In x (holders id (students d)))
          by (apply filter_In; split; assumption).
        rewrite Hs0 in Hx0. destruct Hx0 as [<- | []].
        rewrite Hp in E. cbn in E. rewrite Z.eqb_refl in E. discriminate.
      * split; [| split].
        -- cbn [delete_locker_row clear_locker_of set_locker set_students students locker snd fst].
           rewrite map_map.
           erewrite map_ext; [exact Hnd |].
           intro x.
           destruct (sql_eq (Some (s_id x)) (l_student_id l)); reflexivity.
        -- cbn [delete_locker_row clear_locker_of set_locker set_students students locker snd fst].
           intros s Hin. apply in_map_iff in Hin.
           destruct Hin as (x & <- & Hin).
           destruct (sql_eq (Some (s_id x)) (l_student_id l));
             apply (Hlt x Hin).
        -- intros l0 Hl0. apply (Hlock _ eq_refl) in Hl0.
           apply Hnz. apply Hl0.
      * intros l0 Hl0. apply (Hlock _ eq_refl) in Hl0.
        destruct Hl0 as [Hl0 Hne].
        assert (Hsame : holders (l_id l0)
                          (students
                             (snd (delete_locker_row id
                                     (snd (clear_locker_of (l_student_id l) d)))))
                        = holders (l_id l0) (students d)).
        { cbn [delete_locker_row clear_locker_of set_locker set_students students locker snd fst].
          unfold holders. apply filter_map_stable.
          intros x Hin.
          destruct (sql_eq (Some (s_id x)) (l_student_id l)) eqn:E;
            [| left; reflexivity].
          right. rewrite (Hch x Hin E), Hs0l. cbn.
          split; [| reflexivity].
          apply Z.eqb_neq. intro N. apply Hne. symmetry. exact N. }
        rewrite Hsame. apply (Hx l0 Hl0).
    + split; [apply Hlock; reflexivity |].
      split.
      { cbn. clear. induction (students d); constructor;
          [left; reflexivity | assumption]. }
      split; [reflexivity |]. split; [reflexivity |].
      intros Hk Hx.
      pose proof (Hx l Hl) as Hxl. rewrite Ea, Hid in Hxl.
      split; [exact Hxl |]. split.
      * destruct Hk as (Hnd & Hlt & Hnz).
        split; [exact Hnd |]. split; [exact Hlt |].
        intros l0 Hl0. apply (Hlock _ eq_refl) in Hl0. apply Hnz. apply Hl0.
      * intros l0 Hl0. apply (Hlock _ eq_refl) in Hl0.
        apply (Hx l0). apply Hl0.
Qed.

Lemma locker_deletion_leaves_no_holder_witness :
  succeeded (fst (delete_locker no_faults 1 locker_member_db)) = true
  /\ holders 1 (students (snd (delete_locker no_faults 1 locker_member_db))) = []
  /\ locker_exclusive (snd (delete_locker no_faults 1 locker_member_db)).
Proof.
  split; [vm_compute; reflexivity |].
  destruct (locker_deletion_leaves_no_holder no_faults 1 locker_member_db
              (fst (delete_locker no_faults 1 locker_member_db))
              (snd (delete_locker no_faults 1 locker_member_db)))
    as [_ H].
  - destruct (delete_locker no_faults 1 locker_member_db); reflexivity.
  - destruct H as (_ & _ & _ & _ & H); [vm_compute; reflexivity |].
    destruct H as (H1 & _ & H3).
    + apply locker_member_db_in_order.
    + apply locker_member_db_in_order.
    + split; assumption.
Defined.

(** ** Key renaming of the API client *)

Lemma upper_of_lower c :
  is_lower c = true ->
  is_upper (upper_char c) = true /\ lower_char (upper_char c) = c.
Proof.
  destruct c as [[] [] [] [] [] [] [] []]; intro H;
    try discriminate H; split; reflexivity.
Qed.

Lemma lower_of_upper c :
  is_upper c = true ->
  is_lower (lower_char c) = true /\ upper_char (lower_char c) = c.
Proof.
  destruct c as [[] [] [] [] [] [] [] []]; intro H;
    try discriminate H; split; reflexivity.
Qed.

Lemma lower_char_fixed c : is_upper c = false -> lower_char c = c.
Proof. unfold lower_char. intros ->. reflexivity. Qed.

Lemma snake_key_step c rest :
  snake_key (String c rest)
  = if is_upper c
    then String underscore (String (lower_char c) (snake_key rest))
    else String c (snake_key rest).
Proof.
  unfold snake_key. cbn [mark_capitals].
  destruct (is_upper c) eqn:E; cbn [toLowerCase].
  - reflexivity.
  - rewrite (lower_char_fixed c E). reflexivity.
Qed.

Lemma camel_key_step c letter rest :
  camel_key (String c (String letter rest))
  = if Ascii.eqb c underscore && is_lower letter
    then String (upper_char letter) (camel_key rest)
    else String c (camel_key (String letter rest)).
Proof. reflexivity. Qed.

Lemma snake_after_camel n :
  forall key, (String.length key <= n)%nat -> column_name key = true ->
              snake_key (camel_key key) = key.
Proof.
  induction n as [| n IH]; intros key Hn Hk.
  - destruct key; [reflexivity | cbn in Hn; lia].
  - destruct key as [| c rest]; [reflexivity |].
    cbn [column_name] in Hk.
    apply andb_true_iff in Hk. destruct Hk as [Hc Hrest].
    apply andb_true_iff in Hc. destruct Hc as [_ Hc].
    apply negb_true_iff in Hc.
    cbn [String.length] in Hn.
    destruct rest as [| letter rest'].
    + cbn [camel_key]. rewrite snake_key_step, Hc. reflexivity.
    + rewrite camel_key_step.
      destruct (Ascii.eqb c underscore && is_lower letter) eqn:E.
      * apply andb_true_iff in E. destruct E as [Ec El].
        apply Ascii.eqb_eq in Ec. subst c.
        destruct (upper_of_lower letter El) as [Hu Hl].
        rewrite snake_key_step, Hu, Hl.
        rewrite IH; [reflexivity | cbn [String.length] in Hn; lia |].
        cbn [column_name] in Hrest.
        apply andb_true_iff in Hrest. apply Hrest.
      * rewrite snake_key_step, Hc.
        rewrite IH; [reflexivity | lia | exact Hrest].
Qed.

(** X16 - a column name (ASCII, no capital letter) that the response
    interceptor has renamed to camel case is renamed back to itself by the
    request interceptor. *)
Theorem column_names_survive_the_client key :
  column_name key = true -> snake_key (camel_key key) = key.
Proof.
  intro H. apply (snake_after_camel (String.length key)); [lia | exact H].
Qed.

Lemma column_names_survive_the_client_witness :
  camel_key "membership_start" = "membershipStart"
  /\ snake_key (camel_key "membership_start") = "membership_start".
Proof.
  split; [reflexivity |].
  apply (column_names_survive_the_client "membership_start"). reflexivity.
Defined.

Lemma snake_key_starts_lower key :
  field_name key = true ->
  starts_lower (snake_key key) = starts_lower key.
Proof.
  destruct key as [| c rest]; [reflexivity |].
  intros _. rewrite snake_key_step.
  destruct (is_upper c) eqn:E; [| reflexivity].
  cbn. revert E. destruct c as [[] [] [] [] [] [] [] []]; intro E;
    try discriminate E; reflexivity.
Qed.

(** X17 - a field name of the client (ASCII, no underscore directly before
    a small letter) that the request interceptor has renamed to snake case
    is renamed back to itself by the response interceptor. *)
Theorem field_names_survive_the_server key :
  field_name key = true -> camel_key (snake_key key) = key.
Proof.
  induction key as [| c rest IH]; [reflexivity |].
  intro H. cbn [field_name] in H.
  apply andb_true_iff in H. destruct H as [Hc Hrest].
  apply andb_true_iff in Hc. destruct Hc as [_ Hc].
  apply negb_true_iff in Hc.
  specialize (IH Hrest).
  rewrite snake_key_step.
  destruct (is_upper c) eqn:E.
  - destruct (lower_of_upper c E) as [Hl Hu].
    rewrite camel_key_step, Ascii.eqb_refl, Hl. cbn [andb].
    rewrite Hu, IH. reflexivity.
  - pose proof (snake_key_starts_lower rest Hrest) as Hs.
    destruct (snake_key rest) as [| letter tail] eqn:Es.
    + rewrite <- IH. reflexivity.
    + rewrite camel_key_step. cbn [starts_lower] in Hs. rewrite Hs, Hc.
      rewrite IH. reflexivity.
Qed.

Lemma field_names_survive_the_server_witness :
  snake_key "shiftIds" = "shift_ids"
  /\ camel_key (snake_key "shiftIds") = "shiftIds".
Proof.
  split; [reflexivity |].
  apply (field_names_survive_the_server "shiftIds"). reflexivity.
Defined.

(** ** Route guards *)

(** X18 - with a single required permission the list guard decides as the
    single-permission guard does, whatever its logic argument. *)
Theorem single_permission_guards_agree p logic session :
  checkPermissions [p] logic session = checkPermission p session.
Proof.
  unfold checkPermissions, checkPermission.
  destruct session as [u |]; [| reflexivity].
  destruct (String.eqb (role u) "admin"); [reflexivity |].
  destruct (String.eqb (toUpperCase logic) "AND"); cbn [forallb existsb];
    [rewrite andb_true_r | rewrite orb_false_r]; reflexivity.
Qed.

Lemma forallb_existsb_nonempty {A : Type} (p : A -> bool) (l : list A) :
  l <> [] -> forallb p l = true -> existsb p l = true.
Proof.
  destruct l as [| x l]; [intro N; contradiction N; reflexivity |].
  intros _ H. cbn in H |- *. apply andb_true_iff in H.
  destruct H as [-> _]. reflexivity.
Qed.

(** X19 - a request that passes the list guard under AND with a non-empty
    list passes it under any other logic too.  With the empty list the two
    differ: AND lets every logged-in user through, any other logic only an
    admin. *)
Theorem all_of_passes_any_of required logic session :
  (required <> [] ->
   checkPermissions required "AND" session = Pass ->
   checkPermissions required logic session = Pass)
  /\ (checkPermissions [] "AND" session = Pass <-> session <> None)
  /\ (toUpperCase logic <> "AND" ->
      (checkPermissions [] logic session = Pass <-> checkAdmin session = Pass)).
Proof.
  split; [| split].
  - intros Hne. unfold checkPermissions.
    destruct session as [u |]; [| intro H; exact H].
    destruct (String.eqb (role u) "admin"); [reflexivity |].
    cbv zeta.
    assert (HA : String.eqb (toUpperCase "AND") "AND" = true) by reflexivity.
    rewrite HA.
    destruct (forallb (fun p => includes (permissions_of u) p) required) eqn:E;
      [| intro H; discriminate H].
    intros _. destruct (String.eqb (toUpperCase logic) "AND").
    + reflexivity.
    + rewrite (forallb_existsb_nonempty _ _ Hne E). reflexivity.
  - unfold checkPermissions. destruct session as [u |].
    + split; [intros _ N; discriminate N |]. intros _.
      destruct (String.eqb (role u) "admin"); reflexivity.
    + split; [intro H; discriminate H | intro N; contradiction N; reflexivity].
  - intro Hl. apply String.eqb_neq in Hl.
    unfold checkPermissions, checkAdmin. rewrite Hl.
    destruct session as [u |]; [| split; intro H; exact H].
    destruct (String.eqb (role u) "admin"); cbn; split; intro H; exact H.
Qed.

Lemma all_of_passes_any_of_witness :
  checkPermissions ["manage_seats"; "manage_library_students"] "OR"
    (Some (mkUser "staff" (Some ["manage_library_students"; "manage_seats"])))
  = Pass.
Proof.
  apply (proj1 (all_of_passes_any_of
                  ["manage_seats"; "manage_library_students"] "OR"
                  (Some (mkUser "staff"
                           (Some ["manage_library_students"; "manage_seats"]))))).
  - discriminate.
  - reflexivity.
Defined.

(** X20 - every guard answers 401 exactly when there is no session user,
    and whoever passes the admin guard passes every other guard. *)
Theorem admin_passes_every_guard session :
  (session = None
   <-> checkAdmin session = Unauthorized)
  /\ (forall p, checkPermission p session = Unauthorized <-> session = None)
  /\ (forall required logic,
        checkPermissions required logic session = Unauthorized
        <-> session = None)
  /\ (checkAdminOrStaff session = Unauthorized <-> session = None)
  /\ (checkAdmin session = Pass ->
      checkAdminOrStaff session = Pass
      /\ (forall p, checkPermission p session = Pass)
      /\ (forall required logic,
            checkPermissions required logic session = Pass)).
Proof.
  destruct session as [u |].
  - unfold checkAdmin, checkAdminOrStaff, checkPermission, checkPermissions.
    split; [split; [intro H; discriminate H |] |].
    { destruct (String.eqb (role u) "admin"); intro H; discriminate H. }
    split.
    { intro p. split; [| intro H; discriminate H].
      destruct (String.eqb (role u) "admin"); [intro H; discriminate H |].
      destruct (negb (includes (permissions_of u) p)); intro H; discriminate H. }
    split.
    { intros required logic. split; [| intro H; discriminate H].
      destruct (String.eqb (role u) "admin"); [intro H; discriminate H |].
      cbv zeta.
      destruct (negb _); intro H; discriminate H. }
    split.
    { split; [| intro H; discriminate H].
      destruct (String.eqb (role u) "admin" || String.eqb (role u) "staff");
        intro H; discriminate H. }
    destruct (String.eqb (role u) "admin"); cbn; [| intro H; discriminate H].
    intros _. split; [reflexivity |]. split; reflexivity.
  - cbn. split; [split; reflexivity |].
    split; [intro p; split; reflexivity |].
    split; [intros required logic; split; reflexivity |].
    split; [split; reflexivity |]. intro H. discriminate H.
Qed.

Lemma admin_passes_every_guard_witness :
  checkAdminOrStaff (Some (mkUser "admin" None)) = Pass
  /\ checkPermissions ["view_collections"] "OR" (Some (mkUser "admin" None))
     = Pass.
Proof.
  destruct (admin_passes_every_guard (Some (mkUser "admin" None)))
    as (_ & _ & _ & _ & H).
  destruct H as (H1 & _ & H3); [reflexivity |].
  split; [exact H1 | apply H3].
Defined.

(** ** Public registration *)

Lemma kept_forward d0 d :
  sequences_grow d0 d ->
  same_tables d0 (keep_sequences d0 d)
  /\ sequences_grow d0 (keep_sequences d0 d).
Proof.
  intro H. split; [apply same_tables_kept | exact H].
Qed.

Lemma public_register_cases f v today next_year now i branch_id d r d' :
  public_register f v today next_year now i branch_id d = (r, d') ->
  (succeeded r = false /\ same_tables d d' /\ sequences_grow d d')
  \/ (r = Resp 201 Ok
      /\ falsy (name i) = false /\ falsy (phone i) = false
      /\ truthy_id branch_id = true
      /\ fst (select_by_phone (phone i) d) = []
      /\ d' = register_effect today next_year now i branch_id d).
Proof.
  assert (Same : same_tables d d /\ sequences_grow d d)
    by (split; [apply same_tables_refl | apply sequences_grow_refl]).
  assert (Refused : succeeded (if v then Resp 400 Conflict
                               else Resp 500 Internal) = false)
    by (destruct v; reflexivity).
  unfold public_register. cbv zeta.
  destruct (falsy (name i)) eqn:En; cbn [orb];
    [intro H; inversion H; subst; left; split; [reflexivity | exact Same] |].
  destruct (falsy (phone i)) eqn:Ep; cbn [orb];
    [intro H; inversion H; subst; left; split; [reflexivity | exact Same] |].
  destruct (truthy_id branch_id) eqn:Eb; cbn [negb];
    [| intro H; inversion H; subst; left; split; [reflexivity | exact Same]].
  unfold bind at 1.
  destruct (query_outcome f 1%nat (select_by_phone (phone i)) d) as [-> | ->];
    [| intro H; inversion H; subst; left;
       split; [exact Refused | apply kept_forward, sequences_grow_refl]].
  cbn [select_by_phone fst snd].
  destruct (filter (fun s => text_eq (phone (s_identity s)) (phone i))
              (students d)) as [| x xs] eqn:Ex;
    [| intro H; inversion H; subst; left; split; [reflexivity | exact Same]].
  unfold bind at 1.
  destruct (query_outcome f 2%nat
              (insert_student (registered_row today next_year i branch_id)) d)
    as [-> | ->];
    [| intro H; inversion H; subst; left;
       split; [exact Refused | apply kept_forward, sequences_grow_refl]].
  unfold bind at 1.
  match goal with
  | |- context [query f 3%nat ?q ?d1] =>
    destruct (query_outcome f 3%nat q d1) as [-> | ->]
  end;
    [| intro H; inversion H; subst; left;
       split; [exact Refused |
               apply kept_forward; unfold sequences_grow; cbn; lia]].
  intro H. inversion H. right.
  split; [reflexivity |]. split; [reflexivity |]. split; [reflexivity |].
  split; [reflexivity |]. split; [reflexivity |]. reflexivity.
Qed.

Lemma text_eq_sym a b : text_eq a b = text_eq b a.
Proof.
  destruct a as [x |], b as [y |]; cbn; try reflexivity.
  apply String.eqb_sym.
Qed.

Lemma no_row_with_phone p d :
  fst (select_by_phone p d) = [] ->
  forall s, In s (students d) -> text_eq (phone (s_identity s)) p = false.
Proof.
  cbn. intros E s Hin.
  destruct (text_eq (phone (s_identity s)) p) eqn:Et; [| reflexivity].
  assert (Hs : In s (filter (fun s0 => text_eq (phone (s_identity s0)) p)
                            (students d)))
    by (apply filter_In; split; assumption).
  rewrite E in Hs. destruct Hs.
Qed.

(** X21 - a public registration either fails and leaves the rows of every
    table as they were, with no sequence behind where it was, or appends one
    head row and one history row for a new member: the row takes the next
    id, carries the server's two dates and the label active, holds no
    locker, and has all seven amounts (fee, paid, due, cash, online,
    security money, discount) at 0, as has the history row, which mirrors
    it; no member had the telephone number before; lockers and seat
    assignments are untouched. *)
Theorem public_registration_opens_an_empty_account
    f v today next_year now i branch_id d r d' :
  public_register f v today next_year now i branch_id d = (r, d') ->
  (succeeded r = false -> same_tables d d' /\ sequences_grow d d')
  /\ (succeeded r = true ->
      exists s h,
        students d' = students d ++ [s]
        /\ student_membership_history d' = student_membership_history d ++ [h]
        /\ s_id s = next_student_id d
        /\ h_id h = next_history_id d
        /\ mirrors s h
        /\ h_identity h = s_identity s
        /\ s_membership_start s = Some today
        /\ s_membership_end s = Some next_year
        /\ s_status s = active /\ s_is_active s = true
        /\ s_locker_id s = None
        /\ ledger_balanced s
        /\ amounts_of_student s
           = [0%float; 0%float; 0%float; 0%float; 0%float; 0%float; 0%float]
        /\ amounts_of_hrow h
           = [0%float; 0%float; 0%float; 0%float; 0%float; 0%float; 0%float]
        /\ (forall s0, In s0 (students d) ->
                       phone (s_identity s0) <> phone (s_identity s))
        /\ locker d' = locker d
        /\ seat_assignments d' = seat_assignments d).
Proof.
  intro H. apply public_register_cases in H.
  destruct H as [[Hr Hsame] | (-> & En & Ep & Eb & Ex & ->)].
  - split; [intros _; exact Hsame |]. intro Hok. rewrite Hr in Hok. discriminate.
  - split; [intro Hok; discriminate Hok |]. intros _.
    eexists. eexists.
    split; [reflexivity |]. split; [reflexivity |].
    split; [reflexivity |]. split; [reflexivity |].
    split; [repeat split |].
    split; [reflexivity |]. split; [reflexivity |]. split; [reflexivity |].
    split; [reflexivity |]. split; [reflexivity |]. split; [reflexivity |].
    split; [unfold ledger_balanced; cbn; reflexivity |].
    split; [reflexivity |]. split; [reflexivity |].
    split; [| split; reflexivity].
    intros s0 Hin E.
    pose proof (no_row_with_phone _ _ Ex s0 Hin) as Hno.
    cbn in E. rewrite E in Hno.
    destruct (phone i) as [p |]; [| discriminate Ep].
    cbn in Hno. rewrite String.eqb_refl in Hno. discriminate.
Qed.

Lemma public_registration_opens_an_empty_account_witness :
  (exists s h,
     students (snd (public_register no_faults false 20 385 20 walk_in (Some 1)
                      enrolled_db))
     = students enrolled_db ++ [s]
     /\ student_membership_history
          (snd (public_register no_faults false 20 385 20 walk_in (Some 1)
                  enrolled_db))
        = student_membership_history enrolled_db ++ [h]
     /\ mirrors s h
     /\ amounts_of_student s
        = [0%float; 0%float; 0%float; 0%float; 0%float; 0%float; 0%float]
     /\ amounts_of_hrow h
        = [0%float; 0%float; 0%float; 0%float; 0%float; 0%float; 0%float])
  /\ (same_tables enrolled_db
        (snd (public_register (fails_at 3) false 20 385 20 walk_in (Some 1)
                enrolled_db))
      /\ next_student_id
           (snd (public_register (fails_at 3) false 20 385 20 walk_in (Some 1)
                   enrolled_db))
         = next_student_id enrolled_db + 1).
Proof.
  split.
  - destruct (public_registration_opens_an_empty_account
                no_faults false 20 385 20 walk_in (Some 1) enrolled_db
                (Resp 201 Ok)
                (snd (public_register no_faults false 20 385 20 walk_in (Some 1)
                        enrolled_db))) as [_ H].
    + vm_compute. reflexivity.
    + destruct H as (s & h & H1 & H2 & _ & _ & H5 & _ & _ & _ & _ & _ & _ & _
                     & H13 & H14 & _);
        [reflexivity |].
      exists s, h. repeat split; try assumption; apply H5.
  - destruct (public_registration_opens_an_empty_account
                (fails_at 3) false 20 385 20 walk_in (Some 1) enrolled_db
                (Resp 500 Internal)
                (snd (public_register (fails_at 3) false 20 385 20 walk_in
                        (Some 1) enrolled_db))) as [H _].
    + vm_compute. reflexivity.
    + split; [apply H; reflexivity | vm_compute; reflexivity].
Defined.

(** X22 - public registration keeps the store in order: unique member ids
    below the sequence, exclusive lockers, exclusive seats, and distinct
    telephone numbers all survive it, whatever it answers. *)
Theorem public_registration_keeps_the_store_in_order
    f v today next_year now i branch_id d r d' :
  public_register f v today next_year now i branch_id d = (r, d') ->
  keys_ok d -> locker_exclusive d -> seat_exclusive d -> phones_distinct d ->
  keys_ok d' /\ locker_exclusive d' /\ seat_exclusive d' /\ phones_distinct d'.
Proof.
  intros H Hk Hl Hs Hp. apply public_register_cases in H.
  destruct H as [(_ & Ht & Hg) | (-> & En & Ep & Eb & Ex & ->)];
    [destruct (in_order_unwound d d' Ht Hg Hk Hl) as [Hk' Hl'];
     split; [exact Hk' |]; split; [exact Hl' |];
     split; [apply (seat_exclusive_same d d'); [apply Ht | exact Hs] |];
     unfold phones_distinct; rewrite (proj1 Ht); exact Hp |].
  destruct Hk as (Hnd & Hlt & Hnz).
  split; [| split; [| split]].
  - split; [| split].
    + cbn. rewrite map_app. cbn. apply NoDup_snoc; [exact Hnd |].
      intro Hin. apply in_map_iff in Hin. destruct Hin as (x & E & Hin).
      specialize (Hlt x Hin). lia.
    + cbn. intros s Hin. apply in_app_or in Hin.
      destruct Hin as [Hin | [<- | []]]; [specialize (Hlt s Hin); lia |].
      cbn. lia.
    + exact Hnz.
  - intros l Hin. specialize (Hl l Hin).
    assert (E : holders (l_id l)
                  (students (register_effect today next_year now i branch_id d))
                = holders (l_id l) (students d)).
    { cbn. unfold holders. rewrite filter_app. cbn. apply app_nil_r. }
    rewrite E. exact Hl.
  - exact Hs.
  - intros s1 s2 H1 H2 E.
    cbn in H1, H2. apply in_app_or in H1. apply in_app_or in H2.
    destruct H1 as [H1 | [<- | []]], H2 as [H2 | [<- | []]].
    + apply Hp; assumption.
    + exfalso. cbn in E.
      rewrite (no_row_with_phone _ _ Ex s1 H1) in E. discriminate.
    + exfalso. cbn in E. rewrite text_eq_sym in E.
      rewrite (no_row_with_phone _ _ Ex s2 H2) in E. discriminate.
    + reflexivity.
Qed.

Lemma public_registration_keeps_the_store_in_order_witness :
  phones_distinct
    (snd (public_register no_faults false 20 385 20 walk_in (Some 1)
            locker_member_db))
  /\ locker_exclusive
       (snd (public_register no_faults false 20 385 20 walk_in (Some 1)
               locker_member_db)).
Proof.
  destruct (public_registration_keeps_the_store_in_order
              no_faults false 20 385 20 walk_in (Some 1) locker_member_db
              (fst (public_register no_faults false 20 385 20 walk_in (Some 1)
                      locker_member_db))
              (snd (public_register no_faults false 20 385 20 walk_in (Some 1)
                      locker_member_db))) as (_ & H2 & _ & H4).
  - destruct (public_register no_faults false 20 385 20 walk_in (Some 1)
                locker_member_db); reflexivity.
  - apply locker_member_db_in_order.
  - apply locker_member_db_in_order.
  - intros a1 a2 H1 H2. vm_compute in H1, H2.
    repeat match goal with
           | H : _ \/ _ |- _ => destruct H
           | H : False |- _ => destruct H
           end; subst; intros; reflexivity.
  - intros s1 s2 H1 H2. vm_compute in H1, H2.
    repeat match goal with
           | H : _ \/ _ |- _ => destruct H
           | H : False |- _ => destruct H
           end; subst; intros; reflexivity.
  - split; assumption.
Defined.

(** ** Admission: what Enroll accepts *)

Lemma bind_next {A B : Type} (m : tx A) (k : A -> tx B) d a d1 :
  m d = Next a d1 -> bind m k d = k a d1.
Proof. unfold bind. intros ->. reflexivity. Qed.

Lemma query_runs {A : Type} site (q : db -> A * db) d :
  query no_faults site q d = Next (fst (q d)) (snd (q d)).
Proof. unfold query, no_faults. destruct (q d). reflexivity. Qed.

Lemma for_each_passes {A B : Type} site (sel : A -> db -> list B * db)
    (k : list B -> tx unit) (l : list A) d :
  (forall x d1, snd (sel x d1) = d1) ->
  (forall x, In x l -> k (fst (sel x d)) d = Next tt d) ->
  for_each l (fun x => rows <- query no_faults site (sel x) ;; k rows) d
  = Next tt d.
Proof.
  intros Hsel. induction l as [| x l IH]; intro Hk; cbn [for_each];
    [reflexivity |].
  rewrite (bind_next _ _ d tt d).
  - apply IH. intros y Hy. apply Hk. right. exact Hy.
  - rewrite (bind_next _ _ d (fst (sel x d)) d).
    + apply Hk. left. reflexivity.
    + rewrite query_runs, Hsel. reflexivity.
Qed.

Lemma assign_if_requested_runs site lockerId id d :
  assign_if_requested no_faults site lockerId id d
  = Next tt (assigned_if_requested lockerId id d).
Proof.
  unfold assign_if_requested, assigned_if_requested.
  destruct (truthy_id lockerId); [| reflexivity].
  rewrite query_runs. reflexivity.
Qed.

Lemma insert_assignments_run site seat shifts id d :
  insert_assignments no_faults site seat shifts id d
  = Next tt (inserted_assignments seat shifts id d).
Proof.
  unfold insert_assignments, inserted_assignments.
  revert d. induction shifts as [| x l IH]; intro d; cbn [for_each fold_left];
    [reflexivity |].
  rewrite (bind_next _ _ d tt (snd (insert_assignment seat x id d))).
  - apply IH.
  - rewrite query_runs. reflexivity.
Qed.

Lemma enroll_seat_checks_known f d0 seat shifts d :
  check_outcome d0 d (seats_known seat shifts d /\ pairs_free seat shifts d)
                (enroll_seat_checks f d0 seat shifts d).
Proof.
  unfold enroll_seat_checks, seats_known, pairs_free.
  destruct (truthy_id seat && nonempty shifts);
    [| cbn; split; [reflexivity | split; discriminate]].
  unfold bind at 1.
  destruct (query_outcome f 1%nat (select_seat seat) d) as [-> | ->]; [| exact I].
  cbn [select_seat fst snd].
  destruct (filter (fun s => sql_eq (Some s) seat) (seats d)) as [| x xs].
  - cbn -[keep_sequences]. split; [reflexivity | apply same_tables_kept].
  - unfold bind at 1.
    pose proof (for_each_checked f 2%nat (fun shiftId => select_schedule shiftId)
                (fun rows => match rows with
                             | [] => rollback d0 ;;; respond (Resp 400 ValidationError)
                             | _ :: _ => ret tt
                             end)
                (fun rows => rows <> []) d0 shifts (fun _ _ => eq_refl)) as G1.
    cbv beta in G1.
    assert (K1 : forall (rows : list Z) d1,
               check_outcome d0 d1 (rows <> [])
                 (match rows with
                  | [] => rollback d0 ;;; respond (Resp 400 ValidationError)
                  | _ :: _ => ret tt
                  end d1)).
    { intros [| y ys] d1; cbn -[keep_sequences]; split;
        reflexivity || discriminate || apply same_tables_kept. }
    specialize (G1 K1 d).
    destruct (for_each shifts _ d) as [[] d1 | r d1 | d1]; cbn in G1 |- *;
      [| exact G1 | exact I].
    destruct G1 as [-> Hknown].
    pose proof (for_each_checked f 3%nat
                  (fun shiftId => select_assignment seat shiftId)
                  (fun rows => match rows with
                               | [] => ret tt
                               | _ :: _ => rollback d0 ;;; respond (Resp 400 Conflict)
                               end)
                  (fun rows => rows = []) d0 shifts (fun _ _ => eq_refl)) as G2.
    cbv beta in G2.
    assert (K2 : forall (rows : list assignment) d1,
               check_outcome d0 d1 (rows = [])
                 (match rows with
                  | [] => ret tt
                  | _ :: _ => rollback d0 ;;; respond (Resp 400 Conflict)
                  end d1)).
    { intros [| y ys] d1; cbn -[keep_sequences]; split;
        reflexivity || apply same_tables_kept. }
    specialize (G2 K2 d).
    destruct (for_each shifts _ d) as [[] d1 | r d1 | d1]; cbn in G2 |- *;
      [| exact G2 | exact I].
    destruct G2 as [-> Hall]. split; [reflexivity |].
    split; intros _; [| exact Hall].
    split; [discriminate | exact Hknown].
Qed.

Lemma enroll_seat_checks_pass d0 seat shifts d :
  seats_known seat shifts d -> pairs_free seat shifts d ->
  enroll_seat_checks no_faults d0 seat shifts d = Next tt d.
Proof.
  unfold enroll_seat_checks, seats_known, pairs_free.
  destruct (truthy_id seat && nonempty shifts); [| reflexivity].
  intros Hk Hp. destruct (Hk eq_refl) as [Hseat Hshifts].
  specialize (Hp eq_refl).
  rewrite (bind_next _ _ d (fst (select_seat seat d)) d)
    by (rewrite query_runs; reflexivity).
  destruct (fst (select_seat seat d)) as [| x xs]; [contradiction Hseat; reflexivity |].
  rewrite (bind_next _ _ d tt d).
  - apply (for_each_passes 3%nat (fun shiftId => select_assignment seat shiftId)
             (fun rows => match rows with
                          | [] => ret tt
                          | _ :: _ => rollback d0 ;;; respond (Resp 400 Conflict)
                          end)); [reflexivity |].
    intros sh Hin. cbv beta. rewrite (Hp sh Hin). reflexivity.
  - apply (for_each_passes 2%nat (fun shiftId => select_schedule shiftId)
             (fun rows => match rows with
                          | [] => rollback d0 ;;; respond (Resp 400 ValidationError)
                          | _ :: _ => ret tt
                          end)); [reflexivity |].
    intros sh Hin. cbv beta.
    specialize (Hshifts sh Hin).
    destruct (fst (select_schedule sh d)); [contradiction Hshifts |]; reflexivity.
Qed.

Lemma enroll_locker_check_pass d0 lockerId d :
  locker_free lockerId d ->
  enroll_locker_check no_faults d0 lockerId d = Next tt d.
Proof.
  unfold enroll_locker_check, locker_free.
  destruct (truthy_id lockerId); [| reflexivity].
  intro H. destruct (H eq_refl) as (l & ls & El & Ea).
  rewrite (bind_next _ _ d (fst (select_locker lockerId d)) d)
    by (rewrite query_runs; reflexivity).
  rewrite El, Ea. reflexivity.
Qed.

(** X23 - Enroll accepts a request only if the required fields are there,
    the six amounts are valid, the requested seat and shifts are on file,
    no requested (seat, shift) pair is taken and the requested locker is
    free; and when no query fails, every such request is accepted with 201
    and written in full. *)
Theorem enroll_accepts_exactly_the_admissible now b d :
  (forall f, succeeded (fst (enroll f now b d)) = true -> enroll_admissible b d)
  /\ (enroll_admissible b d ->
      enroll no_faults now b d = (Resp 201 Ok, enroll_effect now b d)).
Proof.
  assert (Hfwd : forall f r d',
             enroll f now b d = (r, d') ->
             (succeeded r = false /\ same_tables d d')
             \/ (r = Resp 201 Ok /\ enroll_admissible b d)).
  { intros f r d'. unfold enroll.
    apply (transaction_settled _ d
             (fun r _ => r = Resp 201 Ok /\ enroll_admissible b d)).
    cbv beta. unfold enroll_admissible, enroll_required.
    destruct (falsy (name (b_identity b)) || negb (truthy_id (b_branch_id b))
              || missing (b_membership_start b) || missing (b_membership_end b));
      [apply settled_fail; reflexivity |].
    cbv zeta.
    destruct (invalid_amount (parseFloat_or0 (b_total_fee b))) eqn:V1;
      [apply settled_fail; reflexivity |].
    destruct (invalid_amount (parseFloat_or0 (b_amount_paid b))) eqn:V2;
      [apply settled_fail; reflexivity |].
    destruct (invalid_amount (parseFloat_or0 (b_discount b))) eqn:V3;
      [apply settled_fail; reflexivity |].
    destruct (invalid_amount (parseFloat_def0 (b_cash b))) eqn:V4;
      [apply settled_fail; reflexivity |].
    destruct (invalid_amount (parseFloat_def0 (b_online b))) eqn:V5;
      [apply settled_fail; reflexivity |].
    destruct (invalid_amount (parseFloat_def0 (b_security_money b))) eqn:V6;
      [apply settled_fail; reflexivity |].
    eapply settled_bind_check; [apply enroll_seat_checks_known | intros [Hkn Hpairs]].
    eapply settled_bind_check; [apply enroll_locker_check_outcome | intros Hfree].
    apply settled_bind_query. cbn [insert_student fst snd].
    eapply settled_bind_write; [apply assign_if_requested_writes |].
    eapply settled_bind_write; [apply insert_assignments_writes |].
    eapply settled_bind_write; [apply query_writes |].
    apply settled_ret.
    split; [reflexivity |]. split; [reflexivity |].
    split; [repeat split; assumption |].
    split; [exact Hkn |]. split; [exact Hpairs | exact Hfree]. }
  split.
  - intros f Hok.
    destruct (enroll f now b d) as [r d'] eqn:E. cbn in Hok.
    destruct (Hfwd f r d' E) as [[Hr _] | [_ Ha]];
      [rewrite Hr in Hok; discriminate | exact Ha].
  - intros (Hreq & (V1 & V2 & V3 & V4 & V5 & V6) & Hkn & Hpairs & Hfree).
    assert (Hok : succeeded (fst (enroll no_faults now b d)) = true).
    { unfold enroll, transaction.
      unfold enroll_required in Hreq. apply negb_true_iff in Hreq.
      rewrite Hreq. cbv zeta. rewrite V1, V2, V3, V4, V5, V6.
      rewrite (bind_next _ _ d tt d)
        by (apply enroll_seat_checks_pass; assumption).
      rewrite (bind_next _ _ d tt d)
        by (apply enroll_locker_check_pass; assumption).
      erewrite bind_next by apply query_runs.
      erewrite bind_next by apply assign_if_requested_runs.
      erewrite bind_next by apply insert_assignments_run.
      erewrite bind_next by apply query_runs.
      reflexivity. }
    destruct (enroll no_faults now b d) as [r d'] eqn:E. cbn in Hok.
    destruct (enroll_success no_faults now b d r d' E Hok) as (-> & -> & _).
    reflexivity.
Qed.

Lemma enroll_accepts_exactly_the_admissible_witness :
  enroll no_faults 21 second_enrolment enrolled_db
  = (Resp 201 Ok, enroll_effect 21 second_enrolment enrolled_db).
Proof.
  apply (proj2 (enroll_accepts_exactly_the_admissible 21 second_enrolment
                  enrolled_db)).
  split; [reflexivity |].
  split; [repeat split; reflexivity |].
  split.
  { intros _. split; [vm_compute; discriminate |].
    intros sh [<- | []]. vm_compute. discriminate. }
  split.
  { intros _ sh [<- | []]. vm_compute. reflexivity. }
  intro H. vm_compute in H. discriminate H.
Defined.

Lemma locker_check_pass site d0 lockerId id d :
  locker_admits lockerId id d ->
  locker_check no_faults site d0 lockerId id d = Next tt d.
Proof.
  unfold locker_check, locker_admits.
  destruct (truthy_id lockerId); [| reflexivity].
  intro H. destruct (H eq_refl) as (l & ls & El & Ea).
  rewrite (bind_next _ _ d (fst (select_locker lockerId d)) d)
    by (rewrite query_runs; reflexivity).
  rewrite El, Ea. reflexivity.
Qed.

Lemma release_previous_runs site lockerId d :
  release_previous no_faults site lockerId d
  = Next tt (released_previous lockerId d).
Proof.
  unfold release_previous, released_previous.
  destruct (truthy_id lockerId); [| reflexivity].
  rewrite query_runs. reflexivity.
Qed.

Lemma renew_seat_checks_pass d0 seat shifts id d :
  pairs_free_of_others seat shifts id d ->
  renew_seat_checks no_faults d0 seat shifts id d = Next tt d.
Proof.
  unfold renew_seat_checks, pairs_free_of_others.
  destruct (truthy_id seat && nonempty shifts); [| reflexivity].
  intro Hp. specialize (Hp eq_refl).
  apply (for_each_passes 1%nat
           (fun shiftId => select_assignment_of_other seat shiftId id)
           (fun rows => match rows with
                        | [] => ret tt
                        | _ :: _ => rollback d0 ;;; respond (Resp 400 Conflict)
                        end)); [reflexivity |].
  intros sh Hin. cbv beta. rewrite (Hp sh Hin). reflexivity.
Qed.

Lemma updated_row_returned id (g : student -> student) d previous :
  (forall s, s_id (g s) = s_id s) ->
  find_student id d = Some previous ->
  exists rest, fst (update_student id g d) = g previous :: rest.
Proof.
  intros Hg Hf. cbn [update_student fst].
  rewrite (filter_map_update s_id) by exact Hg.
  destruct (find_head_filter _ _ _ Hf) as (rest & ->).
  exists (map g rest). reflexivity.
Qed.

(** X24 - Edit accepts a request only if the required fields are there,
    the member exists, the three channel amounts are values the store takes
    and the requested locker is not held by another member; and when no
    query fails, every such request is accepted.  Whether the requested
    seat is free plays no part. *)
Theorem edit_accepts_exactly_the_admissible now id b d :
  (forall f, succeeded (fst (edit f now id b d)) = true ->
             edit_admissible id b d)
  /\ (edit_admissible id b d -> fst (edit no_faults now id b d) = Resp 200 Ok).
Proof.
  split.
  - intros f Hok.
    destruct (edit f now id b d) as [r d'] eqn:E. cbn in Hok.
    assert (Hreq : edit_required b = true).
    { destruct (edit_required b) eqn:Er; [reflexivity |]. exfalso.
      unfold edit_required in Er. apply negb_false_iff in Er.
      unfold edit, transaction in E. rewrite Er in E. cbn in E.
      inversion E. subst r. discriminate Hok. }
    apply edit_cases in E.
    destruct E as [[Hr _] | (_ & previous & c & o & sm & Hf & Hc & Ho & Hs & Ha & _)];
      [rewrite Hr in Hok; discriminate |].
    split; [exact Hreq |]. split; [exists previous; exact Hf |].
    split; [rewrite Hc; discriminate |]. split; [rewrite Ho; discriminate |].
    split; [rewrite Hs; discriminate | exact Ha].
  - intros (Hreq & [previous Hf] & Hc & Ho & Hs & Ha).
    unfold edit, transaction.
    unfold edit_required in Hreq. apply negb_true_iff in Hreq.
    rewrite Hreq. cbv zeta.
    rewrite (bind_next _ _ d tt d) by (apply locker_check_pass; exact Ha).
    rewrite (bind_next _ _ d (fst (select_student id d)) d)
      by (rewrite query_runs; reflexivity).
    cbn [select_student fst].
    destruct (find_head_filter _ _ _ Hf) as (rest & ->).
    erewrite bind_next by apply release_previous_runs.
    destruct (to_numeric (b_cash b)) as [c |]; [| contradiction Hc; reflexivity].
    destruct (to_numeric (b_online b)) as [o |]; [| contradiction Ho; reflexivity].
    destruct (to_numeric (b_security_money b)) as [sm |];
      [| contradiction Hs; reflexivity].
    erewrite bind_next by apply query_runs.
    match goal with
    | |- context [fst (update_student id ?g ?d1)] =>
      destruct (updated_row_returned id g d1 previous) as (rest' & ->);
        [reflexivity
        | unfold find_student; rewrite students_released_previous; exact Hf |]
    end.
    erewrite bind_next by apply assign_if_requested_runs.
    erewrite bind_next by apply query_runs.
    erewrite bind_next by apply insert_assignments_run.
    erewrite bind_next by apply query_runs.
    reflexivity.
Qed.

Lemma edit_accepts_exactly_the_admissible_witness :
  fst (edit no_faults 25 2 seat_grab two_member_db) = Resp 200 Ok.
Proof.
  apply (proj2 (edit_accepts_exactly_the_admissible 25 2 seat_grab two_member_db)).
  split; [reflexivity |].
  split; [eexists; vm_compute; reflexivity |].
  split; [vm_compute; discriminate |]. split; [vm_compute; discriminate |].
  split; [vm_compute; discriminate |].
  intro H. vm_compute in H. discriminate H.
Defined.

(** X25 - Renew accepts a request only if the required fields are there,
    the member exists, no requested (seat, shift) pair is held by another
    member and the requested locker is not held by another member; and when
    no query fails, every such request is accepted. *)
Theorem renew_accepts_exactly_the_admissible now id b d :
  (forall f, succeeded (fst (renew f now id b d)) = true ->
             renew_admissible id b d)
  /\ (renew_admissible id b d -> fst (renew no_faults now id b d) = Resp 200 Ok).
Proof.
  split.
  - intros f Hok.
    destruct (renew f now id b d) as [r d'] eqn:E. cbn in Hok.
    destruct (renew_success f now id b d r d' E Hok)
      as (_ & Hreq & Hp & previous & Hf & _).
    apply renew_cases in E.
    destruct E as [[Hr _] | (_ & previous' & _ & Ha & _)];
      [rewrite Hr in Hok; discriminate |].
    split; [exact Hreq |]. split; [exists previous; exact Hf |].
    split; [exact Hp | exact Ha].
  - intros (Hreq & [previous Hf] & Hp & Ha).
    unfold renew, transaction.
    unfold renew_required in Hreq. apply negb_true_iff in Hreq.
    rewrite Hreq. cbv zeta.
    rewrite (bind_next _ _ d tt d) by (apply renew_seat_checks_pass; exact Hp).
    rewrite (bind_next _ _ d tt d) by (apply locker_check_pass; exact Ha).
    erewrite bind_next by apply query_runs.
    erewrite bind_next by apply query_runs.
    match goal with
    | |- context [fst (update_student id ?g ?d1)] =>
      destruct (updated_row_returned id g d1 previous) as (rest' & ->);
        [reflexivity | exact Hf |]
    end.
    erewrite bind_next by apply assign_if_requested_runs.
    erewrite bind_next by apply query_runs.
    erewrite bind_next by apply insert_assignments_run.
    erewrite bind_next by apply query_runs.
    reflexivity.
Qed.

Lemma renew_accepts_exactly_the_admissible_witness :
  fst (renew no_faults 45 1 renewal enrolled_db) = Resp 200 Ok.
Proof.
  apply (proj2 (renew_accepts_exactly_the_admissible 45 1 renewal enrolled_db)).
  split; [reflexivity |].
  split; [eexists; vm_compute; reflexivity |].
  split.
  { intros _ sh Hin. vm_compute in Hin.
    repeat match goal with
           | H : _ \/ _ |- _ => destruct H
           | H : False |- _ => destruct H
           end; subst; vm_compute; reflexivity. }
  intro H. vm_compute in H. discriminate H.
Defined.
